(** * OMAP4 PRM instance access, reset lines and the Voltage Processor

    A shallow embedding of [arch/arm/mach-omap2/prminst44xx.c] and
    [arch/arm/mach-omap2/vp.c], and of the n-value table builders of
    [arch/arm/mach-omap2/sr_device.c].  C functions become functions in a small
    monad that threads the state of the machine (device registers, the
    file-level static variables, and a trace of every externally visible
    action) and that distinguishes a normal return from a [BUG_ON] and from
    a fault (a dereference of a NULL or error pointer, a division by zero). *)

From Stdlib Require Import ZArith List Bool Lia String.
Import ListNotations.
Local Open Scope Z_scope.

(** ** Machine integers

    C unsigned integers are values of [Z] reduced modulo the width of their
    type; the reduction is written where the C code converts. *)

Definition u8 (x : Z) : Z := x mod 2 ^ 8.
Definition u16 (x : Z) : Z := x mod 2 ^ 16.
Definition u32 (x : Z) : Z := x mod 2 ^ 32.

(** [x << s] on a 32-bit unsigned operand. *)
Definition shl32 (x s : Z) : Z := u32 (Z.shiftl x s).

(** [~x] on a 32-bit unsigned operand. *)
Definition not32 (x : Z) : Z := u32 (Z.lnot x).

(** Modelled from the spec: [__ffs(x)] of the kernel's bitops, which is not
    part of the sources at hand: the index of the least significant set bit
    (0 for [x = 0], where the C function is undefined). *)
Fixpoint ctz (p : positive) : Z :=
  match p with
  | xO q => 1 + ctz q
  | _ => 0
  end.

Definition __ffs (x : Z) : Z :=
  match x with
  | Zpos p => ctz p
  | _ => 0
  end.

(** The kernel's errno values (errno-base.h and errno.h, not part of the
    sources at hand). *)
Definition EBUSY : Z := 16.
Definition EEXIST : Z := 17.
Definition EINVAL : Z := 22.
Definition ETIMEDOUT : Z := 110.

(** ** Kernel pointers

    A pointer is NULL, an [ERR_PTR] carrying an errno, or points to a
    value. *)
Inductive kptr (A : Type) : Type :=
| NullPtr
| ErrPtr (e : Z)
| Ptr (a : A).
Arguments NullPtr {A}.
Arguments ErrPtr {A} e.
Arguments Ptr {A} a.

(** [IS_ERR_OR_NULL(p)] *)
Definition IS_ERR_OR_NULL {A} (p : kptr A) : bool :=
  match p with
  | Ptr _ => false
  | _ => true
  end.

(** [!p] *)
Definition is_null {A} (p : kptr A) : bool :=
  match p with
  | NullPtr => true
  | _ => false
  end.

(** ** Outcomes and the execution monad *)

Inductive outcome (W A : Type) : Type :=
| Ret (a : A) (w : W)    (* the call returns [a], leaving the machine in [w] *)
| Bug (w : W)            (* a BUG_ON fired in [w]; the call never returns *)
| Fault (w : W).         (* invalid dereference or division by zero in [w] *)
Arguments Ret {W A} a w.
Arguments Bug {W A} w.
Arguments Fault {W A} w.

Definition M (W A : Type) : Type := W -> outcome W A.

Definition ret {W A} (a : A) : M W A := fun w => Ret a w.

Definition bind {W A B} (m : M W A) (k : A -> M W B) : M W B :=
  fun w =>
    match m w with
    | Ret a w' => k a w'
    | Bug w' => Bug w'
    | Fault w' => Fault w'
    end.

Definition BUG {W A} : M W A := fun w => Bug w.
Definition fault {W A} : M W A := fun w => Fault w.

(** Dereference of a pointer the code does not check. *)
Definition deref {W A} (p : kptr A) : M W A :=
  match p with
  | Ptr a => ret a
  | _ => fault
  end.

Declare Scope exec_scope.
Delimit Scope exec_scope with exec.
Notation "x <- m ;; k" := (bind m (fun x => k))
  (at level 61, m at next level, right associativity) : exec_scope.
Notation "m ;;; k" := (bind m (fun _ => k))
  (at level 61, right associativity) : exec_scope.
Local Open Scope exec_scope.

(** Modelled from the spec: the [omap_test_timeout(cond, timeout, index)]
    macro of common.h, which is not part of the sources at hand.  It polls
    [cond] at most [timeout] times, with [udelay(1)] after every poll that
    finds it false, and leaves in [index] the number of polls that found it
    false: [for (index = 0; index < timeout; index++) { if (cond) break;
    udelay(1); }].  [remaining] is [timeout - index]. *)
Fixpoint omap_test_timeout_from {W} (udelay1 : M W unit) (cond : M W bool)
    (remaining index : nat) : M W nat :=
  match remaining with
  | O => ret index
  | S remaining' =>
      c <- cond ;;
      if c then ret index
      else udelay1 ;;; omap_test_timeout_from udelay1 cond remaining' (S index)
  end.

Definition omap_test_timeout {W} (udelay1 : M W unit) (cond : M W bool)
    (timeout : nat) : M W nat :=
  omap_test_timeout_from udelay1 cond timeout 0.

(** ** The machine *)

(** Modelled from the spec: [struct omap_volt_data] of voltage.h, which is
    not part of the sources at hand, with the two fields these sources
    access. *)
Record omap_volt_data : Type := {
  volt_nominal : Z;
  vp_errgain : Z
}.

Inductive loglevel : Type :=
| KERN_ERR
| KERN_ERR_RATELIMITED
| KERN_WARNING
| KERN_WARNING_RATELIMITED.

(** Everything a call does that is visible outside it, in program order. *)
Inductive event : Type :=
| EvReadl (addr v : Z)                 (* __raw_readl(addr) gave v *)
| EvWritel (v addr : Z)                (* __raw_writel(v, addr) *)
| EvUdelay (us : Z)                    (* udelay(us) *)
| EvRead (addr v : Z)                  (* voltdm->read(addr) gave v *)
| EvWrite (v addr : Z)                 (* voltdm->write(v, addr) *)
| EvRmw (mask bits addr : Z)           (* voltdm->rmw(mask, bits, addr) *)
| EvCheckTxdone (id : Z) (done : bool) (* ops->check_txdone(id) gave done *)
| EvClearTxdone (id : Z)               (* ops->clear_txdone(id) *)
| EvRecover (id : Z)                   (* ops->recover(id) *)
| EvPreScale (volt : Z) (target : omap_volt_data) (r : Z)
| EvPostScale (volt : Z) (target : omap_volt_data) (target_vsel current_vsel : Z)
| EvGetCurrVdata
| EvLog (lvl : loglevel) (msg : string)
| EvDumpStack
| EvWarnOnce (format : string).          (* the warning of WARN_ONCE *)

Section Model.

(** The state of the devices and of the code outside these two files (the
    voltage controller, the voltage tables), with the ways this code acts
    on it. *)
Variable env : Type.
Variable __raw_readl : Z -> env -> Z * env.
Variable __raw_writel : Z -> Z -> env -> env.
Variable udelay_env : Z -> env -> env.

(** The state of the machine: the devices, the static variables of the two
    files, the [enabled] field of the VP instances (by VP id), and the
    trace. *)
Record world : Type := mkWorld {
  w_env : env;
  _prm_bases : Z -> Z;                   (* prminst44xx.c; 0 is NULL *)
  vp_enabled : Z -> bool;                (* vp->enabled *)
  __vp_debug_error_message_count : Z;    (* vp.c, u8 *)
  __vp_recover_count : Z;                (* vp.c, u8 *)
  trace : list event
}.

Definition set_env (e : env) (w : world) : world :=
  mkWorld e (_prm_bases w) (vp_enabled w) (__vp_debug_error_message_count w)
    (__vp_recover_count w) (trace w).

Definition set_prm_bases (b : Z -> Z) (w : world) : world :=
  mkWorld (w_env w) b (vp_enabled w) (__vp_debug_error_message_count w)
    (__vp_recover_count w) (trace w).

Definition set_vp_enabled (id : Z) (b : bool) (w : world) : world :=
  mkWorld (w_env w) (_prm_bases w)
    (fun i => if i =? id then b else vp_enabled w i)
    (__vp_debug_error_message_count w) (__vp_recover_count w) (trace w).

Definition set_message_count (c : Z) (w : world) : world :=
  mkWorld (w_env w) (_prm_bases w) (vp_enabled w) c (__vp_recover_count w)
    (trace w).

Definition set_recover_count (c : Z) (w : world) : world :=
  mkWorld (w_env w) (_prm_bases w) (vp_enabled w)
    (__vp_debug_error_message_count w) c (trace w).

Definition log_event (e : event) (w : world) : world :=
  mkWorld (w_env w) (_prm_bases w) (vp_enabled w)
    (__vp_debug_error_message_count w) (__vp_recover_count w)
    (trace w ++ [e]).

Local Abbreviation exec := (M world).

Definition emit (e : event) : exec unit := fun w => Ret tt (log_event e w).

Definition udelay (us : Z) : exec unit :=
  fun w => Ret tt (log_event (EvUdelay us) (set_env (udelay_env us (w_env w)) w)).

Definition pr_err (msg : string) : exec unit := emit (EvLog KERN_ERR msg).
Definition pr_err_ratelimited (msg : string) : exec unit :=
  emit (EvLog KERN_ERR_RATELIMITED msg).
Definition pr_warning (msg : string) : exec unit := emit (EvLog KERN_WARNING msg).
Definition pr_warn_ratelimited (msg : string) : exec unit :=
  emit (EvLog KERN_WARNING_RATELIMITED msg).
Definition dump_stack : exec unit := emit EvDumpStack.

(** The warning of [WARN_ONCE] in a trace. *)
Definition is_warn_once (e : event) : bool :=
  match e with
  | EvWarnOnce _ => true
  | _ => false
  end.

(** Modelled from the spec: [WARN_ONCE(condition, format)] of
    asm-generic/bug.h, which is not part of the sources at hand: the first
    time its condition holds it warns with [format], and from then on it is
    silent.  vp.c calls it at one place; whether it has warned already is
    read off the trace, which holds its warning. *)
Definition WARN_ONCE (condition : bool) (format : string) : exec unit :=
  fun w =>
    if condition && negb (existsb is_warn_once (trace w))
    then Ret tt (log_event (EvWarnOnce format) w)
    else Ret tt w.

(** *** prminst44xx.c *)

(** prcm44xx.h and prcm-common.h are not part of the sources at hand; their
    constants are parameters. *)
Variable OMAP4_MAX_PRCM_PARTITIONS : Z.
Variable OMAP4430_INVALID_PRCM_PARTITION : Z.
Variable OMAP4430_PRM_PARTITION : Z.
Variable OMAP4430_PRCM_MPU_PARTITION : Z.
Variable OMAP4430_SCRM_PARTITION : Z.
Variable MAX_MODULE_HARDRESET_WAIT : nat.

(** Modelled from the spec: [struct omap_globals] of common.h, which is not
    part of the sources at hand: the base addresses handed to
    [omap4_prm_base_init]. *)
Record omap_globals : Type := {
  prm : Z;
  prcm_mpu : Z;
  scrm : Z
}.

Definition store_base (part base : Z) (w : world) : world :=
  set_prm_bases (fun p => if p =? part then base else _prm_bases w p) w.

Definition omap4_prm_base_init (omap2_globals : omap_globals) : exec unit :=
  fun w =>
    Ret tt
      (store_base OMAP4430_SCRM_PARTITION (scrm omap2_globals)
         (store_base OMAP4430_PRCM_MPU_PARTITION (prcm_mpu omap2_globals)
            (store_base OMAP4430_PRM_PARTITION (prm omap2_globals) w))).

(** The condition of the [BUG_ON] of the two accessors. *)
Definition prm_part_bug (w : world) (part : Z) : bool :=
  (OMAP4_MAX_PRCM_PARTITIONS <=? part)
  || (part =? OMAP4430_INVALID_PRCM_PARTITION)
  || (_prm_bases w part =? 0).

Definition raw_readl (addr : Z) : exec Z :=
  fun w =>
    let (v, e) := __raw_readl addr (w_env w) in
    Ret (u32 v) (log_event (EvReadl addr (u32 v)) (set_env e w)).

Definition raw_writel (v addr : Z) : exec unit :=
  fun w =>
    Ret tt (log_event (EvWritel v addr) (set_env (__raw_writel v addr (w_env w)) w)).

Definition omap4_prminst_read_inst_reg (part inst idx : Z) : exec Z :=
  fun w =>
    if prm_part_bug w part then Bug w
    else raw_readl (_prm_bases w part + inst + idx) w.

Definition omap4_prminst_write_inst_reg (val part inst idx : Z) : exec unit :=
  fun w =>
    if prm_part_bug w part then Bug w
    else raw_writel val (_prm_bases w part + inst + idx) w.

Definition omap4_prminst_rmw_inst_reg_bits (mask bits part inst idx : Z)
    : exec Z :=
  v <- omap4_prminst_read_inst_reg part inst idx ;;
  let v := Z.land v (not32 mask) in
  let v := Z.lor v bits in
  omap4_prminst_write_inst_reg v part inst idx ;;;
  ret v.

Definition OMAP4_RST_CTRL_ST_OFFSET : Z := 4.

Definition omap4_prminst_is_hardreset_asserted (shift part inst rstctrl_offs : Z)
    : exec Z :=
  v <- omap4_prminst_read_inst_reg part inst rstctrl_offs ;;
  let v := Z.land v (shl32 1 shift) in
  let v := Z.shiftr v shift in
  ret v.

Definition omap4_prminst_assert_hardreset (shift part inst rstctrl_offs : Z)
    : exec Z :=
  let mask := shl32 1 shift in
  omap4_prminst_rmw_inst_reg_bits mask mask part inst rstctrl_offs ;;;
  ret 0.

Definition omap4_prminst_deassert_hardreset (shift part inst rstctrl_offs : Z)
    : exec Z :=
  let mask := shl32 1 shift in
  let rstst_offs := u16 (rstctrl_offs + OMAP4_RST_CTRL_ST_OFFSET) in
  a <- omap4_prminst_is_hardreset_asserted shift part inst rstctrl_offs ;;
  if a =? 0 then ret (- EEXIST)
  else
    omap4_prminst_rmw_inst_reg_bits 0xffffffff mask part inst rstst_offs ;;;
    omap4_prminst_rmw_inst_reg_bits mask 0 part inst rstctrl_offs ;;;
    c <- omap_test_timeout (udelay 1)
           (s <- omap4_prminst_is_hardreset_asserted shift part inst rstst_offs ;;
            ret (negb (s =? 0)))
           MAX_MODULE_HARDRESET_WAIT ;;
    ret (if Nat.eqb c MAX_MODULE_HARDRESET_WAIT then - EBUSY else 0).

(** *** vp.c *)

(** Modelled from the spec: the structures of vp.h and voltage.h, which
    are not part of the sources at hand.  They carry the fields vp.c
    accesses; integer fields hold values of at most 32 bits, a missing
    optional function is a NULL pointer, and [uv_to_vsel] returns a
    selector of 8 bits. *)

(** [struct omap_vp_ops] *)
Record omap_vp_ops : Type := {
  check_txdone : Z -> env -> bool * env;
  clear_txdone : Z -> env -> env;
  recover : kptr (Z -> env -> env)
}.

(** [struct omap_vp_common] *)
Record omap_vp_common : Type := {
  vpconfig_erroroffset_mask : Z;
  vpconfig_errorgain_mask : Z;
  vpconfig_initvoltage_mask : Z;
  vpconfig_timeouten : Z;
  vpconfig_initvdd : Z;
  vpconfig_forceupdate : Z;
  vpconfig_vpenable : Z;
  vstatus_vpidle : Z;
  vpvoltage_mask : Z;
  vstepmin_smpswaittimemin_shift : Z;
  vstepmin_stepmin_shift : Z;
  vstepmax_stepmax_shift : Z;
  vstepmax_smpswaittimemax_shift : Z;
  vlimitto_vddmax_shift : Z;
  vlimitto_vddmin_shift : Z;
  vlimitto_timeout_shift : Z;
  ops : omap_vp_ops
}.

(** [struct omap_vp_instance]; its [enabled] field lives in the [world]. *)
Record omap_vp_instance : Type := {
  common : omap_vp_common;
  id : Z;
  vpconfig : Z;
  vstepmin : Z;
  vstepmax : Z;
  vlimitto : Z;
  vstatus : Z;
  voltage : Z
}.

(** [struct omap_voltdm_pmic] *)
Record omap_voltdm_pmic : Type := {
  slew_rate : Z;
  step_size : Z;
  vp_erroroffset : Z;
  vp_vstepmin : Z;
  vp_vstepmax : Z;
  pmic_vddmin : Z;                       (* pmic->vddmin *)
  pmic_vddmax : Z;                       (* pmic->vddmax *)
  vp_timeout_us : Z;
  uv_to_vsel : kptr (Z -> Z);
  vsel_to_uv : kptr (Z -> Z)
}.

(** [struct omap_vc_param] and [struct omap_vp_param] *)
Record omap_vc_param : Type := {
  vc_ret : Z                             (* vc_param->ret *)
}.

Record omap_vp_param : Type := {
  vddmin : Z;
  vddmax : Z
}.

(** [struct voltagedomain] *)
Record voltagedomain : Type := {
  name : string;
  vp : kptr omap_vp_instance;
  pmic : kptr omap_voltdm_pmic;
  read : kptr (Z -> env -> Z * env);
  write : kptr (Z -> Z -> env -> env);
  rmw : kptr (Z -> Z -> Z -> env -> Z * env);
  sys_clk_rate : Z;                      (* sys_clk.rate *)
  vc_param : kptr omap_vc_param;
  vp_param : kptr omap_vp_param
}.

(** The collaborators of vp.c: the voltage layer and the voltage
    controller, and the polling budgets of vp.h. *)
Variable omap_get_operation_voltage : omap_volt_data -> Z.
Variable omap_voltage_get_curr_vdata_env :
  voltagedomain -> env -> kptr omap_volt_data * env.
Variable omap_vc_pre_scale_env :
  voltagedomain -> Z -> omap_volt_data -> env -> (Z * Z * Z) * env.
Variable omap_vc_post_scale_env :
  voltagedomain -> Z -> omap_volt_data -> Z -> Z -> env -> env.
Variable VP_IDLE_TIMEOUT : nat.
Variable VP_TRANXDONE_TIMEOUT : nat.

(** [voltdm->read(addr)], [voltdm->write(val, addr)] and
    [voltdm->rmw(mask, bits, addr)] *)
Definition voltdm_read (voltdm : voltagedomain) (addr : Z) : exec Z :=
  f <- deref (read voltdm) ;;
  fun w =>
    let (v, e) := f addr (w_env w) in
    Ret (u32 v) (log_event (EvRead addr (u32 v)) (set_env e w)).

Definition voltdm_write (voltdm : voltagedomain) (val addr : Z) : exec unit :=
  f <- deref (write voltdm) ;;
  fun w => Ret tt (log_event (EvWrite val addr) (set_env (f val addr (w_env w)) w)).

Definition voltdm_rmw (voltdm : voltagedomain) (mask bits addr : Z) : exec Z :=
  f <- deref (rmw voltdm) ;;
  fun w =>
    let (v, e) := f mask bits addr (w_env w) in
    Ret (u32 v) (log_event (EvRmw mask bits addr) (set_env e w)).

(** [vp->common->ops->check_txdone(vp->id)] and its companions *)
Definition vp_check_txdone (vp : omap_vp_instance) : exec bool :=
  fun w =>
    let (b, e) := check_txdone (ops (common vp)) (id vp) (w_env w) in
    Ret b (log_event (EvCheckTxdone (id vp) b) (set_env e w)).

Definition vp_clear_txdone (vp : omap_vp_instance) : exec unit :=
  fun w =>
    Ret tt (log_event (EvClearTxdone (id vp))
              (set_env (clear_txdone (ops (common vp)) (id vp) (w_env w)) w)).

Definition vp_recover (f : Z -> env -> env) (vp : omap_vp_instance) : exec unit :=
  fun w => Ret tt (log_event (EvRecover (id vp)) (set_env (f (id vp) (w_env w)) w)).

Definition omap_voltage_get_curr_vdata (voltdm : voltagedomain)
    : exec (kptr omap_volt_data) :=
  fun w =>
    let (v, e) := omap_voltage_get_curr_vdata_env voltdm (w_env w) in
    Ret v (log_event EvGetCurrVdata (set_env e w)).

(** [omap_vc_pre_scale] returns its status and, through its two pointer
    arguments, the target and current selectors. *)
Definition omap_vc_pre_scale (voltdm : voltagedomain) (target_volt : Z)
    (target_v : omap_volt_data) : exec (Z * Z * Z) :=
  fun w =>
    let (r, e) := omap_vc_pre_scale_env voltdm target_volt target_v (w_env w) in
    Ret r (log_event (EvPreScale target_volt target_v (fst (fst r))) (set_env e w)).

Definition omap_vc_post_scale (voltdm : voltagedomain) (target_volt : Z)
    (target_v : omap_volt_data) (target_vsel current_vsel : Z) : exec unit :=
  fun w =>
    Ret tt
      (log_event (EvPostScale target_volt target_v target_vsel current_vsel)
         (set_env
            (omap_vc_post_scale_env voltdm target_volt target_v target_vsel
               current_vsel (w_env w)) w)).

Definition _vp_wait_for_idle (voltdm : voltagedomain) (vp : omap_vp_instance)
    : exec Z :=
  timeout <- omap_test_timeout (udelay 1)
               (v <- voltdm_read voltdm (vstatus vp) ;;
                ret (negb (Z.land v (vstatus_vpidle (common vp)) =? 0)))
               VP_IDLE_TIMEOUT ;;
  if (VP_IDLE_TIMEOUT <=? timeout)%nat then
    pr_warn_ratelimited "%s: vdd_%s idle timedout" ;;;
    (* the message is passed as the condition, the name as the format *)
    WARN_ONCE true (name voltdm) ;;;
    ret (- ETIMEDOUT)
  else ret 0.

Definition _vp_set_init_voltage (voltdm : voltagedomain) (volt : Z) : exec Z :=
  p <- deref (pmic voltdm) ;;
  conv <- deref (uv_to_vsel p) ;;
  let vsel := u8 (conv volt) in
  vp <- deref (vp voltdm) ;;
  vpconfig_v <- voltdm_read voltdm (vpconfig vp) ;;
  let vpconfig_v :=
    Z.land vpconfig_v
      (not32 (Z.lor (Z.lor (vpconfig_initvoltage_mask (common vp))
                       (vpconfig_forceupdate (common vp)))
                (vpconfig_initvdd (common vp)))) in
  let vpconfig_v :=
    Z.lor vpconfig_v (shl32 vsel (__ffs (vpconfig_initvoltage_mask (common vp)))) in
  voltdm_write voltdm vpconfig_v (vpconfig vp) ;;;
  (* Trigger initVDD value copy to voltage processor *)
  voltdm_write voltdm (Z.lor vpconfig_v (vpconfig_initvdd (common vp)))
    (vpconfig vp) ;;;
  (* Clear initVDD copy trigger bit *)
  voltdm_write voltdm vpconfig_v (vpconfig vp) ;;;
  ret vpconfig_v.

(** Modelled from the spec: the [DIV_ROUND_UP(n, d)] macro of
    linux/kernel.h, which is not part of the sources at hand:
    [((n) + (d) - 1) / (d)], here on 32-bit unsigned operands; a zero divisor
    is a fault. *)
Definition DIV_ROUND_UP (n d : Z) : exec Z :=
  if d =? 0 then fault else ret (u32 (n + d - 1) / d).

Definition omap_vp_init (voltdm : kptr voltagedomain) : exec unit :=
  if IS_ERR_OR_NULL voltdm then
    pr_err "%s: VDD specified does not exist!" ;;; ret tt
  else
  d <- deref voltdm ;;
  no_pmic <- (if is_null (pmic d) then ret true
              else p <- deref (pmic d) ;; ret (is_null (uv_to_vsel p))) ;;
  if no_pmic : bool then
    pr_err "%s: No PMIC info for vdd_%s" ;;; ret tt
  else
  if is_null (read d) || is_null (write d) then
    pr_err "%s: No read/write API for accessing vdd_%s regs" ;;; ret tt
  else
  if IS_ERR_OR_NULL (vp d) then
    pr_err "%s: No VP info for vdd_%s" ;;; ret tt
  else
  if IS_ERR_OR_NULL (vc_param d) then
    pr_err "%s: No vc_param info for vdd_%s" ;;; ret tt
  else
  if IS_ERR_OR_NULL (vp_param d) then
    pr_err "%s: No vp_param info for vdd_%s" ;;; ret tt
  else
  vpi <- deref (vp d) ;;
  (fun w => Ret tt (set_vp_enabled (id vpi) false w)) ;;;
  p <- deref (pmic d) ;;
  vpp <- deref (vp_param d) ;;
  vcp <- deref (vc_param d) ;;
  conv <- deref (uv_to_vsel p) ;;
  (* Divide to avoid overflow *)
  let sys_clk_rate_k := sys_clk_rate d / 1000 in
  let timeout := u32 (sys_clk_rate_k * vp_timeout_us p) / 1000 in
  let vddmin_v := Z.max (vddmin vpp) (pmic_vddmin p) in
  let vddmin_v := Z.max vddmin_v (vc_ret vcp) in
  let vddmax_v := Z.min (vddmax vpp) (pmic_vddmax p) in
  let vddmin_v := u8 (conv vddmin_v) in
  let vddmax_v := u8 (conv vddmax_v) in
  waittime <- DIV_ROUND_UP (u32 (step_size p * sys_clk_rate_k))
                (u32 (1000 * slew_rate p)) ;;
  let vstepmin_v := vp_vstepmin p in
  let vstepmax_v := vp_vstepmax p in
  (* VP_CONFIG: error gain is not set here *)
  let val := Z.lor (shl32 (vp_erroroffset p)
                      (__ffs (vpconfig_erroroffset_mask (common vpi))))
               (vpconfig_timeouten (common vpi)) in
  voltdm_write d val (vpconfig vpi) ;;;
  (* VSTEPMIN *)
  let val := Z.lor (shl32 waittime (vstepmin_smpswaittimemin_shift (common vpi)))
               (shl32 vstepmin_v (vstepmin_stepmin_shift (common vpi))) in
  voltdm_write d val (vstepmin vpi) ;;;
  (* VSTEPMAX *)
  let val := Z.lor (shl32 vstepmax_v (vstepmax_stepmax_shift (common vpi)))
               (shl32 waittime (vstepmax_smpswaittimemax_shift (common vpi))) in
  voltdm_write d val (vstepmax vpi) ;;;
  (* VLIMITTO *)
  let val := Z.lor (Z.lor (shl32 vddmax_v (vlimitto_vddmax_shift (common vpi)))
                      (shl32 vddmin_v (vlimitto_vddmin_shift (common vpi))))
               (shl32 timeout (vlimitto_timeout_shift (common vpi))) in
  voltdm_write d val (vlimitto vpi).

Definition omap_vp_update_errorgain (voltdm : kptr voltagedomain)
    (volt_data : kptr omap_volt_data) : exec Z :=
  if IS_ERR_OR_NULL voltdm then
    pr_err "%s: VDD specified does not exist!" ;;; ret 0
  else
  d <- deref voltdm ;;
  if is_null (vp d) then ret (- EINVAL)
  else
  if IS_ERR_OR_NULL volt_data then
    pr_err "%s: vdm %s no voltage data for %p" ;;; ret (- EINVAL)
  else
  if IS_ERR_OR_NULL (rmw d) then
    pr_err "%s: No rmw API for reading vdd_%s regs" ;;; ret 0
  else
  vpi <- deref (vp d) ;;
  vd <- deref volt_data ;;
  (* Setting vp errorgain based on the voltage *)
  voltdm_rmw d (vpconfig_errorgain_mask (common vpi))
    (shl32 (vp_errgain vd) (__ffs (vpconfig_errorgain_mask (common vpi))))
    (vpconfig vpi) ;;;
  ret 0.

Definition _MAX_RETRIES_BEFORE_RECOVER : Z := 50.
Definition _MAX_COUNT_ERR : Z := 10.

(** The format strings of the messages of [omap_vp_forceupdate_scale] and
    of the recovery notice (without their final newline). *)
Definition msg_idle_timedout : string := "%s: vdd_%s idle timedout (v=%ld)".
Definition msg_tranxdone_aborted : string :=
  "%s: vdd_%s TRANXDONE timeout exceeded.Voltage change aborted target volt=%ld,target vsel=0x%02x, current_vsel=0x%02x".
Definition msg_tranxdone_never_set : string :=
  "%s: vdd_%s TRANXDONE timeout exceeded. TRANXDONE never got set after the voltage update. target volt=%ld, target vsel=0x%02x, current_vsel=0x%02x".
Definition msg_tranxdone_not_cleared : string :=
  "%s: vdd_%s TRANXDONE timeout exceeded whiletrying to clear the TRANXDONE status. target volt=%ld,target vsel=0x%02x, current_vsel=0x%02x".
Definition msg_recovery_triggered : string :=
  "%s:domain %s recovery count triggered".

(** The macro [_vp_controlled_err(vp, voltdm, ARGS...)]; [msg] stands for
    the format of [ARGS]. *)
Definition _vp_controlled_err (vp : omap_vp_instance) (voltdm : voltagedomain)
    (msg : string) : exec unit :=
  (fun w =>
     if negb (__vp_debug_error_message_count w =? 0) then
       (pr_err msg ;;;
        dump_stack ;;;
        fun w' =>
          Ret tt (set_message_count (u8 (__vp_debug_error_message_count w' - 1)) w'))
         w
     else pr_err_ratelimited msg w) ;;;
  if is_null (recover (ops (common vp))) then ret tt
  else
    c <- (fun w =>
            let c := u8 (__vp_recover_count w - 1) in
            Ret c (set_recover_count c w)) ;;
    if c =? 0 then
      pr_err msg_recovery_triggered ;;;
      f <- deref (recover (ops (common vp))) ;;
      vp_recover f vp ;;;
      fun w => Ret tt (set_recover_count _MAX_RETRIES_BEFORE_RECOVER w)
    else ret tt.

(** The loop [while (timeout++ < VP_TRANXDONE_TIMEOUT) { clear_txdone;
    if (!check_txdone) break; udelay(1); }] that
    [omap_vp_forceupdate_scale] runs twice; the result is the value of
    [timeout] after the loop.  [remaining] is
    [VP_TRANXDONE_TIMEOUT - timeout]. *)
Fixpoint txdone_clear_loop (vp : omap_vp_instance) (remaining timeout : nat)
    : exec nat :=
  match remaining with
  | O => ret (S timeout)
  | S remaining' =>
      vp_clear_txdone vp ;;;
      pending <- vp_check_txdone vp ;;
      if negb pending then ret (S timeout)
      else udelay 1 ;;; txdone_clear_loop vp remaining' (S timeout)
  end.

(** VP force update method of voltage scaling *)
Definition omap_vp_forceupdate_scale (voltdm : kptr voltagedomain)
    (target_v : kptr omap_volt_data) : exec Z :=
  if IS_ERR_OR_NULL voltdm then
    pr_err "%s: VDD specified does not exist!" ;;; ret (- EINVAL)
  else
  d <- deref voltdm ;;
  if IS_ERR_OR_NULL (write d) then
    pr_err "%s: No write API for writing vdd_%s regs" ;;; ret (- EINVAL)
  else
  if IS_ERR_OR_NULL target_v then
    pr_err "%s: No target_v info to scale vdd_%s" ;;; ret (- EINVAL)
  else
  if IS_ERR_OR_NULL (vp d) then
    pr_err "%s: No VP info for vdd_%s" ;;; ret (- EINVAL)
  else
  vpi <- deref (vp d) ;;
  tv <- deref target_v ;;
  let target_volt := omap_get_operation_voltage tv in
  r <- _vp_wait_for_idle d vpi ;;
  if negb (r =? 0) then
    _vp_controlled_err vpi d msg_idle_timedout ;;;
    ret r
  else
  pre <- omap_vc_pre_scale d target_volt tv ;;
  let '(r, target_vsel, current_vsel) := pre in
  if negb (r =? 0) then ret r
  else
  (* Clear all pending TransactionDone interrupt/status *)
  timeout <- txdone_clear_loop vpi VP_TRANXDONE_TIMEOUT 0 ;;
  if (VP_TRANXDONE_TIMEOUT <=? timeout)%nat then
    _vp_controlled_err vpi d msg_tranxdone_aborted ;;;
    ret (- ETIMEDOUT)
  else
  vpconfig_v <- _vp_set_init_voltage d target_volt ;;
  (* Force update of voltage *)
  voltdm_write d (Z.lor vpconfig_v (vpconfig_forceupdate (common vpi)))
    (vpconfig vpi) ;;;
  (* Wait for TransactionDone *)
  timeout <- omap_test_timeout (udelay 1) (vp_check_txdone vpi)
               VP_TRANXDONE_TIMEOUT ;;
  (if (VP_TRANXDONE_TIMEOUT <=? timeout)%nat then
     _vp_controlled_err vpi d msg_tranxdone_never_set
   else ret tt) ;;;
  omap_vc_post_scale d target_volt tv target_vsel current_vsel ;;;
  (* Disable TransactionDone interrupt, clear all status *)
  timeout <- txdone_clear_loop vpi VP_TRANXDONE_TIMEOUT 0 ;;
  (if (VP_TRANXDONE_TIMEOUT <=? timeout)%nat then
     _vp_controlled_err vpi d msg_tranxdone_not_cleared
   else ret tt) ;;;
  (* Clear force bit *)
  voltdm_write d vpconfig_v (vpconfig vpi) ;;;
  ret 0.

Definition omap_vp_enable (voltdm : kptr voltagedomain) : exec unit :=
  if IS_ERR_OR_NULL voltdm then
    pr_err "%s: VDD specified does not exist!" ;;; ret tt
  else
  d <- deref voltdm ;;
  if IS_ERR_OR_NULL (vp d) then
    pr_err "%s: No VP info for vdd_%s" ;;; ret tt
  else
  if is_null (read d) || is_null (write d) then
    pr_err "%s: No read/write API for accessing vdd_%s regs" ;;; ret tt
  else
  vpi <- deref (vp d) ;;
  (* If VP is already enabled, do nothing. Return *)
  enabled <- (fun w => Ret (vp_enabled w (id vpi)) w) ;;
  if enabled : bool then ret tt
  else
  volt <- omap_voltage_get_curr_vdata d ;;
  if is_null volt then
    pr_warning "%s: unable to find current voltage for %s" ;;; ret tt
  else
  vd <- deref volt ;;
  vpconfig_v <- _vp_set_init_voltage d (omap_get_operation_voltage vd) ;;
  (* Enable VP *)
  let vpconfig_v := Z.lor vpconfig_v (vpconfig_vpenable (common vpi)) in
  voltdm_write d vpconfig_v (vpconfig vpi) ;;;
  fun w => Ret tt (set_vp_enabled (id vpi) true w).

(** [omap_vp_get_curr_volt]: [curr_vsel] is a [u8] and the result an
    [unsigned long]. *)
Definition omap_vp_get_curr_volt (voltdm : kptr voltagedomain) : exec Z :=
  if IS_ERR_OR_NULL voltdm then
    pr_warning "%s: VDD specified does not exist!" ;;; ret 0
  else
  d <- deref voltdm ;;
  if is_null (read d) then
    pr_err "%s: No read API for reading vdd_%s regs" ;;; ret 0
  else
  if IS_ERR_OR_NULL (vp d) then
    pr_err "%s: No VP info for vdd_%s" ;;; ret 0
  else
  vpi <- deref (vp d) ;;
  v <- voltdm_read d (voltage vpi) ;;
  let curr_vsel :=
    u8 (Z.shiftr (Z.land v (vpvoltage_mask (common vpi)))
          (__ffs (vpvoltage_mask (common vpi)))) in
  no_conv <- (if is_null (pmic d) then ret true
              else p <- deref (pmic d) ;; ret (is_null (vsel_to_uv p))) ;;
  if no_conv : bool then
    pr_warning "%s: PMIC function vsel_to_uv not registered" ;;; ret 0
  else
  p <- deref (pmic d) ;;
  conv <- deref (vsel_to_uv p) ;;
  ret (u32 (conv curr_vsel)).

(** [omap_vp_is_transdone] and [omap_vp_clear_transdone] check none of
    their pointers. *)
Definition omap_vp_is_transdone (voltdm : kptr voltagedomain) : exec bool :=
  d <- deref voltdm ;;
  vpi <- deref (vp d) ;;
  vp_check_txdone vpi.

Definition omap_vp_clear_transdone (voltdm : kptr voltagedomain) : exec unit :=
  d <- deref voltdm ;;
  vpi <- deref (vp d) ;;
  vp_clear_txdone vpi.

Definition omap_vp_disable (voltdm : kptr voltagedomain) : exec unit :=
  if IS_ERR_OR_NULL voltdm then
    pr_err "%s: VDD specified does not exist!" ;;; ret tt
  else
  d <- deref voltdm ;;
  if IS_ERR_OR_NULL (vp d) then
    pr_err "%s: No VP info for vdd_%s" ;;; ret tt
  else
  if is_null (read d) || is_null (write d) then
    pr_err "%s: No read/write API for accessing vdd_%s regs" ;;; ret tt
  else
  vpi <- deref (vp d) ;;
  (* If VP is already disabled, do nothing. Return *)
  enabled <- (fun w => Ret (vp_enabled w (id vpi)) w) ;;
  if negb enabled then
    pr_warning "%s: Trying to disable VP for vdd_%s whenit is already disabled" ;;;
    ret tt
  else
  r <- _vp_wait_for_idle d vpi ;;
  (if negb (r =? 0) then
     pr_warn_ratelimited "%s: vdd_%s timedout!Ignore and try"
   else ret tt) ;;;
  (* Disable VP *)
  vpconfig_v <- voltdm_read d (vpconfig vpi) ;;
  let vpconfig_v := Z.land vpconfig_v (not32 (vpconfig_vpenable (common vpi))) in
  voltdm_write d vpconfig_v (vpconfig vpi) ;;;
  r <- _vp_wait_for_idle d vpi ;;
  (if negb (r =? 0) then
     pr_warn_ratelimited "%s: vdd_%s timedout after disable!!"
   else ret tt) ;;;
  fun w => Ret tt (set_vp_enabled (id vpi) false w).

(** *** sr_device.c *)

(** Modelled from the spec: the fields of [struct omap_volt_data]
    (voltage.h) that sr_device.c reads besides those above, and the
    structures of linux/power/smartreflex.h that it fills; these headers are
    not part of the sources at hand. *)
Record sr_volt_data : Type := {
  vdata : omap_volt_data;
  sr_efuse_offs : Z;
  sr_errminlimit : Z;
  lvt_sr_efuse_offs : Z
}.

(** [struct omap_sr_nvalue_table] *)
Record omap_sr_nvalue_table : Type := {
  efuse_offs : Z;
  nvalue : Z;
  errminlimit : Z;
  nvalue_volt_nominal : Z                (* volt_nominal *)
}.

(** [struct omap_sr_data], with the fields the two table builders set; a
    table is the array its pointer leads to. *)
Record omap_sr_data : Type := {
  nvalue_count : Z;
  nvalue_table : kptr (list omap_sr_nvalue_table);
  lvt_nvalue_count : Z;
  lvt_nvalue_table : kptr (list omap_sr_nvalue_table)
}.

(** An entry of a [kzalloc]ed table. *)
Definition zeroed_nvalue : omap_sr_nvalue_table :=
  {| efuse_offs := 0; nvalue := 0; errminlimit := 0; nvalue_volt_nominal := 0 |}.

(** [table[j] = entry]; a store behind the end of the array is a fault. *)
Fixpoint store_nvalue {W} (j : nat) (update : omap_sr_nvalue_table -> omap_sr_nvalue_table)
    (table : list omap_sr_nvalue_table) : M W (list omap_sr_nvalue_table) :=
  match table, j with
  | [], _ => fault
  | e :: rest, O => ret (update e :: rest)
  | e :: rest, S j' => rest' <- store_nvalue j' update rest ;; ret (e :: rest')
  end.

Section Soc.

(** The SoC detection of soc.h, the register layout of prm44xx.h, prm54xx.h
    and prm-regbits-44xx.h, the control-module accessors of control.h and
    the allocator of linux/slab.h are not part of the sources at hand. *)
Variable cpu_is_omap44xx : bool.
Variable OMAP4430_PRM_DEVICE_INST : Z.
Variable OMAP54XX_PRM_DEVICE_INST : Z.
Variable OMAP4_PRM_RSTCTRL_OFFSET : Z.
Variable OMAP4430_RST_GLOBAL_WARM_SW_MASK : Z.
Variable OMAP4_RM_RSTST : Z.
Variable OMAP4_RM_RSTCTRL : Z.
Variable OMAP4430_GLOBAL_COLD_RST_MASK : Z.
Variable OMAP4430_RST_GLOBAL_COLD_SW_MASK : Z.
Variable omap_ctrl_readb_env : Z -> env -> Z * env.
Variable omap_ctrl_readl_env : Z -> env -> Z * env.
Variable kzalloc_env : Z -> env -> bool * env.
Variable sizeof_omap_sr_nvalue_table : Z.

(** *** prminst44xx.c: the global resets *)

Definition omap4_prminst_global_warm_sw_reset : exec unit :=
  let dev_inst := if cpu_is_omap44xx then OMAP4430_PRM_DEVICE_INST
                  else OMAP54XX_PRM_DEVICE_INST in
  v <- omap4_prminst_read_inst_reg OMAP4430_PRM_PARTITION dev_inst
         OMAP4_PRM_RSTCTRL_OFFSET ;;
  let v := Z.lor v OMAP4430_RST_GLOBAL_WARM_SW_MASK in
  omap4_prminst_write_inst_reg v OMAP4430_PRM_PARTITION dev_inst
    OMAP4_PRM_RSTCTRL_OFFSET ;;;
  (* OCP barrier *)
  _ <- omap4_prminst_read_inst_reg OMAP4430_PRM_PARTITION dev_inst
         OMAP4_PRM_RSTCTRL_OFFSET ;;
  ret tt.

Definition omap4_prminst_global_cold_sw_reset : exec unit :=
  let dev_inst := if cpu_is_omap44xx then OMAP4430_PRM_DEVICE_INST
                  else OMAP54XX_PRM_DEVICE_INST in
  (* If bootloader/PPA has not cleared, ensure it is cleared *)
  omap4_prminst_write_inst_reg OMAP4430_GLOBAL_COLD_RST_MASK
    OMAP4430_PRM_PARTITION dev_inst OMAP4_RM_RSTST ;;;
  v <- omap4_prminst_read_inst_reg OMAP4430_PRM_PARTITION dev_inst
         OMAP4_RM_RSTCTRL ;;
  let v := Z.lor v OMAP4430_RST_GLOBAL_COLD_SW_MASK in
  omap4_prminst_write_inst_reg v OMAP4430_PRM_PARTITION dev_inst
    OMAP4_RM_RSTCTRL ;;;
  (* OCP barrier *)
  _ <- omap4_prminst_read_inst_reg OMAP4430_PRM_PARTITION dev_inst
         OMAP4_RM_RSTCTRL ;;
  udelay 184.

(** *** sr_device.c: the n-value tables *)

(** [omap_ctrl_readb(u16 offset)], [omap_ctrl_readl(u16 offset)] and
    [kzalloc(size, GFP_KERNEL)], which tells whether memory was obtained. *)
Definition omap_ctrl_readb (offset : Z) : exec Z :=
  fun w =>
    let (v, e) := omap_ctrl_readb_env (u16 offset) (w_env w) in
    Ret (u8 v) (set_env e w).

Definition omap_ctrl_readl (offset : Z) : exec Z :=
  fun w =>
    let (v, e) := omap_ctrl_readl_env (u16 offset) (w_env w) in
    Ret (u32 v) (set_env e w).

Definition kzalloc (size : Z) : exec bool :=
  fun w =>
    let (ok, e) := kzalloc_env size (w_env w) in
    Ret ok (set_env e w).

(** Modelled from the spec: [WARN(condition, format)] of asm-generic/bug.h,
    which is not part of the sources at hand: when the condition holds, a
    warning with a stack dump. *)
Definition WARN (condition : bool) (msg : string) : exec unit :=
  if condition then pr_warning msg ;;; dump_stack else ret tt.

(** [while (volt_data[count].volt_nominal) count++]: [volt_data] holds the
    array from index [count] on; a read behind its end is a fault. *)
Fixpoint count_volt_data (volt_data : list sr_volt_data) (count : nat)
    : exec nat :=
  match volt_data with
  | [] => fault
  | vd :: rest =>
      if volt_nominal (vdata vd) =? 0 then ret count
      else count_volt_data rest (S count)
  end.

(** The [for] loop of [sr_set_nvalues] from index [i] on: [volt_data] holds
    the entries [i] to [count - 1]; the result is the table and [j].  The
    three byte reads of the OMAP4 branch, whose order C leaves open, are taken
    from left to right. *)
Fixpoint sr_set_nvalues_from (volt_data : list sr_volt_data)
    (nvalue_table : list omap_sr_nvalue_table) (j : nat)
    : exec (list omap_sr_nvalue_table * nat) :=
  match volt_data with
  | [] => ret (nvalue_table, j)
  | vd :: rest =>
      v <- (if cpu_is_omap44xx then
              let offset := u16 (sr_efuse_offs vd) in
              b0 <- omap_ctrl_readb offset ;;
              b1 <- omap_ctrl_readb (offset + 1) ;;
              b2 <- omap_ctrl_readb (offset + 2) ;;
              ret (u32 (Z.lor (Z.lor b0 (Z.shiftl b1 8)) (Z.shiftl b2 16)))
            else omap_ctrl_readl (sr_efuse_offs vd)) ;;
      if v =? 0 then sr_set_nvalues_from rest nvalue_table j
      else
        nvalue_table <-
          store_nvalue j
            (fun _ =>
               {| efuse_offs := sr_efuse_offs vd;
                  nvalue := v;
                  errminlimit := sr_errminlimit vd;
                  nvalue_volt_nominal := volt_nominal (vdata vd) |})
            nvalue_table ;;
        sr_set_nvalues_from rest nvalue_table (S j)
  end.

(** Read EFUSE values from control registers; the result is [*sr_data]
    after the call. *)
Definition sr_set_nvalues (volt_data : list sr_volt_data)
    (sr_data : omap_sr_data) : exec omap_sr_data :=
  let sr_data :=
    {| nvalue_count := 0; nvalue_table := NullPtr;
       lvt_nvalue_count := lvt_nvalue_count sr_data;
       lvt_nvalue_table := lvt_nvalue_table sr_data |} in
  count <- count_volt_data volt_data 0 ;;
  allocated <- kzalloc (u32 (sizeof_omap_sr_nvalue_table * Z.of_nat count)) ;;
  if negb allocated then
    pr_err "OMAP: SmartReflex: cannot allocate memory for n-value table" ;;;
    ret sr_data
  else
  filled <- sr_set_nvalues_from (firstn count volt_data)
              (repeat zeroed_nvalue count) 0 ;;
  let (nvalue_table_v, j) := filled in
  ret {| nvalue_count := Z.of_nat j; nvalue_table := Ptr nvalue_table_v;
         lvt_nvalue_count := lvt_nvalue_count sr_data;
         lvt_nvalue_table := lvt_nvalue_table sr_data |}.

(** The [for] loop of [lvt_sr_set_nvalues]; the limits of the entries stay
    as [kzalloc] left them. *)
Fixpoint lvt_sr_set_nvalues_from (volt_data : list sr_volt_data)
    (lvt_nvalue_table : list omap_sr_nvalue_table) (j : nat)
    : exec (list omap_sr_nvalue_table * nat) :=
  match volt_data with
  | [] => ret (lvt_nvalue_table, j)
  | vd :: rest =>
      v <- omap_ctrl_readl (lvt_sr_efuse_offs vd) ;;
      (* Few voltage offsets may have empty LVT sensor efuse values *)
      if v =? 0 then lvt_sr_set_nvalues_from rest lvt_nvalue_table j
      else
        lvt_nvalue_table <-
          store_nvalue j
            (fun e =>
               {| efuse_offs := lvt_sr_efuse_offs vd;
                  nvalue := v;
                  errminlimit := errminlimit e;
                  nvalue_volt_nominal := volt_nominal (vdata vd) |})
            lvt_nvalue_table ;;
        lvt_sr_set_nvalues_from rest lvt_nvalue_table (S j)
  end.

Definition lvt_sr_set_nvalues (volt_data : list sr_volt_data)
    (sr_data : omap_sr_data) : exec omap_sr_data :=
  count <- count_volt_data volt_data 0 ;;
  allocated <- kzalloc (u32 (sizeof_omap_sr_nvalue_table * Z.of_nat count)) ;;
  if negb allocated then
    pr_err "%s: cannot allocate memory for LVT table" ;;; ret sr_data
  else
  filled <- lvt_sr_set_nvalues_from (firstn count volt_data)
              (repeat zeroed_nvalue count) 0 ;;
  let (lvt_nvalue_table_v, j) := filled in
  (* Just WARN to get developer attention if NO of the LVT efuse *)
  WARN (Nat.eqb j 0) "NO efuses available on silicon for LVT???" ;;;
  ret {| nvalue_count := nvalue_count sr_data;
         nvalue_table := nvalue_table sr_data;
         lvt_nvalue_count := Z.of_nat j;
         lvt_nvalue_table := Ptr lvt_nvalue_table_v |}.

End Soc.

(** ** Observations

    What the theorems below read off a trace or off the devices. *)

(** What a trace says about register writes. *)
Definition is_reg_write (e : event) : bool :=
  match e with
  | EvWritel _ _ | EvWrite _ _ | EvRmw _ _ _ => true
  | _ => false
  end.

Definition reg_writes (tr : list event) : list event := filter is_reg_write tr.

Definition is_reg_read (e : event) : bool :=
  match e with
  | EvReadl _ _ | EvRead _ _ => true
  | _ => false
  end.

Definition reg_reads (tr : list event) : list event := filter is_reg_read tr.

Definition is_recover (e : event) : bool :=
  match e with
  | EvRecover _ => true
  | _ => false
  end.

(** The invocations of the recovery callback in a trace. *)
Definition recover_calls (tr : list event) : list event := filter is_recover tr.

(** What a trace says about the post-scale hook, the error path and the
    loops. *)
Definition is_post_scale (e : event) : bool :=
  match e with
  | EvPostScale _ _ _ _ => true
  | _ => false
  end.

Definition post_scale_calls (tr : list event) : list event :=
  filter is_post_scale tr.

(** The messages routed through [_vp_controlled_err]: the error-level log
    entries other than the recovery notice. *)
Definition report_of (e : event) : list string :=
  match e with
  | EvLog KERN_ERR m | EvLog KERN_ERR_RATELIMITED m =>
      if String.eqb m msg_recovery_triggered then [] else [m]
  | _ => []
  end.

Definition err_reports (tr : list event) : list string := flat_map report_of tr.

Definition is_clear_txdone (e : event) : bool :=
  match e with
  | EvClearTxdone _ => true
  | _ => false
  end.

Definition clear_attempts (tr : list event) : list event :=
  filter is_clear_txdone tr.

(** The events of the polling loops. *)
Definition is_poll_event (e : event) : bool :=
  match e with
  | EvRead _ _ | EvUdelay _ | EvCheckTxdone _ _ | EvClearTxdone _ => true
  | _ => false
  end.

(** A stretch of trace without register write, post-scale call or routed
    error. *)
Definition quiet (evs : list event) : Prop :=
  reg_writes evs = [] /\ post_scale_calls evs = [] /\ err_reports evs = [].

(** [n] errors routed one after the other through [_vp_controlled_err]. *)
Fixpoint routed_errors (vp : omap_vp_instance) (voltdm : voltagedomain)
    (msg : string) (n : nat) : exec unit :=
  match n with
  | O => ret tt
  | S n' => _vp_controlled_err vp voltdm msg ;;; routed_errors vp voltdm msg n'
  end.

(** [advance w e evs]: the machine [w] once its devices have moved to [e]
    and the events [evs] have happened. *)
Definition advance (w : world) (e : env) (evs : list event) : world :=
  mkWorld e (_prm_bases w) (vp_enabled w) (__vp_debug_error_message_count w)
    (__vp_recover_count w) (trace w ++ evs).

(** The configuration value [_vp_set_init_voltage] composes from the value
    [old] it read. *)
Definition init_vpconfig (vpi : omap_vp_instance) (conv : Z -> Z)
    (volt old : Z) : Z :=
  Z.lor
    (Z.land old
       (not32 (Z.lor (Z.lor (vpconfig_initvoltage_mask (common vpi))
                        (vpconfig_forceupdate (common vpi)))
                 (vpconfig_initvdd (common vpi)))))
    (shl32 (u8 (conv volt)) (__ffs (vpconfig_initvoltage_mask (common vpi)))).

(** The base table as [omap4_prm_base_init] can leave it: all entries NULL
    at boot, and each call stores the three bases it is given. *)
Inductive prm_bases_initialized : (Z -> Z) -> Prop :=
| bases_at_boot : prm_bases_initialized (fun _ => 0)
| bases_after_init (g : omap_globals) (w w' : world) :
    prm_bases_initialized (_prm_bases w) ->
    omap4_prm_base_init g w = Ret tt w' ->
    prm_bases_initialized (_prm_bases w').

(** The devices after [n] polls of the status register at [st] that found
    the bit clear, each followed by [udelay(1)]. *)
Fixpoint after_failed_polls (st : Z) (n : nat) (e : env) : env :=
  match n with
  | O => e
  | S n' => after_failed_polls st n' (udelay_env 1 (snd (__raw_readl st e)))
  end.

(** What the poll after [n] failed ones reads, and whether it finds the bit
    set. *)
Definition poll_value (st : Z) (n : nat) (e : env) : Z :=
  u32 (fst (__raw_readl st (after_failed_polls st n e))).

Definition poll_finds_set (st shift : Z) (n : nat) (e : env) : bool :=
  Z.testbit (poll_value st n e) shift.

(** The trace of [n] failed polls. *)
Fixpoint failed_polls (st : Z) (n : nat) (e : env) : list event :=
  match n with
  | O => []
  | S n' =>
      EvReadl st (u32 (fst (__raw_readl st e))) :: EvUdelay 1
        :: failed_polls st n' (udelay_env 1 (snd (__raw_readl st e)))
  end.

(** A device that sets the status bit after [K] poll iterations: from the
    state [e] on, poll number [K] (counting from 1) is the first to read the
    bit at [shift] of the register at [st] as set. *)
Definition status_set_after (st shift : Z) (K : nat) (e : env) : Prop :=
  (1 <= K)%nat
  /\ (forall i, (i < K - 1)%nat -> poll_finds_set st shift i e = false)
  /\ poll_finds_set st shift (K - 1) e = true.

(** The number of polls of the status register at [st] that find the bit at
    [shift] clear before one finds it set, out of at most [n] polls. *)
Fixpoint polls_until_set (st shift : Z) (n : nat) (e : env) : nat :=
  match n with
  | O => O
  | S n' =>
      if Z.testbit (u32 (fst (__raw_readl st e))) shift then O
      else S (polls_until_set st shift n' (udelay_env 1 (snd (__raw_readl st e))))
  end.

(** What a trace says about the pre-scale hook and about delays. *)
Definition is_pre_scale (e : event) : bool :=
  match e with
  | EvPreScale _ _ _ => true
  | _ => false
  end.

Definition pre_scale_calls (tr : list event) : list event :=
  filter is_pre_scale tr.

Definition is_delay (e : event) : bool :=
  match e with
  | EvUdelay _ => true
  | _ => false
  end.

Definition delays (tr : list event) : list event := filter is_delay tr.

(** The events of [_vp_wait_for_idle] and of the warnings of
    [omap_vp_disable]: status reads, delays and rate-limited warnings. *)
Definition is_idle_wait_event (e : event) : bool :=
  match e with
  | EvRead _ _ | EvUdelay _ | EvLog KERN_WARNING_RATELIMITED _
  | EvWarnOnce _ => true
  | _ => false
  end.

(** The events of [_vp_controlled_err]: messages, stack dumps and the
    recovery callback. *)
Definition is_report_event (e : event) : bool :=
  match e with
  | EvLog _ _ | EvDumpStack | EvRecover _ => true
  | _ => false
  end.

(** The devices after [n] reads of the VP status register at [st] through
    the accessor [rd] that found the VP busy, each followed by [udelay(1)];
    whether the next read finds it idle; and the trace of the [n] reads. *)
Fixpoint after_busy_polls (rd : Z -> env -> Z * env) (st : Z) (n : nat)
    (e : env) : env :=
  match n with
  | O => e
  | S n' => after_busy_polls rd st n' (udelay_env 1 (snd (rd st e)))
  end.

Definition idle_at_poll (rd : Z -> env -> Z * env) (st idle : Z) (n : nat)
    (e : env) : bool :=
  negb (Z.land (u32 (fst (rd st (after_busy_polls rd st n e)))) idle =? 0).

Fixpoint busy_polls_trace (rd : Z -> env -> Z * env) (st : Z) (n : nat)
    (e : env) : list event :=
  match n with
  | O => []
  | S n' =>
      EvRead st (u32 (fst (rd st e))) :: EvUdelay 1
        :: busy_polls_trace rd st n' (udelay_env 1 (snd (rd st e)))
  end.

(** A VP that shows idle at the [K]-th read of its status register
    (counting from 1) and not before. *)
Definition idle_at_read (rd : Z -> env -> Z * env) (st idle : Z) (K : nat)
    (e : env) : Prop :=
  (1 <= K)%nat
  /\ (forall i, (i < K - 1)%nat -> idle_at_poll rd st idle i e = false)
  /\ idle_at_poll rd st idle (K - 1) e = true.

(** What a trace says about the verbosity of the error path. *)
Definition is_dump_stack (e : event) : bool :=
  match e with
  | EvDumpStack => true
  | _ => false
  end.

Definition stack_dumps (tr : list event) : list event := filter is_dump_stack tr.

Definition is_ratelimited_error (e : event) : bool :=
  match e with
  | EvLog KERN_ERR_RATELIMITED _ => true
  | _ => false
  end.

Definition ratelimited_errors (tr : list event) : list event :=
  filter is_ratelimited_error tr.



(** A voltage table as the table builders of sr_device.c take it: the
    entries [entries], each with a nonzero nominal voltage, followed by an
    entry whose nominal voltage is zero. *)
Definition terminated_table (volt_data entries : list sr_volt_data) : Prop :=
  Forall (fun vd => volt_nominal (vdata vd) <> 0) entries
  /\ exists terminator rest,
       volt_nominal (vdata terminator) = 0
       /\ volt_data = entries ++ terminator :: rest.

(** The n-value entries of the voltages whose efuse value is not zero, in
    the order of the voltage table; [value], [offs] and [limit] give the efuse
    value, the efuse offset and the error limit of a voltage. *)
Definition kept_nvalues (value offs limit : sr_volt_data -> Z)
    (entries : list sr_volt_data) : list omap_sr_nvalue_table :=
  flat_map
    (fun vd =>
       if value vd =? 0 then []
       else [{| efuse_offs := offs vd; nvalue := value vd;
                errminlimit := limit vd;
                nvalue_volt_nominal := volt_nominal (vdata vd) |}])
    entries.

(** The efuse value [sr_set_nvalues] computes for a voltage when the
    control module holds the bytes [efuse_byte] and the words [efuse_word]:
    three bytes on OMAP4, a word elsewhere; and the one [lvt_sr_set_nvalues]
    computes. *)
Definition sr_efuse_value (cpu_is_omap44xx : bool) (efuse_byte efuse_word : Z -> Z)
    (vd : sr_volt_data) : Z :=
  if cpu_is_omap44xx then
    let offset := u16 (sr_efuse_offs vd) in
    u32 (Z.lor (Z.lor (u8 (efuse_byte (u16 offset)))
                  (Z.shiftl (u8 (efuse_byte (u16 (offset + 1)))) 8))
           (Z.shiftl (u8 (efuse_byte (u16 (offset + 2)))) 16))
  else u32 (efuse_word (u16 (sr_efuse_offs vd))).

Definition lvt_efuse_value (efuse_word : Z -> Z) (vd : sr_volt_data) : Z :=
  u32 (efuse_word (u16 (lvt_sr_efuse_offs vd))).

(** A trace whose delays are all of one microsecond. *)
Definition is_unit_delay (e : event) : bool :=
  match e with
  | EvUdelay us => us =? 1
  | _ => true
  end.

Definition unit_delays (evs : list event) : Prop :=
  forallb is_unit_delay evs = true.

(** A stretch of a scale that calls neither hook and delays at most
    [max_delay] times, one microsecond each. *)
Definition scale_stretch (evs : list event) (max_delay : nat) : Prop :=
  pre_scale_calls evs = [] /\ post_scale_calls evs = []
  /\ unit_delays evs /\ (List.length (delays evs) <= max_delay)%nat.

(** The calls of the two hooks in a trace, in the order they were made. *)
Definition is_hook_call (e : event) : bool := is_pre_scale e || is_post_scale e.

Definition hook_calls (tr : list event) : list event := filter is_hook_call tr.

(** The devices after an idle wait that found the VP idle at its [K]-th
    read of the status register at [st] (counting from 1), and the devices
    once the pre-scale hook has then run for the target [tv]: those on which
    the clear loop of step 4 starts. *)
Definition after_idle_wait (rd : Z -> env -> Z * env) (st : Z) (K : nat)
    (e : env) : env :=
  snd (rd st (after_busy_polls rd st (K - 1) e)).

Definition before_clear_loop (d : voltagedomain) (rd : Z -> env -> Z * env)
    (st : Z) (K : nat) (tv : omap_volt_data) (e : env) : env :=
  snd (omap_vc_pre_scale_env d (omap_get_operation_voltage tv) tv
         (after_idle_wait rd st K e)).

(** What the transaction-done checks of a trace found, in order. *)
Definition txdone_check_of (e : event) : list bool :=
  match e with
  | EvCheckTxdone _ done => [done]
  | _ => []
  end.

Definition txdone_checks (tr : list event) : list bool :=
  flat_map txdone_check_of tr.

(** ** Bit-level facts used below *)

Lemma u32_range (x : Z) : 0 <= u32 x < 2 ^ 32.
Proof. unfold u32. apply Z.mod_pos_bound. reflexivity. Qed.

Lemma u32_small (x : Z) : 0 <= x < 2 ^ 32 -> u32 x = x.
Proof. intros H. unfold u32. apply Z.mod_small. exact H. Qed.

Lemma u32_testbit (x n : Z) :
  Z.testbit (u32 x) n = (n <? 32) && Z.testbit x n.
Proof.
  unfold u32. destruct (Z.ltb_spec n 32) as [Hlt | Hge]; cbn [andb].
  - destruct (Z.ltb_spec n 0) as [Hneg | Hnn].
    + now rewrite !Z.testbit_neg_r.
    + apply Z.mod_pow2_bits_low. lia.
  - apply Z.mod_pow2_bits_high. lia.
Qed.

Lemma small_testbit_high (v n : Z) :
  0 <= v < 2 ^ 32 -> 32 <= n -> Z.testbit v n = false.
Proof.
  intros Hv Hn. rewrite <- (u32_small v Hv), u32_testbit.
  destruct (Z.ltb_spec n 32); [lia | reflexivity].
Qed.

(** On a 32-bit value, masking with the 32-bit complement is masking with the
    mathematical complement. *)
Lemma land_not32 (v m : Z) :
  0 <= v < 2 ^ 32 -> Z.land v (not32 m) = Z.land v (Z.lnot m).
Proof.
  intros Hv. apply Z.bits_inj'. intros n Hn.
  rewrite !Z.land_spec. unfold not32. rewrite u32_testbit.
  destruct (Z.ltb_spec n 32) as [Hlt | Hge]; cbn [andb]; [reflexivity |].
  rewrite (small_testbit_high v n Hv Hge). reflexivity.
Qed.

Lemma land_small (v m : Z) : 0 <= v < 2 ^ 32 -> 0 <= Z.land v m < 2 ^ 32.
Proof.
  intros Hv. split.
  - apply Z.land_nonneg. left. lia.
  - destruct (Z.eq_dec (Z.land v m) 0) as [E | NE]; [rewrite E; reflexivity |].
    assert (Hnn : 0 <= Z.land v m) by (apply Z.land_nonneg; left; lia).
    apply Z.log2_lt_cancel. change (Z.log2 (2 ^ 32)) with 32.
    assert (Hpos : 0 < Z.land v m) by lia.
    destruct (Z.lt_ge_cases (Z.log2 (Z.land v m)) 32) as [Hl | Hg]; [exact Hl |].
    exfalso. pose proof (Z.bit_log2 (Z.land v m) Hpos) as Hb.
    rewrite Z.land_spec, (small_testbit_high v _ Hv Hg) in Hb. discriminate.
Qed.

Lemma lor_small (a b : Z) :
  0 <= a < 2 ^ 32 -> 0 <= b < 2 ^ 32 -> 0 <= Z.lor a b < 2 ^ 32.
Proof.
  intros Ha Hb. split.
  - apply Z.lor_nonneg. lia.
  - destruct (Z.eq_dec (Z.lor a b) 0) as [E | NE]; [rewrite E; reflexivity |].
    assert (Hnn : 0 <= Z.lor a b) by (apply Z.lor_nonneg; lia).
    assert (Hpos : 0 < Z.lor a b) by lia.
    apply Z.log2_lt_cancel. change (Z.log2 (2 ^ 32)) with 32.
    destruct (Z.lt_ge_cases (Z.log2 (Z.lor a b)) 32) as [Hl | Hg]; [exact Hl |].
    exfalso. pose proof (Z.bit_log2 (Z.lor a b) Hpos) as Hbit.
    rewrite Z.lor_spec, (small_testbit_high a _ Ha Hg),
      (small_testbit_high b _ Hb Hg) in Hbit. discriminate.
Qed.

(** The value computed by [v &= 1 << shift; v >>= shift] is the bit. *)
Lemma bit_extract (v shift : Z) :
  0 <= shift < 32 ->
  Z.shiftr (Z.land v (shl32 1 shift)) shift = Z.b2z (Z.testbit v shift).
Proof.
  intros Hs. apply Z.bits_inj'. intros n Hn.
  rewrite Z.shiftr_spec by exact Hn. rewrite Z.land_spec.
  unfold shl32. rewrite u32_testbit.
  rewrite Z.shiftl_spec by lia.
  destruct (Z.eq_dec n 0) as [-> | Hn0].
  - replace (0 + shift) with shift by lia.
    replace (shift - shift) with 0 by lia.
    destruct (Z.ltb_spec shift 32); [| lia]. cbn [andb].
    rewrite andb_true_r. now destruct (Z.testbit v shift).
  - replace (Z.testbit 1 (n + shift - shift)) with false.
    + rewrite andb_false_r, andb_false_r.
      destruct (Z.testbit v shift); cbn [Z.b2z].
      * symmetry. change 1 with (2 ^ 0). apply Z.pow2_bits_false. lia.
      * symmetry. apply Z.bits_0.
    + symmetry. change 1 with (2 ^ 0). apply Z.pow2_bits_false. lia.
Qed.

(** ** The register access layer *)

Lemma reg_writes_app (a b : list event) :
  reg_writes (a ++ b) = reg_writes a ++ reg_writes b.
Proof. apply filter_app. Qed.

Lemma prm_part_bug_spec (w : world) (part : Z) :
  prm_part_bug w part = true <->
  (OMAP4_MAX_PRCM_PARTITIONS <= part
   \/ part = OMAP4430_INVALID_PRCM_PARTITION
   \/ _prm_bases w part = 0).
Proof using Type.
  unfold prm_part_bug. rewrite !orb_true_iff, Z.leb_le, !Z.eqb_eq.
  apply or_assoc.
Qed.

Lemma read_inst_reg_ok (w : world) (part inst idx : Z) :
  prm_part_bug w part = false ->
  omap4_prminst_read_inst_reg part inst idx w =
    let a := _prm_bases w part + inst + idx in
    let r := __raw_readl a (w_env w) in
    Ret (u32 (fst r)) (log_event (EvReadl a (u32 (fst r))) (set_env (snd r) w)).
Proof using Type.
  intros Hok. unfold omap4_prminst_read_inst_reg, raw_readl. rewrite Hok.
  cbv zeta. now destruct (__raw_readl _ _).
Qed.

Lemma write_inst_reg_ok (w : world) (val part inst idx : Z) :
  prm_part_bug w part = false ->
  omap4_prminst_write_inst_reg val part inst idx w =
    let a := _prm_bases w part + inst + idx in
    Ret tt (log_event (EvWritel val a) (set_env (__raw_writel val a (w_env w)) w)).
Proof using Type.
  intros Hok. unfold omap4_prminst_write_inst_reg, raw_writel. now rewrite Hok.
Qed.

Lemma rmw_inst_reg_bits_ok (w : world) (mask bits part inst idx : Z) :
  prm_part_bug w part = false ->
  omap4_prminst_rmw_inst_reg_bits mask bits part inst idx w =
    let a := _prm_bases w part + inst + idx in
    let r := __raw_readl a (w_env w) in
    let v := Z.lor (Z.land (u32 (fst r)) (not32 mask)) bits in
    Ret v (log_event (EvWritel v a)
             (set_env (__raw_writel v a (snd r))
                (log_event (EvReadl a (u32 (fst r))) (set_env (snd r) w)))).
Proof.
  intros Hok. unfold omap4_prminst_rmw_inst_reg_bits, bind.
  rewrite (read_inst_reg_ok w part inst idx Hok). cbv beta iota zeta.
  rewrite write_inst_reg_ok by exact Hok. reflexivity.
Qed.

Section Partitions.

(** The partition identifiers are members of one enumeration: the three
    mapped ones are in range and none is the invalid one. *)
Hypothesis prm_partition_in_range :
  OMAP4430_PRM_PARTITION < OMAP4_MAX_PRCM_PARTITIONS
  /\ OMAP4430_PRM_PARTITION <> OMAP4430_INVALID_PRCM_PARTITION.
Hypothesis prcm_mpu_partition_in_range :
  OMAP4430_PRCM_MPU_PARTITION < OMAP4_MAX_PRCM_PARTITIONS
  /\ OMAP4430_PRCM_MPU_PARTITION <> OMAP4430_INVALID_PRCM_PARTITION.
Hypothesis scrm_partition_in_range :
  OMAP4430_SCRM_PARTITION < OMAP4_MAX_PRCM_PARTITIONS
  /\ OMAP4430_SCRM_PARTITION <> OMAP4430_INVALID_PRCM_PARTITION.

Lemma initialized_bases_mapped (tbl : Z -> Z) :
  prm_bases_initialized tbl ->
  forall part, tbl part <> 0 ->
    part < OMAP4_MAX_PRCM_PARTITIONS
    /\ part <> OMAP4430_INVALID_PRCM_PARTITION.
Proof using prm_partition_in_range prcm_mpu_partition_in_range
  scrm_partition_in_range.
  induction 1 as [| g w w' Hw IH Hinit]; intros part Hbase.
  - exfalso. apply Hbase. reflexivity.
  - unfold omap4_prm_base_init in Hinit. injection Hinit as <-.
    cbn in Hbase.
    destruct (Z.eqb_spec part OMAP4430_SCRM_PARTITION) as [E | _];
      [rewrite E; exact scrm_partition_in_range |].
    destruct (Z.eqb_spec part OMAP4430_PRCM_MPU_PARTITION) as [E | _];
      [rewrite E; exact prcm_mpu_partition_in_range |].
    destruct (Z.eqb_spec part OMAP4430_PRM_PARTITION) as [E | _];
      [rewrite E; exact prm_partition_in_range |].
    apply IH. exact Hbase.
Qed.

(** C9: the partitioned read and write hit their BUG_ON, leaving the
    machine as it was (no return, no device access), exactly when the
    partition is out of range, is the invalid partition, or has a NULL base;
    otherwise they perform one access at base + inst + idx.  On a base
    table left by [omap4_prm_base_init], a partition with a non-NULL base
    never hits the BUG_ON. *)
Theorem prminst_access_fatal_iff (w : world) (val part inst idx : Z) :
  let invalid :=
    OMAP4_MAX_PRCM_PARTITIONS <= part
    \/ part = OMAP4430_INVALID_PRCM_PARTITION
    \/ _prm_bases w part = 0 in
  let a := _prm_bases w part + inst + idx in
  (invalid ->
     omap4_prminst_read_inst_reg part inst idx w = Bug w
     /\ omap4_prminst_write_inst_reg val part inst idx w = Bug w)
  /\ (~ invalid ->
        omap4_prminst_read_inst_reg part inst idx w =
          Ret (u32 (fst (__raw_readl a (w_env w))))
            (log_event (EvReadl a (u32 (fst (__raw_readl a (w_env w)))))
               (set_env (snd (__raw_readl a (w_env w))) w))
        /\ omap4_prminst_write_inst_reg val part inst idx w =
             Ret tt
               (log_event (EvWritel val a)
                  (set_env (__raw_writel val a (w_env w)) w)))
  /\ (prm_bases_initialized (_prm_bases w) ->
      _prm_bases w part <> 0 -> ~ invalid).
Proof using prm_partition_in_range prcm_mpu_partition_in_range
  scrm_partition_in_range.
  intros invalid a.
  assert (Hdec : ~ invalid -> prm_part_bug w part = false).
  { intros Hok. destruct (prm_part_bug w part) eqn:E; [| reflexivity].
    apply prm_part_bug_spec in E. contradiction. }
  split; [| split].
  - intros Hbad. apply prm_part_bug_spec in Hbad.
    unfold omap4_prminst_read_inst_reg, omap4_prminst_write_inst_reg.
    now rewrite Hbad.
  - intros Hok. apply Hdec in Hok.
    now rewrite read_inst_reg_ok, write_inst_reg_ok.
  - intros Hinit Hbase Hbad.
    destruct (initialized_bases_mapped _ Hinit part Hbase) as [Hlt Hne].
    destruct Hbad as [Hge | [Heq | Hnull]].
    + apply (Z.lt_irrefl part). now apply Z.lt_le_trans with OMAP4_MAX_PRCM_PARTITIONS.
    + exact (Hne Heq).
    + exact (Hbase Hnull).
Qed.

End Partitions.

(** C4: on a mapped partition the read-modify-write reads the register
    once, writes [(old & ~mask) | bits] once to the same address, and returns
    the value it wrote. *)
Theorem rmw_inst_reg_bits_spec (w : world) (mask bits part inst idx : Z) :
  prm_part_bug w part = false ->
  let a := _prm_bases w part + inst + idx in
  let old := u32 (fst (__raw_readl a (w_env w))) in
  let new := Z.lor (Z.land old (Z.lnot mask)) bits in
  exists w',
    omap4_prminst_rmw_inst_reg_bits mask bits part inst idx w = Ret new w'
    /\ trace w' = trace w ++ [EvReadl a old; EvWritel new a]
    /\ w_env w' = __raw_writel new a (snd (__raw_readl a (w_env w)))
    /\ (0 <= bits < 2 ^ 32 -> 0 <= new < 2 ^ 32).
Proof.
  intros Hok a old new.
  rewrite (rmw_inst_reg_bits_ok w mask bits part inst idx Hok). cbv zeta.
  fold a. fold old. rewrite (land_not32 old mask (u32_range _)). fold new.
  eexists. split; [reflexivity |]. cbn. rewrite <- app_assoc.
  repeat split; try reflexivity.
  - apply lor_small; [apply land_small, u32_range | assumption].
  - apply lor_small; [apply land_small, u32_range | assumption].
Qed.

(** ** The reset-line controller *)

Lemma shl32_one (shift : Z) : 0 <= shift < 32 -> shl32 1 shift = 2 ^ shift.
Proof.
  intros Hs. unfold shl32. rewrite Z.shiftl_1_l. apply u32_small. split.
  - apply Z.pow_nonneg. lia.
  - apply Z.pow_lt_mono_r; lia.
Qed.

Lemma is_hardreset_asserted_ok (w : world) (shift part inst offs : Z) :
  prm_part_bug w part = false ->
  0 <= shift < 32 ->
  omap4_prminst_is_hardreset_asserted shift part inst offs w =
    let a := _prm_bases w part + inst + offs in
    let r := __raw_readl a (w_env w) in
    Ret (Z.b2z (Z.testbit (u32 (fst r)) shift))
      (log_event (EvReadl a (u32 (fst r))) (set_env (snd r) w)).
Proof.
  intros Hok Hs. unfold omap4_prminst_is_hardreset_asserted, bind.
  rewrite (read_inst_reg_ok w part inst offs Hok). cbv beta iota zeta.
  unfold ret. now rewrite bit_extract.
Qed.

Lemma hardreset_poll_loop (shift part inst offs : Z) :
  0 <= shift < 32 ->
  forall (remaining index F : nat) (w : world),
    prm_part_bug w part = false ->
    let st := _prm_bases w part + inst + offs in
    (forall i, (i < Nat.min F remaining)%nat ->
               poll_finds_set st shift i (w_env w) = false) ->
    ((F < remaining)%nat -> poll_finds_set st shift F (w_env w) = true) ->
    exists w',
      omap_test_timeout_from (udelay 1)
        (s <- omap4_prminst_is_hardreset_asserted shift part inst offs ;;
         ret (negb (s =? 0)))
        remaining index w = Ret (index + Nat.min F remaining)%nat w'
      /\ trace w' =
           trace w ++ failed_polls st (Nat.min F remaining) (w_env w)
             ++ (if (F <? remaining)%nat
                 then [EvReadl st (poll_value st F (w_env w))] else [])
      /\ _prm_bases w' = _prm_bases w.
Proof.
  intros Hs. induction remaining as [| remaining IH]; intros index F w Hok st Hclear Hset.
  - rewrite Nat.min_0_r, Nat.add_0_r. exists w. cbn.
    rewrite app_nil_r. repeat split; reflexivity.
  - cbn [omap_test_timeout_from]. unfold bind at 1. unfold bind at 1.
    rewrite (is_hardreset_asserted_ok w shift part inst offs Hok Hs).
    cbv beta iota zeta. fold st. unfold ret at 1.
    destruct F as [| F].
    + (* this poll finds the bit set *)
      assert (Hb : poll_finds_set st shift 0 (w_env w) = true)
        by (apply Hset; lia).
      unfold poll_finds_set, poll_value in Hb. cbn [after_failed_polls] in Hb.
      rewrite Hb. cbn [Z.b2z Z.eqb negb]. unfold ret.
      eexists. split; [rewrite Nat.min_0_l, Nat.add_0_r; reflexivity |].
      cbn. repeat split; reflexivity.
    + assert (Hb : poll_finds_set st shift 0 (w_env w) = false)
        by (apply Hclear; lia).
      unfold poll_finds_set, poll_value in Hb. cbn [after_failed_polls] in Hb.
      rewrite Hb. cbn [Z.b2z Z.eqb negb]. unfold bind at 1. unfold udelay at 1.
      set (w1 := log_event (EvUdelay 1) _).
      assert (Hok1 : prm_part_bug w1 part = false) by exact Hok.
      destruct (IH (S index) F w1 Hok1) as (w' & Hrun & Htr & Hb').
      * intros i Hi. change (poll_finds_set st shift (S i) (w_env w) = false).
        apply Hclear. lia.
      * intros Hlt. change (poll_finds_set st shift (S F) (w_env w) = true).
        apply Hset. lia.
      * exists w'. split; [| split].
        -- rewrite Hrun. f_equal. cbn [Nat.min]. lia.
        -- rewrite Htr. cbn [Nat.min failed_polls]. subst w1. cbn.
           rewrite <- !app_assoc. reflexivity.
        -- rewrite Hb'. reflexivity.
Qed.

(** C5: deasserting a line whose control bit reads as clear returns
    -EEXIST after the one read of the control register and writes no
    register. *)
Theorem deassert_already_deasserted (w : world) (shift part inst rstctrl_offs : Z) :
  prm_part_bug w part = false ->
  0 <= shift < 32 ->
  let ctrl := _prm_bases w part + inst + rstctrl_offs in
  let r := __raw_readl ctrl (w_env w) in
  Z.testbit (u32 (fst r)) shift = false ->
  exists w',
    omap4_prminst_deassert_hardreset shift part inst rstctrl_offs w
      = Ret (- EEXIST) w'
    /\ trace w' = trace w ++ [EvReadl ctrl (u32 (fst r))]
    /\ reg_writes (trace w') = reg_writes (trace w)
    /\ w_env w' = snd r.
Proof.
  intros Hok Hs ctrl r Hclear.
  unfold omap4_prminst_deassert_hardreset, bind.
  rewrite (is_hardreset_asserted_ok w shift part inst rstctrl_offs Hok Hs).
  cbv beta iota zeta. fold ctrl. fold r. rewrite Hclear.
  cbn [Z.b2z Z.eqb]. unfold ret. eexists. split; [reflexivity |].
  cbn. rewrite reg_writes_app. cbn. rewrite app_nil_r.
  repeat split; reflexivity.
Qed.

Lemma failed_polls_reads (st : Z) (n : nat) :
  forall e, List.length (reg_reads (failed_polls st n e)) = n.
Proof.
  induction n as [| n IH]; intros e; cbn; [reflexivity |].
  f_equal. apply IH.
Qed.

Lemma failed_polls_no_write (st : Z) (n : nat) :
  forall e, reg_writes (failed_polls st n e) = [].
Proof.
  induction n as [| n IH]; intros e; cbn; [reflexivity | apply IH].
Qed.

(** The run of a deassert on an asserted line, for a device whose status
    bit reads as clear in the first [F] polls (or in all of them, when
    [F] is not below the budget). *)
Lemma deassert_run (w : world) (shift part inst rstctrl_offs : Z) (F : nat) :
  prm_part_bug w part = false ->
  0 <= shift < 32 ->
  0 <= rstctrl_offs -> rstctrl_offs + 4 < 2 ^ 16 ->
  let ctrl := _prm_bases w part + inst + rstctrl_offs in
  let st := _prm_bases w part + inst + (rstctrl_offs + 4) in
  let mask := 2 ^ shift in
  let r0 := __raw_readl ctrl (w_env w) in
  let r1 := __raw_readl st (snd r0) in
  let e2 := __raw_writel mask st (snd r1) in
  let r3 := __raw_readl ctrl e2 in
  let cleared := Z.land (u32 (fst r3)) (Z.lnot mask) in
  let e4 := __raw_writel cleared ctrl (snd r3) in
  let T := MAX_MODULE_HARDRESET_WAIT in
  Z.testbit (u32 (fst r0)) shift = true ->
  (forall i, (i < Nat.min F T)%nat -> poll_finds_set st shift i e4 = false) ->
  ((F < T)%nat -> poll_finds_set st shift F e4 = true) ->
  exists w',
    omap4_prminst_deassert_hardreset shift part inst rstctrl_offs w
      = Ret (if (F <? T)%nat then 0 else - EBUSY) w'
    /\ trace w' =
         trace w
           ++ [EvReadl ctrl (u32 (fst r0)); EvReadl st (u32 (fst r1));
               EvWritel mask st; EvReadl ctrl (u32 (fst r3));
               EvWritel cleared ctrl]
           ++ failed_polls st (Nat.min F T) e4
           ++ (if (F <? T)%nat then [EvReadl st (poll_value st F e4)] else []).
Proof.
  intros Hok Hs Hlo Hhi ctrl st mask r0 r1 e2 r3 cleared e4 T Hasserted Hclear Hset.
  unfold omap4_prminst_deassert_hardreset.
  rewrite (shl32_one shift Hs). fold mask.
  replace (u16 (rstctrl_offs + OMAP4_RST_CTRL_ST_OFFSET)) with (rstctrl_offs + 4)
    by (unfold u16, OMAP4_RST_CTRL_ST_OFFSET; rewrite Z.mod_small; lia).
  unfold bind at 1.
  rewrite (is_hardreset_asserted_ok w shift part inst rstctrl_offs Hok Hs).
  cbv beta iota zeta. fold ctrl. fold r0. rewrite Hasserted.
  cbn [Z.b2z Z.eqb]. unfold bind at 1.
  set (w1 := log_event (EvReadl ctrl (u32 (fst r0))) (set_env (snd r0) w)).
  assert (Hok1 : prm_part_bug w1 part = false) by exact Hok.
  rewrite (rmw_inst_reg_bits_ok w1 _ _ part inst _ Hok1). cbv beta iota zeta.
  change (_prm_bases w1 part + inst + (rstctrl_offs + 4)) with st.
  change (w_env w1) with (snd r0). fold r1.
  replace (Z.lor (Z.land (u32 (fst r1)) (not32 4294967295)) mask) with mask
    by (replace (not32 4294967295) with 0 by (symmetry; vm_compute; reflexivity);
        now rewrite Z.land_0_r).
  fold e2.
  set (w2 := log_event (EvWritel mask st) _).
  assert (Hok2 : prm_part_bug w2 part = false) by exact Hok.
  unfold bind at 1.
  rewrite (rmw_inst_reg_bits_ok w2 _ _ part inst _ Hok2). cbv beta iota zeta.
  change (_prm_bases w2 part + inst + rstctrl_offs) with ctrl.
  change (w_env w2) with e2. fold r3.
  rewrite Z.lor_0_r, (land_not32 _ mask (u32_range _)). fold cleared. fold e4.
  set (w3 := log_event (EvWritel cleared ctrl) _).
  assert (Hok3 : prm_part_bug w3 part = false) by exact Hok.
  unfold bind at 1. unfold omap_test_timeout. subst T.
  destruct (hardreset_poll_loop shift part inst (rstctrl_offs + 4) Hs
              MAX_MODULE_HARDRESET_WAIT 0%nat F w3 Hok3) as (w' & Hrun & Htr & _).
  - exact Hclear.
  - exact Hset.
  - set (T := MAX_MODULE_HARDRESET_WAIT) in *. rewrite Hrun. unfold ret. exists w'. split.
    + f_equal. cbn [Nat.add].
      destruct (Nat.ltb_spec F T) as [Hlt | Hge].
      * rewrite Nat.min_l by lia.
        destruct (Nat.eqb_spec F T); [lia | reflexivity].
      * rewrite Nat.min_r by lia. now rewrite Nat.eqb_refl.
    + rewrite Htr. change (_prm_bases w3 part + inst + (rstctrl_offs + 4)) with st.
      change (w_env w3) with e4. subst w3 w2 w1. cbn [trace log_event set_env].
      rewrite <- !app_assoc. reflexivity.
Qed.

(** C2: deasserting an asserted line writes the line's bit (and only it) to
    the status register at [rstctrl_offs + 4], then clears the control bit,
    then polls the status bit at most [MAX_MODULE_HARDRESET_WAIT] times; when
    the device sets the status bit after [K] polls it returns 0 iff [K] is
    within that budget and -EBUSY iff [K] exceeds it. *)
Theorem deassert_asserted_line (w : world) (shift part inst rstctrl_offs : Z)
    (K : nat) :
  prm_part_bug w part = false ->
  0 <= shift < 32 ->
  0 <= rstctrl_offs -> rstctrl_offs + 4 < 2 ^ 16 ->
  let ctrl := _prm_bases w part + inst + rstctrl_offs in
  let st := _prm_bases w part + inst + (rstctrl_offs + 4) in
  let mask := 2 ^ shift in
  let r0 := __raw_readl ctrl (w_env w) in
  let r1 := __raw_readl st (snd r0) in
  let e2 := __raw_writel mask st (snd r1) in
  let r3 := __raw_readl ctrl e2 in
  let cleared := Z.land (u32 (fst r3)) (Z.lnot mask) in
  let e4 := __raw_writel cleared ctrl (snd r3) in
  let T := MAX_MODULE_HARDRESET_WAIT in
  Z.testbit (u32 (fst r0)) shift = true ->
  status_set_after st shift K e4 ->
  exists res w' polls,
    omap4_prminst_deassert_hardreset shift part inst rstctrl_offs w = Ret res w'
    /\ trace w' =
         trace w
           ++ [EvReadl ctrl (u32 (fst r0)); EvReadl st (u32 (fst r1));
               EvWritel mask st; EvReadl ctrl (u32 (fst r3));
               EvWritel cleared ctrl]
           ++ polls
    /\ polls =
         failed_polls st (Nat.min (K - 1) T) e4
           ++ (if (K <=? T)%nat then [EvReadl st (poll_value st (K - 1) e4)]
               else [])
    /\ List.length (reg_reads polls) = Nat.min K T
    /\ reg_writes polls = []
    /\ (res = 0 <-> (K <= T)%nat)
    /\ (res = - EBUSY <-> (T < K)%nat).
Proof.
  intros Hok Hs Hlo Hhi ctrl st mask r0 r1 e2 r3 cleared e4 T Hasserted
    (HK & Hclear & Hset).
  destruct (deassert_run w shift part inst rstctrl_offs (K - 1) Hok Hs Hlo Hhi
              Hasserted) as (w' & Hrun & Htr).
  - intros i Hi. apply Hclear. fold T in Hi. lia.
  - intros _. exact Hset.
  - fold T in Hrun, Htr. fold ctrl st mask r0 r1 e2 r3 cleared e4 in Htr.
    replace (K - 1 <? T)%nat with (K <=? T)%nat in Hrun, Htr
      by (destruct (Nat.leb_spec K T), (Nat.ltb_spec (K - 1) T); lia || reflexivity).
    eexists. exists w'. eexists. split; [exact Hrun |].
    split; [exact Htr |]. split; [reflexivity |].
    unfold reg_reads, reg_writes. rewrite !filter_app.
    fold (reg_reads (failed_polls st (Nat.min (K - 1) T) e4)).
    fold (reg_writes (failed_polls st (Nat.min (K - 1) T) e4)).
    rewrite List.length_app, failed_polls_reads, failed_polls_no_write.
    destruct (Nat.leb_spec K T) as [Hle | Hgt]; cbn [filter is_reg_read is_reg_write List.length app].
    + repeat split; try reflexivity; try lia; intros; try lia.
      discriminate.
    + repeat split; try reflexivity; try lia; intros; try lia.
      discriminate.
Qed.

(** A line whose status bit never reads as set within the budget is
    reported busy. *)
Lemma deassert_never_set_busy (w : world) (shift part inst rstctrl_offs : Z) :
  prm_part_bug w part = false ->
  0 <= shift < 32 ->
  0 <= rstctrl_offs -> rstctrl_offs + 4 < 2 ^ 16 ->
  let ctrl := _prm_bases w part + inst + rstctrl_offs in
  let st := _prm_bases w part + inst + (rstctrl_offs + 4) in
  let mask := 2 ^ shift in
  let r0 := __raw_readl ctrl (w_env w) in
  let r1 := __raw_readl st (snd r0) in
  let e2 := __raw_writel mask st (snd r1) in
  let r3 := __raw_readl ctrl e2 in
  let e4 := __raw_writel (Z.land (u32 (fst r3)) (Z.lnot mask)) ctrl (snd r3) in
  Z.testbit (u32 (fst r0)) shift = true ->
  (forall i, (i < MAX_MODULE_HARDRESET_WAIT)%nat ->
             poll_finds_set st shift i e4 = false) ->
  exists w',
    omap4_prminst_deassert_hardreset shift part inst rstctrl_offs w
      = Ret (- EBUSY) w'.
Proof.
  intros Hok Hs Hlo Hhi ctrl st mask r0 r1 e2 r3 e4 Hasserted Hclear.
  destruct (deassert_run w shift part inst rstctrl_offs
              MAX_MODULE_HARDRESET_WAIT Hok Hs Hlo Hhi Hasserted)
    as (w' & Hrun & _).
  - intros i Hi. apply Hclear. lia.
  - lia.
  - rewrite Nat.ltb_irrefl in Hrun. now exists w'.
Qed.

(** ** The rate-limited error and recovery path *)

Arguments u8 : simpl never.
Arguments u16 : simpl never.
Arguments u32 : simpl never.
Arguments shl32 : simpl never.
Arguments not32 : simpl never.
Arguments __ffs : simpl never.







(** ** The Voltage Processor *)

Lemma advance_advance (w : world) (e1 e2 : env) (l1 l2 : list event) :
  advance (advance w e1 l1) e2 l2 = advance w e2 (l1 ++ l2).
Proof. unfold advance. cbn. now rewrite app_assoc. Qed.

Lemma log_event_as_advance (w : world) (ev : event) :
  log_event ev w = advance w (w_env w) [ev].
Proof. reflexivity. Qed.

Lemma advance_nil (w : world) : advance w (w_env w) [] = w.
Proof. unfold advance. rewrite app_nil_r. now destruct w. Qed.

(** [WARN_ONCE] adds its warning to the trace, or nothing. *)
Lemma WARN_ONCE_frame (condition : bool) (format : string) (w : world) :
  exists l,
    WARN_ONCE condition format w = Ret tt (advance w (w_env w) l)
    /\ (l = [] \/ l = [EvWarnOnce format]).
Proof.
  unfold WARN_ONCE.
  destruct (condition && negb (existsb is_warn_once (trace w))).
  - exists [EvWarnOnce format]. split; [reflexivity | now right].
  - exists []. rewrite advance_nil. split; [reflexivity | now left].
Qed.

(** What a timed-out idle wait does after its poll: the rate-limited
    warning, and the one-time warning if it was not given before. *)
Lemma idle_timedout_warnings (voltdm : voltagedomain) (w : world) :
  exists l,
    (pr_warn_ratelimited "%s: vdd_%s idle timedout" ;;;
     WARN_ONCE true (name voltdm) ;;;
     ret (- ETIMEDOUT)) w
      = Ret (- ETIMEDOUT) (advance w (w_env w) l)
    /\ (l = [EvLog KERN_WARNING_RATELIMITED "%s: vdd_%s idle timedout"]
        \/ l = [EvLog KERN_WARNING_RATELIMITED "%s: vdd_%s idle timedout";
                EvWarnOnce (name voltdm)]).
Proof.
  unfold bind at 1. unfold pr_warn_ratelimited, emit. cbv beta iota.
  rewrite log_event_as_advance. unfold bind.
  match goal with
  | |- context [WARN_ONCE true _ ?w1] =>
      destruct (WARN_ONCE_frame true (name voltdm) w1) as (l & Hrun & Hl)
  end.
  rewrite Hrun, advance_advance. unfold ret. cbn [w_env advance].
  eexists. split; [reflexivity |].
  destruct Hl as [-> | ->]; [now left | now right].
Qed.

Lemma bind_ret {A B : Type} (a : A) (k : A -> exec B) : bind (ret a) k = k a.
Proof. reflexivity. Qed.

Lemma bind_Ret {A B : Type} (m : exec A) (k : A -> exec B) (w w' : world) (a : A) :
  m w = Ret a w' -> bind m k w = k a w'.
Proof. intros H. unfold bind. now rewrite H. Qed.

(** Steps over a dereference of a valid pointer. *)
Ltac step_deref H := rewrite H; cbn [deref]; rewrite bind_ret; cbv beta.
Ltac exec_ret := repeat (rewrite bind_ret; cbv beta).

Lemma voltdm_read_ok (d : voltagedomain) (rd : Z -> env -> Z * env)
    (addr : Z) (w : world) :
  read d = Ptr rd ->
  voltdm_read d addr w =
    Ret (u32 (fst (rd addr (w_env w))))
      (advance w (snd (rd addr (w_env w)))
         [EvRead addr (u32 (fst (rd addr (w_env w))))]).
Proof.
  intros H. unfold voltdm_read, bind. rewrite H. cbn [deref ret].
  now destruct (rd addr (w_env w)).
Qed.

Lemma voltdm_write_ok (d : voltagedomain) (wr : Z -> Z -> env -> env)
    (val addr : Z) (w : world) :
  write d = Ptr wr ->
  voltdm_write d val addr w =
    Ret tt (advance w (wr val addr (w_env w)) [EvWrite val addr]).
Proof.
  intros H. unfold voltdm_write, bind. rewrite H. reflexivity.
Qed.

Section ConfiguredDomain.

(** A domain with a VP, both register accessors and a PMIC that converts
    voltages. *)
Variable d : voltagedomain.
Variable vpi : omap_vp_instance.
Variable p : omap_voltdm_pmic.
Variable conv : Z -> Z.
Variable rd : Z -> env -> Z * env.
Variable wr : Z -> Z -> env -> env.
Hypothesis d_vp : vp d = Ptr vpi.
Hypothesis d_pmic : pmic d = Ptr p.
Hypothesis p_uv_to_vsel : uv_to_vsel p = Ptr conv.
Hypothesis d_read : read d = Ptr rd.
Hypothesis d_write : write d = Ptr wr.

(** The three-write pulse: the devices after it, and its trace. *)
Definition init_voltage_env (volt : Z) (e : env) : env :=
  let r := rd (vpconfig vpi) e in
  let c := init_vpconfig vpi conv volt (u32 (fst r)) in
  wr c (vpconfig vpi)
    (wr (Z.lor c (vpconfig_initvdd (common vpi))) (vpconfig vpi)
       (wr c (vpconfig vpi) (snd r))).

Definition init_voltage_events (volt : Z) (e : env) : list event :=
  let r := rd (vpconfig vpi) e in
  let c := init_vpconfig vpi conv volt (u32 (fst r)) in
  [EvRead (vpconfig vpi) (u32 (fst r));
   EvWrite c (vpconfig vpi);
   EvWrite (Z.lor c (vpconfig_initvdd (common vpi))) (vpconfig vpi);
   EvWrite c (vpconfig vpi)].

(** The devices and the trace of an [omap_vp_enable] that goes through,
    from the devices [e] and with the current voltage data [vd]. *)
Definition enable_vpconfig (vd : omap_volt_data) (e : env) : Z :=
  Z.lor
    (init_vpconfig vpi conv (omap_get_operation_voltage vd)
       (u32 (fst (rd (vpconfig vpi) (snd (omap_voltage_get_curr_vdata_env d e))))))
    (vpconfig_vpenable (common vpi)).

Definition enable_events (vd : omap_volt_data) (e : env) : list event :=
  EvGetCurrVdata
    :: init_voltage_events (omap_get_operation_voltage vd)
         (snd (omap_voltage_get_curr_vdata_env d e))
    ++ [EvWrite (enable_vpconfig vd e) (vpconfig vpi)].

(** Steps 5 and 6: the initial-voltage pulse and the force-update
    trigger. *)
Definition trigger_update (volt : Z) : exec Z :=
  vpconfig_v <- _vp_set_init_voltage d volt ;;
  voltdm_write d (Z.lor vpconfig_v (vpconfig_forceupdate (common vpi)))
    (vpconfig vpi) ;;;
  ret vpconfig_v.

(** The call returns -ETIMEDOUT after the events [evs], which hold no
    register write and no post-scale call, and one routed error, [msg]. *)
Definition aborted_with_timeout (tv : omap_volt_data) (w : world)
    (msg : string) (evs : list event) : Prop :=
  exists w',
    omap_vp_forceupdate_scale (Ptr d) (Ptr tv) w = Ret (- ETIMEDOUT) w'
    /\ trace w' = trace w ++ evs
    /\ reg_writes evs = []
    /\ post_scale_calls evs = []
    /\ err_reports evs = [msg].

(** The ways a force-update scale can go, phase by phase, once the
    precondition checks have passed: the idle wait of step 2 returns [r1];
    when it is 0 and the pre-scale hook succeeds with the selectors [tvsel]
    and [cvsel], the clear loop of step 4 ends with its counter at [n4]; when
    that is below the budget, steps 5 and 6 write the configuration [c], the
    poll of step 7 ends at index [t7], and the clear loop of step 9 ends with
    its counter at [n9]. *)
Definition scale_outcomes (tv : omap_volt_data) (w : world) : Prop :=
  let volt := omap_get_operation_voltage tv in
  let T := VP_TRANXDONE_TIMEOUT in
  let a := vpconfig vpi in
  exists r1 w1,
    _vp_wait_for_idle d vpi w = Ret r1 w1
    /\ (r1 <> 0 ->
        exists evs,
          aborted_with_timeout tv w msg_idle_timedout evs
          /\ List.length (reg_reads evs) = VP_IDLE_TIMEOUT)
    /\ (r1 = 0 ->
        forall tvsel cvsel w2,
          omap_vc_pre_scale d volt tv w1 = Ret (0, tvsel, cvsel) w2 ->
          exists n4 w3,
            txdone_clear_loop vpi T 0 w2 = Ret n4 w3
            /\ ((T <= n4)%nat ->
                exists evs,
                  aborted_with_timeout tv w msg_tranxdone_aborted evs
                  /\ List.length (clear_attempts evs) = T)
            /\ ((n4 < T)%nat ->
                exists c w5 t7 w6 w7 w8 n9 w9 w10,
                  trigger_update volt w3 = Ret c w5
                  /\ omap_test_timeout (udelay 1) (vp_check_txdone vpi) T w5
                       = Ret t7 w6
                  /\ (if (T <=? t7)%nat
                      then _vp_controlled_err vpi d msg_tranxdone_never_set
                      else ret tt) w6 = Ret tt w7
                  /\ omap_vc_post_scale d volt tv tvsel cvsel w7 = Ret tt w8
                  /\ txdone_clear_loop vpi T 0 w8 = Ret n9 w9
                  /\ (if (T <=? n9)%nat
                      then _vp_controlled_err vpi d msg_tranxdone_not_cleared
                      else ret tt) w9 = Ret tt w10
                  /\ exists w' evs,
                       voltdm_write d c a w10 = Ret tt w'
                       /\ omap_vp_forceupdate_scale (Ptr d) (Ptr tv) w = Ret 0 w'
                       /\ trace w' = trace w ++ evs
                       /\ reg_writes evs =
                            [EvWrite c a;
                             EvWrite (Z.lor c (vpconfig_initvdd (common vpi))) a;
                             EvWrite c a;
                             EvWrite (Z.lor c (vpconfig_forceupdate (common vpi))) a;
                             EvWrite c a]
                       /\ post_scale_calls evs = [EvPostScale volt tv tvsel cvsel]
                       /\ err_reports evs =
                            (if (T <=? t7)%nat then [msg_tranxdone_never_set]
                             else [])
                            ++ (if (T <=? n9)%nat then [msg_tranxdone_not_cleared]
                                else []))).

(** The counter of the clear loop, read on the devices: after [n] attempts
    that left the status pending the devices are in
    [after_failed_clears n e], and [pending_after_clear n e] tells whether
    attempt [n + 1] leaves it pending too. *)
Fixpoint after_failed_clears (n : nat) (e : env) : env :=
  match n with
  | O => e
  | S n' =>
      after_failed_clears n'
        (udelay_env 1
           (snd (check_txdone (ops (common vpi)) (id vpi)
                   (clear_txdone (ops (common vpi)) (id vpi) e))))
  end.

Definition pending_after_clear (n : nat) (e : env) : bool :=
  fst (check_txdone (ops (common vpi)) (id vpi)
         (clear_txdone (ops (common vpi)) (id vpi) (after_failed_clears n e))).

Lemma set_init_voltage_ok (volt : Z) (w : world) :
  _vp_set_init_voltage d volt w =
    Ret (init_vpconfig vpi conv volt (u32 (fst (rd (vpconfig vpi) (w_env w)))))
      (advance w (init_voltage_env volt (w_env w))
         (init_voltage_events volt (w_env w))).
Proof.
  unfold _vp_set_init_voltage.
  step_deref d_pmic. step_deref p_uv_to_vsel. step_deref d_vp.
  rewrite (bind_Ret _ _ _ _ _ (voltdm_read_ok d rd _ w d_read)).
  fold (init_vpconfig vpi conv volt (u32 (fst (rd (vpconfig vpi) (w_env w))))).
  set (c := init_vpconfig _ _ _ _).
  rewrite (bind_Ret _ _ _ _ _ (voltdm_write_ok d wr _ _ _ d_write)).
  rewrite (bind_Ret _ _ _ _ _ (voltdm_write_ok d wr _ _ _ d_write)).
  rewrite (bind_Ret _ _ _ _ _ (voltdm_write_ok d wr _ _ _ d_write)).
  rewrite !advance_advance. reflexivity.
Qed.

(** *** Initialisation *)

(** C7: for a domain that passes every check of [omap_vp_init] (and whose
    PMIC has a nonzero slew-rate divisor), the call marks the VP disabled
    and performs exactly four register writes, one composed value each, to
    VPCONFIG, VSTEPMIN, VSTEPMAX and VLIMITTO.  The VLIMITTO value carries
    [uv_to_vsel (max (max vp_param.vddmin pmic.vddmin) vc_param.ret)] as
    minimum and [uv_to_vsel (min vp_param.vddmax pmic.vddmax)] as maximum. *)
Theorem vp_init_writes (vcp : omap_vc_param) (vpp : omap_vp_param) (w : world) :
  vc_param d = Ptr vcp ->
  vp_param d = Ptr vpp ->
  u32 (1000 * slew_rate p) <> 0 ->
  let c := common vpi in
  let clk := sys_clk_rate d / 1000 in
  let timeout := u32 (clk * vp_timeout_us p) / 1000 in
  let waittime :=
    u32 (u32 (step_size p * clk) + u32 (1000 * slew_rate p) - 1)
      / u32 (1000 * slew_rate p) in
  let vsel_min :=
    u8 (conv (Z.max (Z.max (vddmin vpp) (pmic_vddmin p)) (vc_ret vcp))) in
  let vsel_max := u8 (conv (Z.min (vddmax vpp) (pmic_vddmax p))) in
  let v_config :=
    Z.lor (shl32 (vp_erroroffset p) (__ffs (vpconfig_erroroffset_mask c)))
      (vpconfig_timeouten c) in
  let v_stepmin :=
    Z.lor (shl32 waittime (vstepmin_smpswaittimemin_shift c))
      (shl32 (vp_vstepmin p) (vstepmin_stepmin_shift c)) in
  let v_stepmax :=
    Z.lor (shl32 (vp_vstepmax p) (vstepmax_stepmax_shift c))
      (shl32 waittime (vstepmax_smpswaittimemax_shift c)) in
  let v_limit :=
    Z.lor (Z.lor (shl32 vsel_max (vlimitto_vddmax_shift c))
             (shl32 vsel_min (vlimitto_vddmin_shift c)))
      (shl32 timeout (vlimitto_timeout_shift c)) in
  exists w',
    omap_vp_init (Ptr d) w = Ret tt w'
    /\ vp_enabled w' (id vpi) = false
    /\ trace w' =
         trace w
           ++ [EvWrite v_config (vpconfig vpi); EvWrite v_stepmin (vstepmin vpi);
               EvWrite v_stepmax (vstepmax vpi); EvWrite v_limit (vlimitto vpi)]
    /\ w_env w' =
         wr v_limit (vlimitto vpi)
           (wr v_stepmax (vstepmax vpi)
              (wr v_stepmin (vstepmin vpi)
                 (wr v_config (vpconfig vpi) (w_env w)))).
Proof.
  intros Hvc Hvp Hslew c clk timeout waittime vsel_min vsel_max v_config
    v_stepmin v_stepmax v_limit.
  unfold omap_vp_init. cbn [IS_ERR_OR_NULL deref]. exec_ret.
  rewrite d_pmic. cbn [is_null deref]. exec_ret.
  rewrite p_uv_to_vsel, d_read, d_write, d_vp, Hvc, Hvp.
  cbn [is_null orb IS_ERR_OR_NULL deref]. exec_ret.
  unfold DIV_ROUND_UP.
  destruct (Z.eqb_spec (u32 (1000 * slew_rate p)) 0) as [E | _];
    [contradiction |].
  unfold bind at 1. cbv beta iota.
  rewrite p_uv_to_vsel. cbn [deref]. exec_ret.
  fold c clk. fold timeout vsel_min vsel_max waittime.
  fold v_config. fold v_stepmin. fold v_stepmax. fold v_limit.
  set (w0 := set_vp_enabled (id vpi) false w).
  rewrite (bind_Ret _ _ _ _ _ (voltdm_write_ok d wr _ _ w0 d_write)).
  rewrite (bind_Ret _ _ _ _ _ (voltdm_write_ok d wr _ _ _ d_write)).
  rewrite (bind_Ret _ _ _ _ _ (voltdm_write_ok d wr _ _ _ d_write)).
  rewrite (voltdm_write_ok d wr _ _ _ d_write).
  rewrite !advance_advance. eexists. split; [reflexivity |].
  cbn. rewrite Z.eqb_refl. repeat split; reflexivity.
Qed.

(** *** Enabling *)

Lemma enable_when_enabled (w : world) :
  vp_enabled w (id vpi) = true -> omap_vp_enable (Ptr d) w = Ret tt w.
Proof.
  intros Hen. unfold omap_vp_enable. cbn [IS_ERR_OR_NULL deref].
  rewrite bind_ret. cbv beta. rewrite d_vp, d_read, d_write.
  cbn [is_null orb IS_ERR_OR_NULL deref]. rewrite bind_ret. cbv beta.
  unfold bind. now rewrite Hen.
Qed.

Lemma enable_when_disabled (vd : omap_volt_data) (w : world) :
  vp_enabled w (id vpi) = false ->
  fst (omap_voltage_get_curr_vdata_env d (w_env w)) = Ptr vd ->
  exists w',
    omap_vp_enable (Ptr d) w = Ret tt w'
    /\ trace w' = trace w ++ enable_events vd (w_env w)
    /\ vp_enabled w' (id vpi) = true
    /\ w_env w' =
         wr (enable_vpconfig vd (w_env w)) (vpconfig vpi)
           (init_voltage_env (omap_get_operation_voltage vd)
              (snd (omap_voltage_get_curr_vdata_env d (w_env w)))).
Proof.
  intros Hen Hlook. unfold omap_vp_enable. cbn [IS_ERR_OR_NULL deref].
  rewrite bind_ret. cbv beta. rewrite d_vp, d_read, d_write.
  cbn [is_null orb IS_ERR_OR_NULL deref]. rewrite bind_ret. cbv beta.
  unfold bind at 1. rewrite Hen.
  unfold bind at 1. unfold omap_voltage_get_curr_vdata.
  destruct (omap_voltage_get_curr_vdata_env d (w_env w)) as [v e1] eqn:Elook.
  cbn [fst] in Hlook. subst v. cbn [is_null deref].
  rewrite bind_ret. cbv beta.
  rewrite log_event_as_advance.
  rewrite (bind_Ret _ _ _ _ _ (set_init_voltage_ok _ _)).
  rewrite (bind_Ret _ _ _ _ _ (voltdm_write_ok d wr _ _ _ d_write)).
  rewrite !advance_advance. eexists. split; [reflexivity |].
  unfold enable_events, enable_vpconfig. rewrite Elook.
  cbn. rewrite Z.eqb_refl. repeat split; reflexivity.
Qed.


(** C8: on a configured domain whose current-voltage lookup succeeds, the
    VP is enabled after a first [omap_vp_enable] and after a second one,
    and the second one leaves the machine exactly as it found it: it writes
    no register.  When the VP was disabled the first call performs the four
    writes of the initial-voltage pulse and of the VP-enable bit. *)
Theorem enable_idempotent (vd : omap_volt_data) (w : world) :
  fst (omap_voltage_get_curr_vdata_env d (w_env w)) = Ptr vd ->
  exists w1,
    omap_vp_enable (Ptr d) w = Ret tt w1
    /\ vp_enabled w1 (id vpi) = true
    /\ (vp_enabled w (id vpi) = false ->
        trace w1 = trace w ++ enable_events vd (w_env w)
        /\ List.length (reg_writes (enable_events vd (w_env w))) = 4%nat)
    /\ (vp_enabled w (id vpi) = true -> w1 = w)
    /\ exists w2,
         omap_vp_enable (Ptr d) w1 = Ret tt w2
         /\ vp_enabled w2 (id vpi) = true
         /\ w2 = w1
         /\ reg_writes (trace w2) = reg_writes (trace w1).
Proof.
  intros Hlook. destruct (vp_enabled w (id vpi)) eqn:Hen.
  - exists w. rewrite (enable_when_enabled w Hen).
    repeat split; try assumption; try discriminate.
    exists w. now repeat split.
  - destruct (enable_when_disabled vd w Hen Hlook) as (w1 & Hrun & Htr & Hen1 & _).
    exists w1. repeat split; try assumption; try discriminate.
    exists w1. rewrite (enable_when_enabled w1 Hen1). now repeat split.
Qed.


(** *** Force-update scaling *)

Lemma post_scale_calls_app (a b : list event) :
  post_scale_calls (a ++ b) = post_scale_calls a ++ post_scale_calls b.
Proof. apply filter_app. Qed.

Lemma err_reports_app (a b : list event) :
  err_reports (a ++ b) = err_reports a ++ err_reports b.
Proof. apply flat_map_app. Qed.

Lemma clear_attempts_app (a b : list event) :
  clear_attempts (a ++ b) = clear_attempts a ++ clear_attempts b.
Proof. apply filter_app. Qed.

Lemma reg_reads_app (a b : list event) :
  reg_reads (a ++ b) = reg_reads a ++ reg_reads b.
Proof. apply filter_app. Qed.

Lemma poll_events_quiet (evs : list event) :
  forallb is_poll_event evs = true -> quiet evs.
Proof.
  unfold quiet. induction evs as [| e evs IH]; intros H; [now repeat split |].
  cbn [forallb] in H. apply andb_prop in H as [He Hevs].
  destruct (IH Hevs) as (Hw & Hp & Hr).
  destruct e; try discriminate He; cbn; now repeat split.
Qed.

Lemma quiet_app (a b : list event) : quiet a -> quiet b -> quiet (a ++ b).
Proof.
  unfold quiet. intros (Ha1 & Ha2 & Ha3) (Hb1 & Hb2 & Hb3).
  now rewrite reg_writes_app, post_scale_calls_app, err_reports_app,
    Ha1, Ha2, Ha3, Hb1, Hb2, Hb3.
Qed.

Lemma vp_check_txdone_ok (w : world) :
  vp_check_txdone vpi w =
    Ret (fst (check_txdone (ops (common vpi)) (id vpi) (w_env w)))
      (advance w (snd (check_txdone (ops (common vpi)) (id vpi) (w_env w)))
         [EvCheckTxdone (id vpi)
            (fst (check_txdone (ops (common vpi)) (id vpi) (w_env w)))]).
Proof.
  unfold vp_check_txdone.
  now destruct (check_txdone (ops (common vpi)) (id vpi) (w_env w)).
Qed.

(** Step 2: the idle poll.  When its index reaches the budget, it has read
    the status register [VP_IDLE_TIMEOUT] times. *)
Lemma idle_poll_loop (remaining : nat) :
  forall (index : nat) (w : world),
    exists c w' evs,
      omap_test_timeout_from (udelay 1)
        (v <- voltdm_read d (vstatus vpi) ;;
         ret (negb (Z.land v (vstatus_vpidle (common vpi)) =? 0)))
        remaining index w = Ret c w'
      /\ trace w' = trace w ++ evs
      /\ forallb is_poll_event evs = true
      /\ clear_attempts evs = []
      /\ (index <= c <= index + remaining)%nat
      /\ (c = index + remaining -> List.length (reg_reads evs) = remaining)%nat.
Proof.
  induction remaining as [| remaining IH]; intros index w.
  - exists index, w, []. cbn. rewrite app_nil_r. repeat split; lia.
  - cbn [omap_test_timeout_from].
    unfold bind at 1. unfold bind at 1.
    rewrite (voltdm_read_ok d rd _ w d_read). cbv beta iota. unfold ret at 1.
    destruct (negb _).
    + eexists index, _, _. split; [reflexivity |]. cbn [trace advance].
      split; [reflexivity |]. cbn. repeat split; lia.
    + unfold bind at 1. unfold udelay at 1. cbv beta iota.
      match goal with
      | |- context [omap_test_timeout_from _ _ _ _ ?w1] =>
          destruct (IH (S index) w1)
            as (c & w' & evs & Hrun & Htr & Hq & Hcl & Hc & Hn)
      end.
      exists c, w'. eexists. split; [exact Hrun |].
      rewrite Htr. cbn [trace advance log_event set_env].
      rewrite <- !app_assoc. split; [reflexivity |].
      cbn. split; [exact Hq |]. split; [exact Hcl |]. split; [lia |].
      intros E. f_equal. apply Hn. lia.
Qed.

(** Step 7: the poll for transaction-done. *)
Lemma txdone_wait_loop (remaining : nat) :
  forall (index : nat) (w : world),
    exists c w' evs,
      omap_test_timeout_from (udelay 1) (vp_check_txdone vpi) remaining index w
        = Ret c w'
      /\ trace w' = trace w ++ evs
      /\ forallb is_poll_event evs = true.
Proof.
  induction remaining as [| remaining IH]; intros index w.
  - exists index, w, []. cbn. rewrite app_nil_r. now repeat split.
  - cbn [omap_test_timeout_from].
    unfold bind at 1. rewrite vp_check_txdone_ok.
    destruct (fst (check_txdone _ _ _)).
    + eexists index, _, _. split; [reflexivity |]. cbn [trace advance].
      split; reflexivity.
    + unfold bind at 1. unfold udelay at 1. cbv beta iota.
      match goal with
      | |- context [omap_test_timeout_from _ _ _ _ ?w1] =>
          destruct (IH (S index) w1) as (c & w' & evs & Hrun & Htr & Hq)
      end.
      exists c, w'. eexists. split; [exact Hrun |].
      rewrite Htr. cbn [trace advance log_event set_env].
      rewrite <- !app_assoc. split; [reflexivity |]. exact Hq.
Qed.

(** Steps 4 and 9: the clear loop.  Its result [n] exceeds the initial
    [timeout]; the loop made [min (n - timeout) remaining] clear attempts,
    that is, all [remaining] of them as soon as [n] reaches
    [timeout + remaining]. *)
Lemma txdone_clear_loop_run (remaining : nat) :
  forall (timeout : nat) (w : world),
    exists n w' evs,
      txdone_clear_loop vpi remaining timeout w = Ret n w'
      /\ trace w' = trace w ++ evs
      /\ forallb is_poll_event evs = true
      /\ (timeout < n <= timeout + remaining + 1)%nat
      /\ List.length (clear_attempts evs) = Nat.min (n - timeout) remaining.
Proof.
  induction remaining as [| remaining IH]; intros timeout w.
  - exists (S timeout), w, []. cbn [txdone_clear_loop]. unfold ret.
    rewrite app_nil_r, Nat.min_0_r. repeat split; try reflexivity; lia.
  - cbn [txdone_clear_loop].
    unfold bind at 1. unfold vp_clear_txdone at 1. cbv beta iota.
    unfold bind at 1. rewrite vp_check_txdone_ok.
    destruct (fst (check_txdone _ _ _)); cbn [negb].
    + unfold bind at 1. unfold udelay at 1. cbv beta iota.
      match goal with
      | |- context [txdone_clear_loop _ _ _ ?w1] =>
          destruct (IH (S timeout) w1) as (n & w' & evs & Hrun & Htr & Hq & Hn & Hc)
      end.
      exists n, w'. eexists. split; [exact Hrun |].
      rewrite Htr. cbn [trace advance log_event set_env].
      rewrite <- !app_assoc. split; [reflexivity |].
      cbn. split; [exact Hq |]. split; [lia |].
      fold (clear_attempts evs). rewrite Hc. lia.
    + eexists (S timeout), _, _. unfold ret. split; [reflexivity |].
      cbn [trace advance log_event set_env]. rewrite <- !app_assoc.
      split; [reflexivity |]. cbn [forallb is_poll_event andb].
      split; [reflexivity |]. split; [lia |].
      cbn [clear_attempts filter is_clear_txdone app List.length]. lia.
Qed.

(** One error routed for this VP: no register write, no post-scale call,
    one report. *)
Lemma controlled_err_run (msg : string) (w : world) :
  (forall e, recover (ops (common vpi)) <> ErrPtr e) ->
  String.eqb msg msg_recovery_triggered = false ->
  exists w' evs,
    _vp_controlled_err vpi d msg w = Ret tt w'
    /\ trace w' = trace w ++ evs
    /\ reg_writes evs = []
    /\ post_scale_calls evs = []
    /\ err_reports evs = [msg]
    /\ reg_reads evs = []
    /\ clear_attempts evs = [].
Proof.
  intros Hrec Hmsg. unfold _vp_controlled_err.
  destruct (recover (ops (common vpi))) as [| e | f] eqn:Erec;
    [| now contradiction (Hrec e) |]; cbn [is_null].
  - unfold bind at 1.
    destruct (negb (__vp_debug_error_message_count w =? 0));
      (do 2 eexists; split; [reflexivity |];
       cbn [trace log_event set_env set_message_count];
       rewrite <- ?app_assoc; split; [reflexivity |];
       cbn; rewrite Hmsg; now repeat split).
  - unfold bind at 1.
    destruct (negb (__vp_debug_error_message_count w =? 0)); cbn;
      match goal with
      | |- context [if ?c =? 0 then _ else _] => destruct (c =? 0)
      end;
      (do 2 eexists; split; [reflexivity |];
       cbn [trace log_event set_env set_message_count set_recover_count];
       rewrite <- ?app_assoc; split; [reflexivity |];
       cbn; rewrite Hmsg; now repeat split).
Qed.

Lemma maybe_report_run (timed_out : bool) (msg : string) (w : world) :
  (forall e, recover (ops (common vpi)) <> ErrPtr e) ->
  String.eqb msg msg_recovery_triggered = false ->
  exists w' evs,
    (if timed_out then _vp_controlled_err vpi d msg else ret tt) w = Ret tt w'
    /\ trace w' = trace w ++ evs
    /\ reg_writes evs = []
    /\ post_scale_calls evs = []
    /\ err_reports evs = (if timed_out then [msg] else []).
Proof.
  intros Hrec Hmsg. destruct timed_out.
  - destruct (controlled_err_run msg w Hrec Hmsg)
      as (w' & evs & Hrun & Htr & Hw & Hp & He & _).
    exists w', evs. now repeat split.
  - exists w, []. rewrite app_nil_r. now repeat split.
Qed.

Lemma wait_for_idle_run (w : world) :
  exists r w' evs,
    _vp_wait_for_idle d vpi w = Ret r w'
    /\ trace w' = trace w ++ evs
    /\ quiet evs
    /\ clear_attempts evs = []
    /\ (r = 0
        \/ (r = - ETIMEDOUT
            /\ List.length (reg_reads evs) = VP_IDLE_TIMEOUT)).
Proof.
  unfold _vp_wait_for_idle, omap_test_timeout.
  destruct (idle_poll_loop VP_IDLE_TIMEOUT 0 w)
    as (c & w1 & evs & Hrun & Htr & Hq & Hcl & Hc & Hn).
  rewrite (bind_Ret _ _ _ _ _ Hrun).
  destruct (Nat.leb_spec VP_IDLE_TIMEOUT c) as [Hto | Hin].
  - destruct (idle_timedout_warnings d w1) as (l & Hwarn & Hl). rewrite Hwarn.
    exists (- ETIMEDOUT), (advance w1 (w_env w1) l), (evs ++ l).
    split; [reflexivity |]. cbn [trace advance]. rewrite Htr, <- app_assoc.
    split; [reflexivity |]. split; [| split].
    + apply quiet_app; [now apply poll_events_quiet |].
      destruct Hl as [-> | ->]; now repeat split.
    + rewrite clear_attempts_app, Hcl. now destruct Hl as [-> | ->].
    + right. split; [reflexivity |]. rewrite reg_reads_app, List.length_app.
      rewrite (Hn ltac:(lia)). destruct Hl as [-> | ->]; cbn; lia.
  - exists 0, w1, evs. split; [reflexivity |]. split; [exact Htr |].
    split; [now apply poll_events_quiet |]. split; [exact Hcl | now left].
Qed.

Lemma trigger_update_ok (volt : Z) (w : world) :
  let c := init_vpconfig vpi conv volt (u32 (fst (rd (vpconfig vpi) (w_env w)))) in
  let v := Z.lor c (vpconfig_forceupdate (common vpi)) in
  trigger_update volt w =
    Ret c
      (advance w (wr v (vpconfig vpi) (init_voltage_env volt (w_env w)))
         (init_voltage_events volt (w_env w) ++ [EvWrite v (vpconfig vpi)])).
Proof.
  intros c v. unfold trigger_update.
  rewrite (bind_Ret _ _ _ _ _ (set_init_voltage_ok volt w)). fold c.
  rewrite (bind_Ret _ _ _ _ _ (voltdm_write_ok d wr _ _ _ d_write)).
  rewrite advance_advance. reflexivity.
Qed.

Lemma forceupdate_scale_phases (tv : omap_volt_data) (w : world) :
  (forall e, recover (ops (common vpi)) <> ErrPtr e) ->
  scale_outcomes tv w.
Proof.
  intros Hrec. cbv delta [scale_outcomes]. cbv beta. intros volt T a.
  unfold aborted_with_timeout.
  remember (omap_vp_forceupdate_scale (Ptr d) (Ptr tv) w) as res eqn:Hres.
  unfold omap_vp_forceupdate_scale in Hres.
  cbn [IS_ERR_OR_NULL deref] in Hres.
  repeat (rewrite bind_ret in Hres; cbv beta in Hres).
  rewrite d_write, d_vp in Hres. cbn [IS_ERR_OR_NULL deref] in Hres.
  repeat (rewrite bind_ret in Hres; cbv beta in Hres).
  cbv zeta in Hres. fold volt T a in Hres.
  destruct (wait_for_idle_run w)
    as (r1 & w1 & evs1 & Hrun1 & Htr1 & Hq1 & Hcl1 & Hr1).
  rewrite (bind_Ret _ _ _ _ _ Hrun1) in Hres.
  exists r1, w1. split; [exact Hrun1 |].
  destruct Hq1 as (Hw1 & Hp1 & He1). split.
  - (* step 2 used up its budget *)
    intros Hne. destruct Hr1 as [-> | [-> Hreads]]; [contradiction |].
    change (negb (- ETIMEDOUT =? 0)) with true in Hres. cbv iota in Hres.
    destruct (controlled_err_run msg_idle_timedout w1 Hrec eq_refl)
      as (w' & evs & Hrun & Htr & Hw & Hp & He & Hrd & _).
    rewrite (bind_Ret _ _ _ _ _ Hrun) in Hres. unfold ret in Hres.
    exists (evs1 ++ evs). split.
    + exists w'. rewrite Hres. split; [reflexivity |].
      rewrite Htr, Htr1, <- app_assoc. split; [reflexivity |].
      now rewrite reg_writes_app, post_scale_calls_app, err_reports_app,
        Hw, Hp, He, Hw1, Hp1, He1.
    + rewrite reg_reads_app, List.length_app, Hreads, Hrd. cbn. lia.
  - intros -> tvsel cvsel w2 Hpre.
    change (negb (0 =? 0)) with false in Hres. cbv iota in Hres.
    rewrite (bind_Ret _ _ _ _ _ Hpre) in Hres. cbv beta iota zeta in Hres.
    change (negb (0 =? 0)) with false in Hres. cbv iota in Hres.
    destruct (txdone_clear_loop_run T 0 w2)
      as (n4 & w3 & evs4 & Hrun4 & Htr4 & Hq4 & Hn4 & Hc4).
    rewrite (bind_Ret _ _ _ _ _ Hrun4) in Hres.
    exists n4, w3. split; [exact Hrun4 |].
    assert (Htr2 : trace w2 = trace w1 ++ [EvPreScale volt tv 0]).
    { unfold omap_vc_pre_scale in Hpre.
      destruct (omap_vc_pre_scale_env d volt tv (w_env w1)) as [pre e2].
      injection Hpre as -> <-. reflexivity. }
    destruct (poll_events_quiet evs4 Hq4) as (Hw4 & Hp4 & He4).
    split.
    + (* step 4 used up its budget *)
      intros Hto. pose proof Hto as Htob. apply Nat.leb_le in Htob.
      rewrite Htob in Hres.
      destruct (controlled_err_run msg_tranxdone_aborted w3 Hrec eq_refl)
        as (w' & evs & Hrun & Htr & Hw & Hp & He & _ & Hcl).
      rewrite (bind_Ret _ _ _ _ _ Hrun) in Hres. unfold ret in Hres.
      exists (evs1 ++ [EvPreScale volt tv 0] ++ evs4 ++ evs). split.
      * exists w'. rewrite Hres. split; [reflexivity |].
        rewrite Htr, Htr4, Htr2, Htr1, <- !app_assoc. split; [reflexivity |].
        rewrite !reg_writes_app, !post_scale_calls_app, !err_reports_app,
          Hw, Hp, He, Hw1, Hp1, He1, Hw4, Hp4, He4. now repeat split.
      * rewrite !clear_attempts_app, Hcl1, Hcl, !List.length_app, Hc4.
        cbn. lia.
    + (* steps 5 to 10 *)
      intros Hlt. pose proof Hlt as Hltb. apply Nat.leb_gt in Hltb.
      rewrite Hltb in Hres.
      rewrite (bind_Ret _ _ _ _ _ (set_init_voltage_ok volt w3)) in Hres.
      set (c := init_vpconfig vpi conv volt
                  (u32 (fst (rd (vpconfig vpi) (w_env w3))))) in *.
      rewrite (bind_Ret _ _ _ _ _ (voltdm_write_ok d wr _ _ _ d_write)) in Hres.
      rewrite advance_advance in Hres.
      pose proof (trigger_update_ok volt w3) as Htrig. cbv zeta in Htrig.
      fold c in Htrig. fold a in Htrig, Hres.
      cbn [w_env advance] in Hres.
      set (w5 := advance w3 _ _) in *.
      assert (Htr5 : trace w5 =
                trace w3 ++ init_voltage_events volt (w_env w3)
                  ++ [EvWrite (Z.lor c (vpconfig_forceupdate (common vpi))) a])
        by reflexivity.
      clearbody w5.
      unfold omap_test_timeout in Hres |- *.
      destruct (txdone_wait_loop T 0 w5) as (t7 & w6 & evs7 & Hrun7 & Htr7 & Hq7).
      rewrite (bind_Ret _ _ _ _ _ Hrun7) in Hres.
      destruct (maybe_report_run (T <=? t7)%nat msg_tranxdone_never_set w6
                  Hrec eq_refl) as (w7 & er7 & Hrep7 & Htrr7 & Hw7 & Hp7 & He7).
      rewrite (bind_Ret _ _ _ _ _ Hrep7) in Hres.
      assert (Hpost : exists w8,
                 omap_vc_post_scale d volt tv tvsel cvsel w7 = Ret tt w8
                 /\ trace w8 = trace w7 ++ [EvPostScale volt tv tvsel cvsel])
        by (eexists; split; reflexivity).
      destruct Hpost as (w8 & Hpost & Htr8).
      rewrite (bind_Ret _ _ _ _ _ Hpost) in Hres.
      destruct (txdone_clear_loop_run T 0 w8)
        as (n9 & w9 & evs9 & Hrun9 & Htr9 & Hq9 & _ & _).
      rewrite (bind_Ret _ _ _ _ _ Hrun9) in Hres.
      destruct (maybe_report_run (T <=? n9)%nat msg_tranxdone_not_cleared w9
                  Hrec eq_refl) as (w10 & er9 & Hrep9 & Htrr9 & Hw9 & Hp9 & He9).
      rewrite (bind_Ret _ _ _ _ _ Hrep9) in Hres.
      rewrite (bind_Ret _ _ _ _ _ (voltdm_write_ok d wr _ _ _ d_write)) in Hres.
      unfold ret in Hres.
      destruct (poll_events_quiet evs7 Hq7) as (Hwq7 & Hpq7 & Heq7).
      destruct (poll_events_quiet evs9 Hq9) as (Hwq9 & Hpq9 & Heq9).
      exists c, w5, t7, w6, w7, w8, n9, w9, w10.
      split; [exact Htrig |]. split; [exact Hrun7 |]. split; [exact Hrep7 |].
      split; [exact Hpost |]. split; [exact Hrun9 |]. split; [exact Hrep9 |].
      eexists. eexists. split; [apply (voltdm_write_ok d wr _ _ _ d_write) |].
      split; [exact Hres |]. cbn [trace advance].
      rewrite Htrr9, Htr9, Htr8, Htrr7, Htr7, Htr5, Htr4, Htr2, Htr1.
      rewrite <- !app_assoc. split; [reflexivity |].
      rewrite !reg_writes_app, !post_scale_calls_app, !err_reports_app.
      rewrite Hw1, Hp1, He1, Hw4, Hp4, He4, Hwq7, Hpq7, Heq7, Hw7, Hp7, He7,
        Hwq9, Hpq9, Heq9, Hw9, Hp9, He9.
      cbn. rewrite !app_nil_r. now repeat split.
Qed.

(** When attempt [k + 1] is the first to clear the status, the loop ends
    with its counter at [timeout + k + 1]; as the callers compare the counter
    with [>=], they treat a status cleared by the last permitted attempt
    ([k + 1 = remaining]) like one that was never cleared. *)
Lemma txdone_clear_loop_counter (remaining : nat) :
  forall (timeout k : nat) (w : world),
    (forall i, (i < k)%nat -> pending_after_clear i (w_env w) = true) ->
    pending_after_clear k (w_env w) = false ->
    (k < remaining)%nat ->
    exists w', txdone_clear_loop vpi remaining timeout w = Ret (timeout + k + 1)%nat w'.
Proof.
  induction remaining as [| remaining IH]; intros timeout k w Hpend Hclr Hk;
    [lia |].
  cbn [txdone_clear_loop].
  unfold bind at 1. unfold vp_clear_txdone at 1. cbv beta iota.
  unfold bind at 1. rewrite vp_check_txdone_ok. cbn [w_env log_event set_env].
  destruct k as [| k].
  - unfold pending_after_clear in Hclr. cbn [after_failed_clears] in Hclr.
    rewrite Hclr. cbn [negb]. unfold ret. eexists. f_equal. lia.
  - assert (H0 : pending_after_clear 0 (w_env w) = true) by (apply Hpend; lia).
    unfold pending_after_clear in H0. cbn [after_failed_clears] in H0.
    rewrite H0. cbn [negb]. unfold bind at 1. unfold udelay at 1. cbv beta iota.
    match goal with
    | |- context [txdone_clear_loop _ _ _ ?w1] =>
        destruct (IH (S timeout) k w1) as (w' & Hrun)
    end.
    + intros i Hi. change (pending_after_clear (S i) (w_env w) = true).
      apply Hpend. lia.
    + exact Hclr.
    + lia.
    + exists w'. rewrite Hrun. f_equal. lia.
Qed.

End ConfiguredDomain.

(** *** Error gain *)

(** C6, as the code has it: [omap_vp_update_errorgain] returns -EINVAL
    when the domain has no VP or the voltage data is absent; when both are
    there and only the read-modify-write accessor is absent it logs an error
    and returns 0.  In none of these cases does it access a register. *)
Theorem update_errorgain_precondition_failures (d : voltagedomain)
    (volt_data : kptr omap_volt_data) (w : world) :
  (is_null (vp d) = true \/ IS_ERR_OR_NULL volt_data = true ->
   exists w',
     omap_vp_update_errorgain (Ptr d) volt_data w = Ret (- EINVAL) w'
     /\ w_env w' = w_env w
     /\ reg_writes (trace w') = reg_writes (trace w)
     /\ reg_reads (trace w') = reg_reads (trace w))
  /\ (is_null (vp d) = false ->
      IS_ERR_OR_NULL volt_data = false ->
      IS_ERR_OR_NULL (rmw d) = true ->
      exists w',
        omap_vp_update_errorgain (Ptr d) volt_data w = Ret 0 w'
        /\ trace w' =
             trace w
               ++ [EvLog KERN_ERR "%s: No rmw API for reading vdd_%s regs"]
        /\ w_env w' = w_env w
        /\ reg_writes (trace w') = reg_writes (trace w)
        /\ reg_reads (trace w') = reg_reads (trace w)).
Proof.
  unfold omap_vp_update_errorgain. cbn [IS_ERR_OR_NULL deref].
  rewrite bind_ret. cbv beta. split.
  - intros H. destruct (is_null (vp d)).
    + exists w. now repeat split.
    + destruct H as [H | H]; [discriminate H |]. rewrite H.
      eexists. split; [reflexivity |]. cbn.
      unfold reg_writes, reg_reads. rewrite !filter_app. cbn.
      rewrite !app_nil_r. now repeat split.
  - intros -> -> ->. eexists. split; [reflexivity |]. cbn.
    unfold reg_writes, reg_reads. rewrite !filter_app. cbn.
    rewrite !app_nil_r. now repeat split.
Qed.

(** * The rest of the code

    The base table and the reset lines of prminst44xx.c beyond the
    deassert path, the global resets, the remaining entry points and the
    failure paths of vp.c, and the n-value tables of sr_device.c. *)

(** ** The PRM base table *)

Section MappedPrmPartition.

Hypothesis prm_partition_valid :
  OMAP4430_PRM_PARTITION < OMAP4_MAX_PRCM_PARTITIONS
  /\ OMAP4430_PRM_PARTITION <> OMAP4430_INVALID_PRCM_PARTITION.
Hypothesis prm_partition_own_slot :
  OMAP4430_PRM_PARTITION <> OMAP4430_PRCM_MPU_PARTITION
  /\ OMAP4430_PRM_PARTITION <> OMAP4430_SCRM_PARTITION.

(** X1: after [omap4_prm_base_init], an access to the PRM partition goes to the
    PRM base of the globals plus instance and register offsets, and is fatal
    when that base is NULL; the initialisation itself touches no device. *)
Theorem base_init_then_access (g : omap_globals) (w : world) (val inst idx : Z) :
  exists w1,
    omap4_prm_base_init g w = Ret tt w1
    /\ w_env w1 = w_env w
    /\ trace w1 = trace w
    /\ (prm g = 0 ->
        omap4_prminst_read_inst_reg OMAP4430_PRM_PARTITION inst idx w1 = Bug w1
        /\ omap4_prminst_write_inst_reg val OMAP4430_PRM_PARTITION inst idx w1
           = Bug w1)
    /\ (prm g <> 0 ->
        let a := prm g + inst + idx in
        let r := __raw_readl a (w_env w) in
        omap4_prminst_read_inst_reg OMAP4430_PRM_PARTITION inst idx w1 =
          Ret (u32 (fst r)) (log_event (EvReadl a (u32 (fst r))) (set_env (snd r) w1))
        /\ omap4_prminst_write_inst_reg val OMAP4430_PRM_PARTITION inst idx w1 =
             Ret tt
               (log_event (EvWritel val a)
                  (set_env (__raw_writel val a (w_env w)) w1))).
Proof using prm_partition_valid prm_partition_own_slot.
  destruct prm_partition_valid as [Hlt Hne].
  destruct prm_partition_own_slot as [Hmpu Hscrm].
  eexists. split; [reflexivity |].
  set (w1 := store_base _ _ _).
  assert (Hbase : _prm_bases w1 OMAP4430_PRM_PARTITION = prm g).
  { subst w1. cbn.
    destruct (Z.eqb_spec OMAP4430_PRM_PARTITION OMAP4430_SCRM_PARTITION) as [E | _];
      [contradiction |].
    destruct (Z.eqb_spec OMAP4430_PRM_PARTITION OMAP4430_PRCM_MPU_PARTITION)
      as [E | _]; [contradiction |].
    now rewrite Z.eqb_refl. }
  split; [reflexivity |]. split; [reflexivity |]. split.
  - intros Hnull.
    assert (Hbug : prm_part_bug w1 OMAP4430_PRM_PARTITION = true).
    { apply prm_part_bug_spec. right. right. now rewrite Hbase. }
    unfold omap4_prminst_read_inst_reg, omap4_prminst_write_inst_reg.
    now rewrite Hbug.
  - intros Hmapped a r.
    assert (Hok : prm_part_bug w1 OMAP4430_PRM_PARTITION = false).
    { destruct (prm_part_bug w1 OMAP4430_PRM_PARTITION) eqn:E; [| reflexivity].
      apply prm_part_bug_spec in E. rewrite Hbase in E.
      destruct E as [E | [E | E]]; [| contradiction | contradiction].
      exfalso. apply (Z.lt_irrefl OMAP4430_PRM_PARTITION).
      now apply Z.lt_le_trans with OMAP4_MAX_PRCM_PARTITIONS. }
    rewrite (read_inst_reg_ok w1 _ inst idx Hok),
      (write_inst_reg_ok w1 val _ inst idx Hok).
    cbv zeta. rewrite Hbase. split; reflexivity.
Qed.

End MappedPrmPartition.

(** X2: a second [omap4_prm_base_init] replaces the bindings of the first: the
    table is the one the second call alone would leave, the SCRM slot (stored
    last) holds the SCRM base of the second globals, and the slots of the
    other partitions stay as they were. *)
Theorem base_init_overwrites (g1 g2 : omap_globals) (w : world) :
  exists w1 w2 w2',
    omap4_prm_base_init g1 w = Ret tt w1
    /\ omap4_prm_base_init g2 w1 = Ret tt w2
    /\ omap4_prm_base_init g2 w = Ret tt w2'
    /\ (forall part, _prm_bases w2 part = _prm_bases w2' part)
    /\ _prm_bases w2 OMAP4430_SCRM_PARTITION = scrm g2
    /\ (forall part,
          part <> OMAP4430_PRM_PARTITION ->
          part <> OMAP4430_PRCM_MPU_PARTITION ->
          part <> OMAP4430_SCRM_PARTITION ->
          _prm_bases w2 part = _prm_bases w part)
    /\ w_env w2 = w_env w
    /\ trace w2 = trace w.
Proof.
  do 3 eexists. split; [reflexivity |]. split; [reflexivity |].
  split; [reflexivity |]. cbn. split; [| split; [| split]].
  - intros part.
    destruct (part =? OMAP4430_SCRM_PARTITION); [reflexivity |].
    destruct (part =? OMAP4430_PRCM_MPU_PARTITION); [reflexivity |].
    destruct (part =? OMAP4430_PRM_PARTITION); reflexivity.
  - now rewrite Z.eqb_refl.
  - intros part H1 H2 H3.
    destruct (Z.eqb_spec part OMAP4430_SCRM_PARTITION); [contradiction |].
    destruct (Z.eqb_spec part OMAP4430_PRCM_MPU_PARTITION); [contradiction |].
    destruct (Z.eqb_spec part OMAP4430_PRM_PARTITION); [contradiction |].
    reflexivity.
  - split; reflexivity.
Qed.

(** ** Reset lines: query and assert *)

Lemma lor_land_lnot (v m : Z) : Z.lor (Z.land v (Z.lnot m)) m = Z.lor v m.
Proof.
  apply Z.bits_inj'. intros n Hn.
  rewrite !Z.lor_spec, Z.land_spec, Z.lnot_spec by exact Hn.
  destruct (Z.testbit v n), (Z.testbit m n); reflexivity.
Qed.

Lemma pow2_small (shift : Z) : 0 <= shift < 32 -> 0 <= 2 ^ shift < 2 ^ 32.
Proof.
  intros Hs. split; [apply Z.pow_nonneg; lia | apply Z.pow_lt_mono_r; lia].
Qed.

(** X3: the query returns the line's bit of the control register as 0 or 1
    after one read and no write; on an unmapped partition it hits the
    [BUG_ON] of the accessor (it has no -EINVAL path). *)
Theorem is_hardreset_asserted_is_the_bit (w : world) (shift part inst offs : Z) :
  0 <= shift < 32 ->
  let a := _prm_bases w part + inst + offs in
  let v := u32 (fst (__raw_readl a (w_env w))) in
  (prm_part_bug w part = true ->
     omap4_prminst_is_hardreset_asserted shift part inst offs w = Bug w)
  /\ (prm_part_bug w part = false ->
      exists r w',
        omap4_prminst_is_hardreset_asserted shift part inst offs w = Ret r w'
        /\ (r = 0 \/ r = 1)
        /\ (r = 1 <-> Z.testbit v shift = true)
        /\ trace w' = trace w ++ [EvReadl a v]
        /\ w_env w' = snd (__raw_readl a (w_env w))).
Proof.
  intros Hs a v. split.
  - intros Hbug. unfold omap4_prminst_is_hardreset_asserted, bind,
      omap4_prminst_read_inst_reg. now rewrite Hbug.
  - intros Hok.
    rewrite (is_hardreset_asserted_ok w shift part inst offs Hok Hs).
    cbv zeta. fold a. fold v. do 2 eexists. split; [reflexivity |].
    destruct (Z.testbit v shift); cbn [Z.b2z].
    + split; [now right |]. split; [split; reflexivity |]. split; reflexivity.
    + split; [now left |]. split; [| split; reflexivity].
      split; discriminate.
Qed.

(** X4: asserting a line returns 0 whatever the line's state, after one read
    and one write of the control register: the value written has the line's
    bit set and every other bit as it was read. *)
Theorem assert_hardreset_sets_only_its_bit (w : world)
    (shift part inst rstctrl_offs : Z) :
  prm_part_bug w part = false ->
  0 <= shift < 32 ->
  let a := _prm_bases w part + inst + rstctrl_offs in
  let old := u32 (fst (__raw_readl a (w_env w))) in
  let new := Z.lor old (2 ^ shift) in
  exists w',
    omap4_prminst_assert_hardreset shift part inst rstctrl_offs w = Ret 0 w'
    /\ trace w' = trace w ++ [EvReadl a old; EvWritel new a]
    /\ w_env w' = __raw_writel new a (snd (__raw_readl a (w_env w)))
    /\ _prm_bases w' = _prm_bases w
    /\ Z.testbit new shift = true
    /\ (forall j, j <> shift -> Z.testbit new j = Z.testbit old j)
    /\ 0 <= new < 2 ^ 32.
Proof.
  intros Hok Hs a old new.
  unfold omap4_prminst_assert_hardreset. cbv zeta.
  rewrite (bind_Ret _ _ _ _ _ (rmw_inst_reg_bits_ok w _ _ part inst _ Hok)).
  cbv zeta. fold a. fold old. rewrite (shl32_one shift Hs).
  rewrite (land_not32 old _ (u32_range _)), lor_land_lnot. fold new.
  eexists. split; [reflexivity |]. cbn [trace log_event set_env w_env _prm_bases].
  rewrite <- app_assoc. split; [reflexivity |]. split; [reflexivity |].
  split; [reflexivity |]. split; [| split].
  - subst new. rewrite Z.lor_spec, Z.pow2_bits_true by lia. apply orb_true_r.
  - intros j Hj. subst new. rewrite Z.lor_spec, Z.pow2_bits_false by lia.
    apply orb_false_r.
  - apply lor_small; [apply u32_range | now apply pow2_small].
Qed.

Lemma polls_until_set_spec (st shift : Z) (n : nat) :
  forall e,
    let F := polls_until_set st shift n e in
    (F <= n)%nat
    /\ (forall i, (i < F)%nat -> poll_finds_set st shift i e = false)
    /\ ((F < n)%nat -> poll_finds_set st shift F e = true).
Proof.
  induction n as [| n IH]; intros e; cbn [polls_until_set].
  - split; [lia |]. split; intros; lia.
  - destruct (Z.testbit (u32 (fst (__raw_readl st e))) shift) eqn:Hb.
    + split; [lia |]. split; [intros; lia |]. intros _. exact Hb.
    + destruct (IH (udelay_env 1 (snd (__raw_readl st e)))) as (Hle & Hclr & Hset).
      split; [lia |]. split.
      * intros [| i] Hi; [exact Hb |].
        change (poll_finds_set st shift i
                  (udelay_env 1 (snd (__raw_readl st e))) = false).
        apply Hclr. lia.
      * intros Hlt.
        change (poll_finds_set st shift
                  (polls_until_set st shift n (udelay_env 1 (snd (__raw_readl st e))))
                  (udelay_env 1 (snd (__raw_readl st e))) = true).
        apply Hset. lia.
Qed.

(** X5: on a control register that reads back what was written to it, a line
    that has just been asserted is reported as asserted, and deasserting it
    is never refused with -EEXIST: it returns 0 or -EBUSY. *)
Theorem assert_then_deassert (w : world) (shift part inst rstctrl_offs : Z) :
  prm_part_bug w part = false ->
  0 <= shift < 32 ->
  0 <= rstctrl_offs -> rstctrl_offs + 4 < 2 ^ 16 ->
  let ctrl := _prm_bases w part + inst + rstctrl_offs in
  (forall v e, 0 <= v < 2 ^ 32 ->
     u32 (fst (__raw_readl ctrl (__raw_writel v ctrl e))) = v) ->
  exists w1,
    omap4_prminst_assert_hardreset shift part inst rstctrl_offs w = Ret 0 w1
    /\ (exists w2,
          omap4_prminst_is_hardreset_asserted shift part inst rstctrl_offs w1
            = Ret 1 w2)
    /\ exists r w3,
         omap4_prminst_deassert_hardreset shift part inst rstctrl_offs w1
           = Ret r w3
         /\ (r = 0 \/ r = - EBUSY).
Proof.
  intros Hok Hs Hlo Hhi ctrl Hback.
  unfold omap4_prminst_assert_hardreset. cbv zeta.
  rewrite (bind_Ret _ _ _ _ _ (rmw_inst_reg_bits_ok w _ _ part inst _ Hok)).
  cbv zeta. fold ctrl. rewrite (shl32_one shift Hs).
  set (old := u32 (fst (__raw_readl ctrl (w_env w)))).
  rewrite (land_not32 old _ (u32_range _)), lor_land_lnot.
  set (new := Z.lor old (2 ^ shift)).
  assert (Hnew : 0 <= new < 2 ^ 32)
    by (apply lor_small; [apply u32_range | now apply pow2_small]).
  assert (Hbit : Z.testbit new shift = true)
    by (subst new; rewrite Z.lor_spec, Z.pow2_bits_true by lia; apply orb_true_r).
  unfold ret. eexists. split; [reflexivity |].
  set (w1 := log_event (EvWritel new ctrl) _).
  assert (Hok1 : prm_part_bug w1 part = false) by exact Hok.
  assert (Hread : u32 (fst (__raw_readl (_prm_bases w1 part + inst + rstctrl_offs)
                              (w_env w1))) = new)
    by (apply Hback; exact Hnew).
  split.
  - rewrite (is_hardreset_asserted_ok w1 shift part inst _ Hok1 Hs). cbv zeta.
    rewrite Hread, Hbit. eexists. reflexivity.
  - pose proof (deassert_run w1 shift part inst rstctrl_offs) as Hrun.
    cbv zeta in Hrun.
    match type of Hrun with
    | forall F, _ -> _ -> _ -> _ -> _ ->
        (forall i, (i < Nat.min F _)%nat -> poll_finds_set ?st _ _ ?e4 = false) -> _ =>
        destruct (polls_until_set_spec st shift MAX_MODULE_HARDRESET_WAIT e4)
          as (Hle & Hclr & Hset);
        destruct (Hrun (polls_until_set st shift MAX_MODULE_HARDRESET_WAIT e4)
                    Hok1 Hs Hlo Hhi) as (w3 & Hres & _)
    end.
    + rewrite Hread. exact Hbit.
    + intros i Hi. apply Hclr. lia.
    + exact Hset.
    + do 2 eexists. split; [exact Hres |].
      destruct (_ <? _)%nat; [now left | now right].
Qed.

(** ** The global resets *)

Lemma udelay_as_advance (us : Z) (w : world) :
  udelay us w = Ret tt (advance w (udelay_env us (w_env w)) [EvUdelay us]).
Proof. reflexivity. Qed.

(** The two accessors on a mapped partition, as steps of the machine. *)
Lemma read_inst_reg_advance (w : world) (part inst idx : Z) :
  prm_part_bug w part = false ->
  omap4_prminst_read_inst_reg part inst idx w =
    Ret (u32 (fst (__raw_readl (_prm_bases w part + inst + idx) (w_env w))))
      (advance w (snd (__raw_readl (_prm_bases w part + inst + idx) (w_env w)))
         [EvReadl (_prm_bases w part + inst + idx)
            (u32 (fst (__raw_readl (_prm_bases w part + inst + idx) (w_env w))))]).
Proof. intros Hok. now rewrite read_inst_reg_ok. Qed.

Lemma write_inst_reg_advance (w : world) (val part inst idx : Z) :
  prm_part_bug w part = false ->
  omap4_prminst_write_inst_reg val part inst idx w =
    Ret tt
      (advance w (__raw_writel val (_prm_bases w part + inst + idx) (w_env w))
         [EvWritel val (_prm_bases w part + inst + idx)]).
Proof. intros Hok. now rewrite write_inst_reg_ok. Qed.


Section GlobalResets.

Variable cpu_is_omap44xx : bool.
Variable OMAP4430_PRM_DEVICE_INST : Z.
Variable OMAP54XX_PRM_DEVICE_INST : Z.
Variable OMAP4_PRM_RSTCTRL_OFFSET : Z.
Variable OMAP4430_RST_GLOBAL_WARM_SW_MASK : Z.
Variable OMAP4_RM_RSTST : Z.
Variable OMAP4_RM_RSTCTRL : Z.
Variable OMAP4430_GLOBAL_COLD_RST_MASK : Z.
Variable OMAP4430_RST_GLOBAL_COLD_SW_MASK : Z.

Lemma lor_keeps_other_bits (old m : Z) :
  (forall j, Z.testbit m j = true -> Z.testbit (Z.lor old m) j = true)
  /\ (forall j, Z.testbit m j = false ->
                Z.testbit (Z.lor old m) j = Z.testbit old j).
Proof.
  split; intros j Hj.
  - destruct (Z.ltb_spec j 0) as [Hneg | Hnn];
      [rewrite Z.testbit_neg_r in Hj by exact Hneg; discriminate |].
    rewrite Z.lor_spec, Hj. apply orb_true_r.
  - destruct (Z.ltb_spec j 0) as [Hneg | Hnn];
      [now rewrite !Z.testbit_neg_r by exact Hneg |].
    rewrite Z.lor_spec, Hj. apply orb_false_r.
Qed.

(** X6: the warm reset either hits the [BUG_ON] before touching anything (PRM
    partition unmapped) or runs to its end: it reads the reset control
    register of the device instance of the running SoC, writes the value read
    with the warm-reset bits set and every other bit unchanged, and reads the
    register once more as a barrier.  No other register is accessed. *)
Theorem global_warm_sw_reset_sequence (w : world) :
  let dev_inst := if cpu_is_omap44xx then OMAP4430_PRM_DEVICE_INST
                  else OMAP54XX_PRM_DEVICE_INST in
  let a := _prm_bases w OMAP4430_PRM_PARTITION + dev_inst
           + OMAP4_PRM_RSTCTRL_OFFSET in
  let r0 := __raw_readl a (w_env w) in
  let old := u32 (fst r0) in
  let v := Z.lor old OMAP4430_RST_GLOBAL_WARM_SW_MASK in
  let r2 := __raw_readl a (__raw_writel v a (snd r0)) in
  (prm_part_bug w OMAP4430_PRM_PARTITION = true ->
     omap4_prminst_global_warm_sw_reset cpu_is_omap44xx OMAP4430_PRM_DEVICE_INST
       OMAP54XX_PRM_DEVICE_INST OMAP4_PRM_RSTCTRL_OFFSET
       OMAP4430_RST_GLOBAL_WARM_SW_MASK w = Bug w)
  /\ (prm_part_bug w OMAP4430_PRM_PARTITION = false ->
      omap4_prminst_global_warm_sw_reset cpu_is_omap44xx OMAP4430_PRM_DEVICE_INST
        OMAP54XX_PRM_DEVICE_INST OMAP4_PRM_RSTCTRL_OFFSET
        OMAP4430_RST_GLOBAL_WARM_SW_MASK w =
        Ret tt
          (advance w (snd r2)
             [EvReadl a old; EvWritel v a; EvReadl a (u32 (fst r2))]))
  /\ (forall j, Z.testbit OMAP4430_RST_GLOBAL_WARM_SW_MASK j = true ->
                Z.testbit v j = true)
  /\ (forall j, Z.testbit OMAP4430_RST_GLOBAL_WARM_SW_MASK j = false ->
                Z.testbit v j = Z.testbit old j).
Proof.
  intros dev_inst a r0 old v r2. split; [| split].
  - intros Hbug. unfold omap4_prminst_global_warm_sw_reset, bind,
      omap4_prminst_read_inst_reg. now rewrite Hbug.
  - intros Hok. unfold omap4_prminst_global_warm_sw_reset. cbv zeta.
    fold dev_inst.
    rewrite (bind_Ret _ _ _ _ _ (read_inst_reg_advance w _ dev_inst _ Hok)).
    cbv beta zeta. fold a. fold r0. fold old. fold v.
    rewrite (bind_Ret _ _ _ _ _ (write_inst_reg_advance (advance w _ _) v _ dev_inst _ Hok)).
    rewrite advance_advance.
    rewrite (bind_Ret _ _ _ _ _ (read_inst_reg_advance (advance w _ _) _ dev_inst _ Hok)).
    rewrite advance_advance. reflexivity.
  - apply lor_keeps_other_bits.
Qed.

(** X7: the cold reset either hits the [BUG_ON] before touching anything or
    runs to its end: it first writes the cold-reset status mask to the reset
    status register (without reading it), then reads the reset control
    register, writes it back with the cold-reset bits set and every other bit
    unchanged, reads it again as a barrier, and waits 184 microseconds. *)
Theorem global_cold_sw_reset_sequence (w : world) :
  let dev_inst := if cpu_is_omap44xx then OMAP4430_PRM_DEVICE_INST
                  else OMAP54XX_PRM_DEVICE_INST in
  let base := _prm_bases w OMAP4430_PRM_PARTITION in
  let st := base + dev_inst + OMAP4_RM_RSTST in
  let ctrl := base + dev_inst + OMAP4_RM_RSTCTRL in
  let e0 := __raw_writel OMAP4430_GLOBAL_COLD_RST_MASK st (w_env w) in
  let r1 := __raw_readl ctrl e0 in
  let old := u32 (fst r1) in
  let v := Z.lor old OMAP4430_RST_GLOBAL_COLD_SW_MASK in
  let r3 := __raw_readl ctrl (__raw_writel v ctrl (snd r1)) in
  (prm_part_bug w OMAP4430_PRM_PARTITION = true ->
     omap4_prminst_global_cold_sw_reset cpu_is_omap44xx OMAP4430_PRM_DEVICE_INST
       OMAP54XX_PRM_DEVICE_INST OMAP4_RM_RSTST OMAP4_RM_RSTCTRL
       OMAP4430_GLOBAL_COLD_RST_MASK OMAP4430_RST_GLOBAL_COLD_SW_MASK w = Bug w)
  /\ (prm_part_bug w OMAP4430_PRM_PARTITION = false ->
      omap4_prminst_global_cold_sw_reset cpu_is_omap44xx OMAP4430_PRM_DEVICE_INST
        OMAP54XX_PRM_DEVICE_INST OMAP4_RM_RSTST OMAP4_RM_RSTCTRL
        OMAP4430_GLOBAL_COLD_RST_MASK OMAP4430_RST_GLOBAL_COLD_SW_MASK w =
        Ret tt
          (advance w (udelay_env 184 (snd r3))
             [EvWritel OMAP4430_GLOBAL_COLD_RST_MASK st; EvReadl ctrl old;
              EvWritel v ctrl; EvReadl ctrl (u32 (fst r3)); EvUdelay 184]))
  /\ (forall j, Z.testbit OMAP4430_RST_GLOBAL_COLD_SW_MASK j = true ->
                Z.testbit v j = true)
  /\ (forall j, Z.testbit OMAP4430_RST_GLOBAL_COLD_SW_MASK j = false ->
                Z.testbit v j = Z.testbit old j).
Proof.
  intros dev_inst base st ctrl e0 r1 old v r3. split; [| split].
  - intros Hbug. unfold omap4_prminst_global_cold_sw_reset, bind,
      omap4_prminst_write_inst_reg. now rewrite Hbug.
  - intros Hok. unfold omap4_prminst_global_cold_sw_reset. cbv zeta.
    fold dev_inst.
    rewrite (bind_Ret _ _ _ _ _ (write_inst_reg_advance w _ _ dev_inst _ Hok)).
    fold base. fold st. fold e0.
    rewrite (bind_Ret _ _ _ _ _ (read_inst_reg_advance (advance w _ _) _ dev_inst _ Hok)).
    rewrite advance_advance. cbv beta zeta.
    change (_prm_bases (advance w e0 [EvWritel OMAP4430_GLOBAL_COLD_RST_MASK st])
              OMAP4430_PRM_PARTITION + dev_inst + OMAP4_RM_RSTCTRL) with ctrl.
    change (w_env (advance w e0 [EvWritel OMAP4430_GLOBAL_COLD_RST_MASK st]))
      with e0.
    fold r1. fold old. fold v.
    rewrite (bind_Ret _ _ _ _ _ (write_inst_reg_advance (advance w _ _) v _ dev_inst _ Hok)).
    rewrite advance_advance.
    rewrite (bind_Ret _ _ _ _ _ (read_inst_reg_advance (advance w _ _) _ dev_inst _ Hok)).
    rewrite advance_advance. cbv beta.
    rewrite udelay_as_advance, advance_advance. reflexivity.
  - apply lor_keeps_other_bits.
Qed.

End GlobalResets.

(** ** The Voltage Processor: calls that stop at a check *)

(** X16: a force-update scale that fails one of its four checks (domain, write
    accessor, target, VP) returns -EINVAL and leaves the machine as it was but
    for one error message: no device is accessed, no counter moves. *)
Theorem forceupdate_scale_precondition_failures (voltdm : kptr voltagedomain)
    (target_v : kptr omap_volt_data) (w : world) :
  IS_ERR_OR_NULL voltdm = true
  \/ (exists d, voltdm = Ptr d
        /\ (IS_ERR_OR_NULL (write d) = true
            \/ IS_ERR_OR_NULL target_v = true
            \/ IS_ERR_OR_NULL (vp d) = true)) ->
  exists msg,
    omap_vp_forceupdate_scale voltdm target_v w
      = Ret (- EINVAL) (log_event (EvLog KERN_ERR msg) w).
Proof.
  intros [Hnull | (d & -> & Hd)]; unfold omap_vp_forceupdate_scale.
  - rewrite Hnull. eexists. reflexivity.
  - cbn [IS_ERR_OR_NULL deref]. rewrite bind_ret. cbv beta.
    destruct (IS_ERR_OR_NULL (write d)) eqn:Hw; [eexists; reflexivity |].
    destruct (IS_ERR_OR_NULL target_v) eqn:Ht; [eexists; reflexivity |].
    destruct (IS_ERR_OR_NULL (vp d)) eqn:Hv; [eexists; reflexivity |].
    destruct Hd as [Hd | [Hd | Hd]]; discriminate Hd.
Qed.

(** X17: the read accessor is not among the checks of the force-update scale: on
    a domain that has a VP and a write accessor but no read accessor, the
    first poll of the idle wait calls through the NULL pointer. *)
Theorem forceupdate_scale_unchecked_read (d : voltagedomain)
    (vpi : omap_vp_instance) (wr : Z -> Z -> env -> env) (tv : omap_volt_data)
    (w : world) :
  vp d = Ptr vpi ->
  write d = Ptr wr ->
  read d = NullPtr ->
  (0 < VP_IDLE_TIMEOUT)%nat ->
  omap_vp_forceupdate_scale (Ptr d) (Ptr tv) w = Fault w.
Proof.
  intros Hvp Hwr Hrd HT. unfold omap_vp_forceupdate_scale.
  cbn [IS_ERR_OR_NULL deref]. rewrite bind_ret. cbv beta.
  rewrite Hwr, Hvp. cbn [IS_ERR_OR_NULL deref]. exec_ret. cbv zeta.
  unfold _vp_wait_for_idle, omap_test_timeout.
  destruct VP_IDLE_TIMEOUT as [| T]; [lia |].
  cbn [omap_test_timeout_from]. unfold voltdm_read. rewrite Hrd.
  reflexivity.
Qed.

(** X12: [omap_vp_init] with any of its dependencies missing (domain, PMIC or
    its voltage conversion, an accessor, the VP, the VC or VP parameters)
    logs one error and returns: no register is written and the enabled flag
    is not touched. *)
Theorem vp_init_missing_dependency (voltdm : kptr voltagedomain) (w : world) :
  IS_ERR_OR_NULL voltdm = true
  \/ (exists d, voltdm = Ptr d
        /\ (pmic d = NullPtr
            \/ exists p, pmic d = Ptr p
                 /\ (uv_to_vsel p = NullPtr
                     \/ read d = NullPtr
                     \/ write d = NullPtr
                     \/ IS_ERR_OR_NULL (vp d) = true
                     \/ IS_ERR_OR_NULL (vc_param d) = true
                     \/ IS_ERR_OR_NULL (vp_param d) = true))) ->
  exists msg,
    omap_vp_init voltdm w = Ret tt (log_event (EvLog KERN_ERR msg) w).
Proof.
  intros [Hnull | (d & -> & Hd)]; unfold omap_vp_init.
  - rewrite Hnull. eexists. reflexivity.
  - cbn [IS_ERR_OR_NULL deref]. rewrite bind_ret. cbv beta.
    destruct Hd as [Hp | (p & Hp & Hd)]; rewrite Hp; cbn [is_null deref];
      exec_ret; [eexists; reflexivity |].
    destruct (is_null (uv_to_vsel p)) eqn:Hc; [eexists; reflexivity |].
    destruct (is_null (read d)) eqn:Hr; [eexists; reflexivity |].
    destruct (is_null (write d)) eqn:Hw; [eexists; reflexivity |].
    cbn [orb].
    destruct (IS_ERR_OR_NULL (vp d)) eqn:Hv; [eexists; reflexivity |].
    destruct (IS_ERR_OR_NULL (vc_param d)) eqn:Hvc; [eexists; reflexivity |].
    destruct (IS_ERR_OR_NULL (vp_param d)) eqn:Hvp; [eexists; reflexivity |].
    destruct Hd as [Hd | [Hd | [Hd | [Hd | [Hd | Hd]]]]];
      try (rewrite Hd in *; discriminate).
Qed.

(** X22: [omap_vp_enable] and [omap_vp_disable] share their checks: without a
    domain, a VP, or either accessor, each logs the same error and returns
    with the devices and the enabled flag untouched. *)
Theorem enable_disable_missing_dependency (voltdm : kptr voltagedomain)
    (w : world) :
  IS_ERR_OR_NULL voltdm = true
  \/ (exists d, voltdm = Ptr d
        /\ (IS_ERR_OR_NULL (vp d) = true
            \/ read d = NullPtr
            \/ write d = NullPtr)) ->
  exists msg,
    omap_vp_enable voltdm w = Ret tt (log_event (EvLog KERN_ERR msg) w)
    /\ omap_vp_disable voltdm w = Ret tt (log_event (EvLog KERN_ERR msg) w).
Proof.
  intros [Hnull | (d & -> & Hd)]; unfold omap_vp_enable, omap_vp_disable.
  - rewrite Hnull. eexists. split; reflexivity.
  - cbn [IS_ERR_OR_NULL deref]. rewrite !bind_ret. cbv beta.
    destruct (IS_ERR_OR_NULL (vp d)) eqn:Hv; [eexists; split; reflexivity |].
    destruct (is_null (read d)) eqn:Hr; [eexists; split; reflexivity |].
    destruct (is_null (write d)) eqn:Hw; [eexists; split; reflexivity |].
    destruct Hd as [Hd | [Hd | Hd]]; try (rewrite Hd in *; discriminate).
Qed.

(** X9: [omap_vp_get_curr_volt] returns 0 after a message when the domain, the
    read accessor or the VP is missing, without accessing a device.  When
    only the PMIC or its selector-to-voltage conversion is missing it also
    returns 0, but after it has read the voltage register. *)
Theorem get_curr_volt_failures (voltdm : kptr voltagedomain) (w : world) :
  (IS_ERR_OR_NULL voltdm = true
   \/ (exists d, voltdm = Ptr d
         /\ (read d = NullPtr \/ IS_ERR_OR_NULL (vp d) = true)) ->
   exists lvl msg,
     omap_vp_get_curr_volt voltdm w = Ret 0 (log_event (EvLog lvl msg) w))
  /\ (forall d vpi rd,
        voltdm = Ptr d -> vp d = Ptr vpi -> read d = Ptr rd ->
        pmic d = NullPtr
        \/ (exists p, pmic d = Ptr p /\ vsel_to_uv p = NullPtr) ->
        let r := rd (voltage vpi) (w_env w) in
        omap_vp_get_curr_volt voltdm w =
          Ret 0
            (advance w (snd r)
               [EvRead (voltage vpi) (u32 (fst r));
                EvLog KERN_WARNING
                  "%s: PMIC function vsel_to_uv not registered"])).
Proof.
  split.
  - intros [Hnull | (d & -> & Hd)]; unfold omap_vp_get_curr_volt.
    + rewrite Hnull. do 2 eexists. reflexivity.
    + cbn [IS_ERR_OR_NULL deref]. rewrite bind_ret. cbv beta.
      destruct (is_null (read d)) eqn:Hr; [do 2 eexists; reflexivity |].
      destruct (IS_ERR_OR_NULL (vp d)) eqn:Hv; [do 2 eexists; reflexivity |].
      destruct Hd as [Hd | Hd]; rewrite Hd in *; discriminate.
  - intros d vpi rd -> Hvp Hrd Hp r. unfold omap_vp_get_curr_volt.
    cbn [IS_ERR_OR_NULL deref]. rewrite bind_ret. cbv beta.
    rewrite Hrd, Hvp. cbn [is_null IS_ERR_OR_NULL deref]. exec_ret.
    rewrite (bind_Ret _ _ _ _ _ (voltdm_read_ok d rd _ w Hrd)). fold r.
    destruct Hp as [Hp | (p & Hp & Hc)]; rewrite Hp; cbn [is_null deref];
      exec_ret; [| rewrite Hc; cbn [is_null]];
      unfold bind, pr_warning, emit, ret; rewrite log_event_as_advance,
        advance_advance; reflexivity.
Qed.

(** ** The Voltage Processor: status, disabling and the scale's early exits *)

Lemma pre_scale_calls_app (a b : list event) :
  pre_scale_calls (a ++ b) = pre_scale_calls a ++ pre_scale_calls b.
Proof. apply filter_app. Qed.

Lemma delays_app (a b : list event) : delays (a ++ b) = delays a ++ delays b.
Proof. apply filter_app. Qed.

(** What the events of an idle wait cannot be. *)
Lemma idle_wait_events_inert (evs : list event) :
  forallb is_idle_wait_event evs = true ->
  reg_writes evs = [] /\ pre_scale_calls evs = [] /\ post_scale_calls evs = []
  /\ clear_attempts evs = [] /\ err_reports evs = [] /\ recover_calls evs = [].
Proof.
  induction evs as [| e evs IH]; intros H; [now repeat split |].
  cbn [forallb] in H. apply andb_prop in H as [He Hevs].
  destruct (IH Hevs) as (H1 & H2 & H3 & H4 & H5 & H6).
  destruct e as [| | | | | | | | | | | | lvl msg | |]; try discriminate He;
    try (cbn; now repeat split).
  destruct lvl; try discriminate He. cbn. now repeat split.
Qed.

(** What the events of a routed error cannot be. *)
Lemma report_events_inert (evs : list event) :
  forallb is_report_event evs = true ->
  reg_writes evs = [] /\ reg_reads evs = [] /\ pre_scale_calls evs = []
  /\ post_scale_calls evs = [] /\ clear_attempts evs = [] /\ delays evs = [].
Proof.
  induction evs as [| e evs IH]; intros H; [now repeat split |].
  cbn [forallb] in H. apply andb_prop in H as [He Hevs].
  destruct (IH Hevs) as (H1 & H2 & H3 & H4 & H5 & H6).
  destruct e; try discriminate He; cbn; now repeat split.
Qed.

(** One routed error, whatever the VP: it returns unless the recovery
    pointer is an error pointer, and only logs, dumps the stack or calls the
    recovery callback. *)
Lemma controlled_err_frame (vp : omap_vp_instance) (voltdm : voltagedomain)
    (msg : string) (w : world) :
  (forall e, recover (ops (common vp)) <> ErrPtr e) ->
  exists w' evs,
    _vp_controlled_err vp voltdm msg w = Ret tt w'
    /\ trace w' = trace w ++ evs
    /\ forallb is_report_event evs = true
    /\ vp_enabled w' = vp_enabled w
    /\ _prm_bases w' = _prm_bases w.
Proof.
  intros Hrec. unfold _vp_controlled_err.
  destruct (recover (ops (common vp))) as [| e | f] eqn:Erec;
    [| now contradiction (Hrec e) |]; cbn [is_null].
  - unfold bind at 1.
    destruct (negb (__vp_debug_error_message_count w =? 0));
      (do 2 eexists; split; [reflexivity |];
       cbn [trace log_event set_env set_message_count];
       rewrite <- ?app_assoc; split; [reflexivity |]; now repeat split).
  - unfold bind at 1.
    destruct (negb (__vp_debug_error_message_count w =? 0)); cbn;
      match goal with
      | |- context [if ?c =? 0 then _ else _] => destruct (c =? 0)
      end;
      (do 2 eexists; split; [reflexivity |];
       cbn [trace log_event set_env set_message_count set_recover_count];
       rewrite <- ?app_assoc; split; [reflexivity |]; now repeat split).
Qed.

(** An optional rate-limited warning. *)
Lemma maybe_warn_frame (b : bool) (msg : string) (w : world) :
  exists l,
    (if b then pr_warn_ratelimited msg else ret tt) w
      = Ret tt (advance w (w_env w) l)
    /\ forallb is_idle_wait_event l = true
    /\ delays l = [].
Proof.
  destruct b.
  - exists [EvLog KERN_WARNING_RATELIMITED msg]. now repeat split.
  - exists []. unfold ret. rewrite advance_nil. now repeat split.
Qed.

Section ConfiguredVp.

(** A domain with a VP and both register accessors. *)
Variable d : voltagedomain.
Variable vpi : omap_vp_instance.
Variable rd : Z -> env -> Z * env.
Variable wr : Z -> Z -> env -> env.
Hypothesis d_vp : vp d = Ptr vpi.
Hypothesis d_read : read d = Ptr rd.
Hypothesis d_write : write d = Ptr wr.

(** The idle poll on any device: it returns, having changed nothing but the
    devices and the trace, after at most [remaining] status reads and as many
    delays as its index advanced. *)
Lemma idle_poll_frame (remaining : nat) :
  forall (index : nat) (w : world),
    exists c e evs,
      omap_test_timeout_from (udelay 1)
        (v <- voltdm_read d (vstatus vpi) ;;
         ret (negb (Z.land v (vstatus_vpidle (common vpi)) =? 0)))
        remaining index w = Ret c (advance w e evs)
      /\ forallb is_idle_wait_event evs = true
      /\ (index <= c <= index + remaining)%nat
      /\ (List.length (reg_reads evs) <= remaining)%nat
      /\ List.length (delays evs) = (c - index)%nat.
Proof using d_read.
  induction remaining as [| remaining IH]; intros index w.
  - exists index, (w_env w), []. cbn [omap_test_timeout_from]. unfold ret.
    rewrite advance_nil. cbn. repeat split; lia.
  - cbn [omap_test_timeout_from].
    unfold bind at 1. unfold bind at 1.
    rewrite (voltdm_read_ok d rd _ w d_read). cbv beta iota. unfold ret at 1.
    destruct (negb _).
    + eexists index, _, _. split; [reflexivity |]. cbn. repeat split; lia.
    + unfold bind at 1. rewrite udelay_as_advance, advance_advance.
      cbn [w_env advance].
      match goal with
      | |- context [omap_test_timeout_from _ _ _ _ ?w1] =>
          destruct (IH (S index) w1) as (c & e & evs & Hrun & Hq & Hc & Hr & Hd)
      end.
      rewrite Hrun, advance_advance. eexists c, e, _. split; [reflexivity |].
      cbn [app forallb is_idle_wait_event andb].
      split; [exact Hq |]. split; [lia |].
      cbn. fold (reg_reads evs). fold (delays evs). split; lia.
Qed.

Lemma wait_for_idle_frame (w : world) :
  exists r e evs,
    _vp_wait_for_idle d vpi w = Ret r (advance w e evs)
    /\ forallb is_idle_wait_event evs = true
    /\ (r = 0 \/ r = - ETIMEDOUT)
    /\ (List.length (reg_reads evs) <= VP_IDLE_TIMEOUT)%nat
    /\ (List.length (delays evs) <= VP_IDLE_TIMEOUT)%nat.
Proof using d_read.
  unfold _vp_wait_for_idle, omap_test_timeout.
  destruct (idle_poll_frame VP_IDLE_TIMEOUT 0 w)
    as (c & e & evs & Hrun & Hq & Hc & Hr & Hd).
  rewrite (bind_Ret _ _ _ _ _ Hrun).
  destruct (Nat.leb_spec VP_IDLE_TIMEOUT c) as [Hto | Hin].
  - destruct (idle_timedout_warnings d (advance w e evs)) as (l & Hwarn & Hl).
    rewrite Hwarn, advance_advance. cbn [w_env advance].
    exists (- ETIMEDOUT), e, (evs ++ l). split; [reflexivity |].
    rewrite forallb_app, Hq, reg_reads_app, delays_app, !List.length_app.
    destruct Hl as [-> | ->]; cbn;
      (split; [reflexivity |]; split; [now right |]; split; lia).
  - exists 0, e, evs. unfold ret. split; [reflexivity |].
    split; [exact Hq |]. split; [now left |]. split; lia.
Qed.

(** *** Disabling *)

Lemma disable_when_disabled (w : world) :
  vp_enabled w (id vpi) = false ->
  omap_vp_disable (Ptr d) w =
    Ret tt
      (log_event
         (EvLog KERN_WARNING
            "%s: Trying to disable VP for vdd_%s whenit is already disabled") w).
Proof using d_vp d_read d_write.
  intros Hen. unfold omap_vp_disable. cbn [IS_ERR_OR_NULL deref].
  rewrite bind_ret. cbv beta. rewrite d_vp, d_read, d_write.
  cbn [is_null orb IS_ERR_OR_NULL deref]. rewrite bind_ret. cbv beta.
  unfold bind at 1. rewrite Hen. reflexivity.
Qed.

(** The run of [omap_vp_disable] on an enabled VP. *)
Lemma disable_when_enabled (w : world) :
  vp_enabled w (id vpi) = true ->
  exists e1 before e2 after,
    let old := u32 (fst (rd (vpconfig vpi) e1)) in
    let new := Z.land old (Z.lnot (vpconfig_vpenable (common vpi))) in
    omap_vp_disable (Ptr d) w =
      Ret tt
        (set_vp_enabled (id vpi) false
           (advance w e2
              (before
                 ++ [EvRead (vpconfig vpi) old; EvWrite new (vpconfig vpi)]
                 ++ after)))
    /\ forallb is_idle_wait_event before = true
    /\ forallb is_idle_wait_event after = true
    /\ (List.length (delays before) <= VP_IDLE_TIMEOUT)%nat
    /\ (List.length (delays after) <= VP_IDLE_TIMEOUT)%nat.
Proof using d_vp d_read d_write.
  intros Hen. unfold omap_vp_disable. cbn [IS_ERR_OR_NULL deref].
  rewrite bind_ret. cbv beta. rewrite d_vp, d_read, d_write.
  cbn [is_null orb IS_ERR_OR_NULL deref]. rewrite bind_ret. cbv beta.
  unfold bind at 1. rewrite Hen. cbn [negb].
  destruct (wait_for_idle_frame w) as (r1 & e1 & evs1 & Hrun1 & Hq1 & _ & _ & Hd1).
  rewrite (bind_Ret _ _ _ _ _ Hrun1).
  destruct (maybe_warn_frame (negb (r1 =? 0))
              "%s: vdd_%s timedout!Ignore and try" (advance w e1 evs1))
    as (l1 & Hw1 & Hl1 & Hdl1).
  rewrite (bind_Ret _ _ _ _ _ Hw1), advance_advance. cbn [w_env advance].
  rewrite (bind_Ret _ _ _ _ _ (voltdm_read_ok d rd _ _ d_read)).
  cbn [w_env advance]. rewrite advance_advance.
  set (old := u32 (fst (rd (vpconfig vpi) e1))).
  rewrite (land_not32 old _ (u32_range _)).
  set (new := Z.land old (Z.lnot (vpconfig_vpenable (common vpi)))).
  rewrite (bind_Ret _ _ _ _ _ (voltdm_write_ok d wr _ _ _ d_write)).
  cbn [w_env advance]. rewrite advance_advance.
  match goal with
  | |- context [bind (_vp_wait_for_idle d vpi) _ ?w2] =>
      destruct (wait_for_idle_frame w2)
        as (r2 & e2 & evs2 & Hrun2 & Hq2 & _ & _ & Hd2)
  end.
  rewrite (bind_Ret _ _ _ _ _ Hrun2), advance_advance.
  match goal with
  | |- context [bind (if negb (r2 =? 0) then _ else _) _ ?w3] =>
      destruct (maybe_warn_frame (negb (r2 =? 0))
                  "%s: vdd_%s timedout after disable!!" w3)
        as (l2 & Hw2 & Hl2 & Hdl2)
  end.
  rewrite (bind_Ret _ _ _ _ _ Hw2), advance_advance. cbn [w_env advance].
  exists e1, (evs1 ++ l1), e2, (evs2 ++ l2). cbv zeta. fold old. fold new.
  split.
  - f_equal. f_equal. f_equal. rewrite <- !app_assoc. reflexivity.
  - rewrite !forallb_app, Hq1, Hl1, Hq2, Hl2, !delays_app, Hdl1, Hdl2,
      !app_nil_r. repeat split; assumption.
Qed.



(** X24: [omap_vp_disable] is idempotent: after a first call the VP is marked
    disabled, and a second call only logs a warning: it accesses no
    register. *)
Theorem disable_idempotent (w : world) :
  exists w1,
    omap_vp_disable (Ptr d) w = Ret tt w1
    /\ vp_enabled w1 (id vpi) = false
    /\ omap_vp_disable (Ptr d) w1 =
         Ret tt
           (log_event
              (EvLog KERN_WARNING
                 "%s: Trying to disable VP for vdd_%s whenit is already disabled")
              w1).
Proof using d_vp d_read d_write.
  destruct (vp_enabled w (id vpi)) eqn:Hen.
  - destruct (disable_when_enabled w Hen)
      as (e1 & before & e2 & after & Hrun & _).
    cbv zeta in Hrun. eexists. split; [exact Hrun |].
    assert (Hoff : vp_enabled
                     (set_vp_enabled (id vpi) false
                        (advance w e2
                           (before
                              ++ [EvRead (vpconfig vpi) (u32 (fst (rd (vpconfig vpi) e1)));
                                  EvWrite
                                    (Z.land (u32 (fst (rd (vpconfig vpi) e1)))
                                       (Z.lnot (vpconfig_vpenable (common vpi))))
                                    (vpconfig vpi)] ++ after))) (id vpi) = false)
      by (cbn; now rewrite Z.eqb_refl).
    split; [exact Hoff |]. apply disable_when_disabled. exact Hoff.
  - rewrite (disable_when_disabled w Hen). eexists. split; [reflexivity |].
    split; [exact Hen |]. apply disable_when_disabled. exact Hen.
Qed.

(** X25: disabling undoes enabling: from a disabled VP whose current-voltage
    lookup succeeds, [omap_vp_enable] followed by [omap_vp_disable] leaves the
    VP marked disabled after five register writes in all (the three of the
    initial-voltage pulse, the enable write and the disable write), so that a
    later enable is not short-cut. *)
Theorem enable_then_disable (p : omap_voltdm_pmic) (conv : Z -> Z)
    (vd : omap_volt_data) (w : world) :
  pmic d = Ptr p ->
  uv_to_vsel p = Ptr conv ->
  vp_enabled w (id vpi) = false ->
  fst (omap_voltage_get_curr_vdata_env d (w_env w)) = Ptr vd ->
  exists w1 w2,
    omap_vp_enable (Ptr d) w = Ret tt w1
    /\ vp_enabled w1 (id vpi) = true
    /\ omap_vp_disable (Ptr d) w1 = Ret tt w2
    /\ vp_enabled w2 (id vpi) = false
    /\ List.length (reg_writes (trace w2))
       = (List.length (reg_writes (trace w)) + 5)%nat.
Proof using d_vp d_read d_write.
  intros Hp Hconv Hen Hlook.
  destruct (enable_when_disabled d vpi p conv rd wr d_vp Hp Hconv d_read d_write
              vd w Hen Hlook) as (w1 & Hrun1 & Htr1 & Hen1 & _).
  destruct (disable_when_enabled w1 Hen1)
    as (e1 & before & e2 & after & Hrun2 & Hb & Ha & _).
  cbv zeta in Hrun2. eexists w1, _. split; [exact Hrun1 |].
  split; [exact Hen1 |]. split; [exact Hrun2 |].
  destruct (idle_wait_events_inert _ Hb) as (Hwb & _).
  destruct (idle_wait_events_inert _ Ha) as (Hwa & _).
  cbn [vp_enabled set_vp_enabled trace advance]. rewrite Z.eqb_refl.
  split; [reflexivity |].
  rewrite Htr1, !reg_writes_app, Hwb, Hwa, !List.length_app.
  cbn. lia.
Qed.

(** *** Reading the voltage *)

Lemma ffs_shiftl_odd (m k : Z) :
  0 < m -> Z.odd m = true -> 0 <= k -> __ffs (Z.shiftl m k) = k.
Proof using Type.
  intros Hm Hodd Hk. revert k Hk.
  assert (H : forall k, 0 <= k ->
            exists q, Z.shiftl m k = Zpos q /\ ctz q = k).
  { apply natlike_ind.
    - destruct m as [| q | q]; try lia. exists q. split; [reflexivity |].
      destruct q; try reflexivity. discriminate Hodd.
    - intros k Hk (q & Hq & Hc). exists (xO q). split.
      + rewrite Z.shiftl_mul_pow2 in * by lia.
        rewrite Z.pow_succ_r by lia. rewrite Z.mul_assoc, (Z.mul_comm m 2),
          <- Z.mul_assoc, Hq. reflexivity.
      + cbn [ctz]. lia. }
  intros k Hk. destruct (H k Hk) as (q & Hq & Hc).
  unfold __ffs. now rewrite Hq.
Qed.

Lemma u8_range (x : Z) : 0 <= u8 x < 256.
Proof using Type. unfold u8. apply Z.mod_pos_bound. reflexivity. Qed.

(** The bits of an 8-bit field at [k] extracted from [reg]. *)
Lemma field_extract (reg k j : Z) :
  0 <= k -> 0 <= j < 8 ->
  Z.testbit (u8 (Z.shiftr (Z.land reg (Z.shiftl 255 k)) k)) j
    = Z.testbit reg (j + k).
Proof using Type.
  intros Hk Hj. unfold u8. rewrite Z.mod_pow2_bits_low by lia.
  rewrite Z.shiftr_spec by lia. rewrite Z.land_spec.
  rewrite Z.shiftl_spec by lia. replace (j + k - k) with j by lia.
  change 255 with (Z.ones 8). rewrite Z.ones_spec_low by lia.
  apply andb_true_r.
Qed.

(** X8: on a domain whose PMIC converts selectors to voltages,
    [omap_vp_get_curr_volt] reads the voltage register once, writes nothing,
    and returns the conversion of the 8-bit field that the voltage mask
    selects. *)
Theorem get_curr_volt_converts_field (p : omap_voltdm_pmic) (back : Z -> Z)
    (k : Z) (w : world) :
  pmic d = Ptr p ->
  vsel_to_uv p = Ptr back ->
  0 <= k ->
  vpvoltage_mask (common vpi) = Z.shiftl 255 k ->
  let r := rd (voltage vpi) (w_env w) in
  let reg := u32 (fst r) in
  let vsel := u8 (Z.shiftr (Z.land reg (Z.shiftl 255 k)) k) in
  omap_vp_get_curr_volt (Ptr d) w =
    Ret (u32 (back vsel)) (advance w (snd r) [EvRead (voltage vpi) reg])
  /\ 0 <= vsel < 256
  /\ (forall j, 0 <= j < 8 -> Z.testbit vsel j = Z.testbit reg (j + k)).
Proof using d_vp d_read.
  intros Hp Hback Hk Hmask r reg vsel. unfold omap_vp_get_curr_volt.
  cbn [IS_ERR_OR_NULL deref]. rewrite bind_ret. cbv beta.
  rewrite d_read, d_vp. cbn [is_null IS_ERR_OR_NULL deref]. exec_ret.
  rewrite (bind_Ret _ _ _ _ _ (voltdm_read_ok d rd _ w d_read)).
  fold r. fold reg. rewrite Hp. cbn [is_null deref]. exec_ret.
  rewrite Hback. cbn [is_null deref]. exec_ret.
  rewrite Hmask, (ffs_shiftl_odd 255 k) by (lia || reflexivity).
  fold vsel. split; [reflexivity |]. split; [apply u8_range |].
  intros j Hj. now apply field_extract.
Qed.

(** *** The early exits of the force-update scale *)

(** X19: when the pre-scale hook fails, [omap_vp_forceupdate_scale] returns the
    hook's status as it is.  Up to then it has only polled the status
    register: no register was written, the transaction-done status was not
    touched, the post-scale hook is not called, and the failure is not routed
    through the error path (no message, both counters unchanged). *)
Theorem forceupdate_scale_pre_scale_error (tv : omap_volt_data)
    (w w1 w2 : world) (r tvsel cvsel : Z) :
  _vp_wait_for_idle d vpi w = Ret 0 w1 ->
  omap_vc_pre_scale d (omap_get_operation_voltage tv) tv w1
    = Ret (r, tvsel, cvsel) w2 ->
  r <> 0 ->
  omap_vp_forceupdate_scale (Ptr d) (Ptr tv) w = Ret r w2
  /\ exists evs,
       trace w2 =
         trace w ++ evs ++ [EvPreScale (omap_get_operation_voltage tv) tv r]
       /\ reg_writes evs = []
       /\ clear_attempts evs = []
       /\ err_reports evs = []
       /\ recover_calls evs = []
       /\ __vp_recover_count w2 = __vp_recover_count w
       /\ __vp_debug_error_message_count w2 = __vp_debug_error_message_count w
       /\ vp_enabled w2 = vp_enabled w.
Proof using d_vp d_read d_write.
  intros Hidle Hpre Hr. split.
  - unfold omap_vp_forceupdate_scale. cbn [IS_ERR_OR_NULL deref].
    rewrite bind_ret. cbv beta. rewrite d_write, d_vp.
    cbn [IS_ERR_OR_NULL deref]. exec_ret. cbv zeta.
    rewrite (bind_Ret _ _ _ _ _ Hidle).
    change (negb (0 =? 0)) with false. cbv iota.
    rewrite (bind_Ret _ _ _ _ _ Hpre). cbv beta iota zeta.
    destruct (Z.eqb_spec r 0) as [E | _]; [contradiction | reflexivity].
  - destruct (wait_for_idle_frame w) as (r1 & e & evs & Hrun & Hq & _).
    rewrite Hidle in Hrun. injection Hrun as <- ->.
    destruct (idle_wait_events_inert _ Hq) as (Hw & _ & _ & Hc & He & Hrc).
    unfold omap_vc_pre_scale in Hpre.
    destruct (omap_vc_pre_scale_env d (omap_get_operation_voltage tv) tv
                (w_env (advance w e evs))) as [pre e2].
    injection Hpre as -> <-. exists evs. cbn.
    rewrite <- app_assoc. now repeat split.
Qed.

(** X18: when the idle wait times out, [omap_vp_forceupdate_scale] returns
    -ETIMEDOUT without having called the pre-scale hook or touched the
    transaction-done status; it has delayed for at most the idle budget. *)
Theorem forceupdate_scale_idle_timeout_calls_no_hook (tv : omap_volt_data)
    (w w1 : world) (r1 : Z) :
  (forall e, recover (ops (common vpi)) <> ErrPtr e) ->
  _vp_wait_for_idle d vpi w = Ret r1 w1 ->
  r1 <> 0 ->
  exists w' evs,
    omap_vp_forceupdate_scale (Ptr d) (Ptr tv) w = Ret (- ETIMEDOUT) w'
    /\ trace w' = trace w ++ evs
    /\ pre_scale_calls evs = []
    /\ post_scale_calls evs = []
    /\ clear_attempts evs = []
    /\ reg_writes evs = []
    /\ (List.length (delays evs) <= VP_IDLE_TIMEOUT)%nat.
Proof using d_vp d_read d_write.
  intros Hrec Hidle Hr.
  destruct (wait_for_idle_frame w) as (r & e & evs & Hrun & Hq & Hres & _ & Hd).
  rewrite Hidle in Hrun. injection Hrun as <- ->.
  destruct Hres as [-> | ->]; [contradiction |].
  unfold omap_vp_forceupdate_scale. cbn [IS_ERR_OR_NULL deref].
  rewrite bind_ret. cbv beta. rewrite d_write, d_vp.
  cbn [IS_ERR_OR_NULL deref]. exec_ret. cbv zeta.
  rewrite (bind_Ret _ _ _ _ _ Hidle).
  change (negb (- ETIMEDOUT =? 0)) with true. cbv iota.
  destruct (controlled_err_frame vpi d msg_idle_timedout (advance w e evs) Hrec)
    as (w' & evs' & Hrun' & Htr' & Hq' & _).
  rewrite (bind_Ret _ _ _ _ _ Hrun'). unfold ret.
  exists w', (evs ++ evs'). split; [reflexivity |].
  split; [rewrite Htr'; cbn; now rewrite app_assoc |].
  destruct (idle_wait_events_inert _ Hq) as (Hw & Hpre & Hpost & Hc & _).
  destruct (report_events_inert _ Hq') as (Hw' & _ & Hpre' & Hpost' & Hc' & Hd').
  rewrite pre_scale_calls_app, post_scale_calls_app, clear_attempts_app,
    reg_writes_app, delays_app, Hw, Hpre, Hpost, Hc, Hw', Hpre', Hpost', Hc', Hd',
    !app_nil_r.
  now repeat split.
Qed.

(** *** The idle wait, read by read *)

Lemma idle_poll_at (remaining : nat) :
  forall (index F : nat) (w : world),
    let st := vstatus vpi in
    let idle := vstatus_vpidle (common vpi) in
    (forall i, (i < Nat.min F remaining)%nat ->
               idle_at_poll rd st idle i (w_env w) = false) ->
    ((F < remaining)%nat -> idle_at_poll rd st idle F (w_env w) = true) ->
    exists e,
      omap_test_timeout_from (udelay 1)
        (v <- voltdm_read d st ;; ret (negb (Z.land v idle =? 0)))
        remaining index w =
        Ret (index + Nat.min F remaining)%nat
          (advance w e
             (busy_polls_trace rd st (Nat.min F remaining) (w_env w)
                ++ (if (F <? remaining)%nat
                    then [EvRead st
                            (u32 (fst (rd st (after_busy_polls rd st F (w_env w)))))]
                    else []))).
Proof using d_read.
  induction remaining as [| remaining IH]; intros index F w st idle Hbusy Hidle.
  - exists (w_env w). rewrite Nat.min_0_r, Nat.add_0_r.
    cbn [omap_test_timeout_from busy_polls_trace Nat.ltb Nat.leb app].
    unfold ret. now rewrite advance_nil.
  - cbn [omap_test_timeout_from].
    unfold bind at 1. unfold bind at 1.
    rewrite (voltdm_read_ok d rd _ w d_read). cbv beta iota. unfold ret at 1.
    destruct F as [| F].
    + assert (Hb : idle_at_poll rd st idle 0 (w_env w) = true)
        by (apply Hidle; lia).
      unfold idle_at_poll in Hb. cbn [after_busy_polls] in Hb. fold st idle.
      rewrite Hb. unfold ret. eexists.
      rewrite Nat.min_0_l, Nat.add_0_r. reflexivity.
    + assert (Hb : idle_at_poll rd st idle 0 (w_env w) = false)
        by (apply Hbusy; cbn [Nat.min]; lia).
      unfold idle_at_poll in Hb. cbn [after_busy_polls] in Hb. fold st idle.
      rewrite Hb. unfold bind at 1. rewrite udelay_as_advance, advance_advance.
      cbn [w_env advance].
      match goal with
      | |- context [omap_test_timeout_from _ _ _ _ ?w1] =>
          destruct (IH (S index) F w1) as (e & Hrun)
      end.
      * intros i Hi. change (idle_at_poll rd st idle (S i) (w_env w) = false).
        apply Hbusy. cbn [Nat.min]. lia.
      * intros Hlt. change (idle_at_poll rd st idle (S F) (w_env w) = true).
        apply Hidle. lia.
      * cbv zeta in Hrun. fold st idle in Hrun. rewrite Hrun, advance_advance.
        exists e. f_equal. cbn [Nat.min]. lia.
Qed.

Lemma busy_polls_trace_counts (st : Z) (n : nat) :
  forall e,
    List.length (reg_reads (busy_polls_trace rd st n e)) = n
    /\ List.length (delays (busy_polls_trace rd st n e)) = n
    /\ reg_writes (busy_polls_trace rd st n e) = [].
Proof using Type.
  induction n as [| n IH]; intros e; cbn; [now repeat split |].
  destruct (IH (udelay_env 1 (snd (rd st e)))) as (H1 & H2 & H3).
  fold (reg_reads (busy_polls_trace rd st n (udelay_env 1 (snd (rd st e))))).
  fold (delays (busy_polls_trace rd st n (udelay_env 1 (snd (rd st e))))).
  fold (reg_writes (busy_polls_trace rd st n (udelay_env 1 (snd (rd st e))))).
  repeat split; congruence.
Qed.

(** X10: when the VP shows idle at the [K]-th read of its status register and
    not before, [_vp_wait_for_idle] returns 0 iff [K] is within
    [VP_IDLE_TIMEOUT] and -ETIMEDOUT iff it is beyond; it has then read the
    status register [min K VP_IDLE_TIMEOUT] times, one microsecond apart, and
    written nothing. *)
Theorem wait_for_idle_at_read (K : nat) (w : world) :
  idle_at_read rd (vstatus vpi) (vstatus_vpidle (common vpi)) K (w_env w) ->
  exists r w' evs,
    _vp_wait_for_idle d vpi w = Ret r w'
    /\ trace w' = trace w ++ evs
    /\ (r = 0 <-> (K <= VP_IDLE_TIMEOUT)%nat)
    /\ (r = - ETIMEDOUT <-> (VP_IDLE_TIMEOUT < K)%nat)
    /\ List.length (reg_reads evs) = Nat.min K VP_IDLE_TIMEOUT
    /\ List.length (delays evs) = Nat.min (K - 1) VP_IDLE_TIMEOUT
    /\ reg_writes evs = [].
Proof using d_read.
  intros (HK & Hbusy & Hidle).
  unfold _vp_wait_for_idle, omap_test_timeout.
  destruct (idle_poll_at VP_IDLE_TIMEOUT 0 (K - 1) w) as (e & Hrun).
  - intros i Hi. apply Hbusy. lia.
  - intros _. exact Hidle.
  - cbv zeta in Hrun. rewrite (bind_Ret _ _ _ _ _ Hrun). cbn [Nat.add].
    destruct (busy_polls_trace_counts (vstatus vpi)
                (Nat.min (K - 1) VP_IDLE_TIMEOUT) (w_env w)) as (Hr & Hd & Hw).
    destruct (Nat.leb_spec VP_IDLE_TIMEOUT (Nat.min (K - 1) VP_IDLE_TIMEOUT))
      as [Hto | Hin].
    + assert (Hlt : (K - 1 <? VP_IDLE_TIMEOUT)%nat = false)
        by (apply Nat.ltb_ge; lia).
      rewrite Hlt, app_nil_r.
      match goal with
      | |- context [advance w e ?t] =>
          destruct (idle_timedout_warnings d (advance w e t)) as (l & Hwarn & Hl)
      end.
      rewrite Hwarn, advance_advance. cbn [w_env advance].
      eexists _, _, _. split; [reflexivity |]. cbn [trace advance].
      split; [reflexivity |].
      rewrite reg_reads_app, delays_app, reg_writes_app, !List.length_app, Hr, Hd,
        Hw.
      destruct Hl as [-> | ->]; cbn; unfold ETIMEDOUT; repeat split; intros; lia.
    + assert (Hlt : (K - 1 <? VP_IDLE_TIMEOUT)%nat = true)
        by (apply Nat.ltb_lt; lia).
      rewrite Hlt. unfold ret. eexists _, _, _. split; [reflexivity |].
      cbn [trace advance]. split; [reflexivity |].
      rewrite reg_reads_app, delays_app, reg_writes_app, !List.length_app, Hr, Hd,
        Hw. cbn. unfold ETIMEDOUT. repeat split; intros; lia.
Qed.

(** *** The configuration value of the initial-voltage pulse *)

Lemma u8_testbit_high (x j : Z) : 8 <= j -> Z.testbit (u8 x) j = false.
Proof using Type. intros Hj. unfold u8. apply Z.mod_pow2_bits_high. lia. Qed.

Lemma field_mask_testbit (k j : Z) :
  0 <= k -> Z.testbit (Z.shiftl 255 k) j = (k <=? j) && (j <? k + 8).
Proof using Type.
  intros Hk. destruct (Z.ltb_spec j 0) as [Hneg | Hnn].
  - rewrite Z.testbit_neg_r by exact Hneg.
    destruct (Z.leb_spec k j); [lia | reflexivity].
  - rewrite Z.shiftl_spec by exact Hnn. change 255 with (Z.ones 8).
    destruct (Z.leb_spec k j) as [Hle | Hgt]; cbn [andb].
    + destruct (Z.ltb_spec j (k + 8)).
      * apply Z.ones_spec_low. lia.
      * apply Z.ones_spec_high. lia.
    + apply Z.testbit_neg_r. lia.
Qed.

(** X11: with an 8-bit initial-voltage field at bit [k], the configuration
    value that [_vp_set_init_voltage] writes (three times: plain, with the
    initVDD bit, plain again) and returns carries the selector of the
    requested voltage in that field; outside the field, the force-update and
    initVDD bits are clear and every other bit is as it was read. *)
Theorem set_init_voltage_field (p : omap_voltdm_pmic) (conv : Z -> Z)
    (k volt : Z) (w : world) :
  pmic d = Ptr p ->
  uv_to_vsel p = Ptr conv ->
  0 <= k -> k + 8 <= 32 ->
  vpconfig_initvoltage_mask (common vpi) = Z.shiftl 255 k ->
  let old := u32 (fst (rd (vpconfig vpi) (w_env w))) in
  let pulse := Z.lor (vpconfig_forceupdate (common vpi))
                 (vpconfig_initvdd (common vpi)) in
  exists c w',
    _vp_set_init_voltage d volt w = Ret c w'
    /\ trace w' =
         trace w
           ++ [EvRead (vpconfig vpi) old;
               EvWrite c (vpconfig vpi);
               EvWrite (Z.lor c (vpconfig_initvdd (common vpi))) (vpconfig vpi);
               EvWrite c (vpconfig vpi)]
    /\ (forall j, 0 <= j < 8 ->
                  Z.testbit c (j + k) = Z.testbit (u8 (conv volt)) j)
    /\ (forall j, j < k \/ k + 8 <= j ->
                  Z.testbit pulse j = true -> Z.testbit c j = false)
    /\ (forall j, j < k \/ k + 8 <= j ->
                  Z.testbit pulse j = false -> Z.testbit c j = Z.testbit old j).
Proof using d_vp d_read d_write.
  intros Hp Hconv Hk Hk8 Hmask old pulse.
  rewrite (set_init_voltage_ok d vpi p conv rd wr d_vp Hp Hconv d_read d_write
             volt w).
  fold old. eexists _, _. split; [reflexivity |]. split; [reflexivity |].
  unfold init_vpconfig. rewrite Hmask, (ffs_shiftl_odd 255 k) by (lia || reflexivity).
  rewrite (land_not32 old _ (u32_range _)).
  assert (Hbit : forall j, 0 <= j ->
            Z.testbit
              (Z.lor
                 (Z.land old
                    (Z.lnot
                       (Z.lor (Z.lor (Z.shiftl 255 k)
                                 (vpconfig_forceupdate (common vpi)))
                          (vpconfig_initvdd (common vpi)))))
                 (shl32 (u8 (conv volt)) k)) j
            = (Z.testbit old j
               && negb ((k <=? j) && (j <? k + 8) || Z.testbit pulse j))
              || ((j <? 32) && Z.testbit (u8 (conv volt)) (j - k))).
  { intros j Hj. unfold shl32, pulse.
    rewrite Z.lor_spec, Z.land_spec, Z.lnot_spec, !Z.lor_spec, u32_testbit,
      field_mask_testbit, Z.shiftl_spec by lia.
    now rewrite orb_assoc. }
  split; [| split].
  - intros j Hj. rewrite Hbit by lia. replace (j + k - k) with j by lia.
    destruct (Z.leb_spec k (j + k)); [| lia].
    destruct (Z.ltb_spec (j + k) (k + 8)); [| lia].
    destruct (Z.ltb_spec (j + k) 32); [| lia].
    cbn [andb orb negb]. now rewrite andb_false_r.
  - intros j Hout Hpulse.
    destruct (Z.ltb_spec j 0) as [Hneg | Hnn];
      [now apply Z.testbit_neg_r |].
    rewrite Hbit, Hpulse by lia. rewrite orb_true_r. cbn [negb].
    rewrite andb_false_r. cbn [orb].
    destruct Hout as [Hlo | Hhi].
    + rewrite (Z.testbit_neg_r _ (j - k)) by lia. apply andb_false_r.
    + rewrite u8_testbit_high by lia. apply andb_false_r.
  - intros j Hout Hpulse.
    destruct (Z.ltb_spec j 0) as [Hneg | Hnn];
      [now rewrite !Z.testbit_neg_r by exact Hneg |].
    rewrite Hbit, Hpulse by lia. rewrite orb_false_r.
    assert (Hfield : (k <=? j) && (j <? k + 8) = false).
    { destruct (Z.leb_spec k j), (Z.ltb_spec j (k + 8)); try reflexivity; lia. }
    rewrite Hfield. cbn [negb]. rewrite andb_true_r.
    destruct Hout as [Hlo | Hhi].
    + rewrite (Z.testbit_neg_r _ (j - k)) by lia.
      now rewrite andb_false_r, orb_false_r.
    + rewrite u8_testbit_high by lia. now rewrite andb_false_r, orb_false_r.
Qed.

(** *** The clear loop of step 4 at its bound *)

(** X20: after a successful idle wait and pre-scale hook, let attempt [k + 1]
    of the clear loop be the first to leave the transaction-done status
    clear.  The scale goes on (and returns 0) only if that attempt is not the
    last of the [VP_TRANXDONE_TIMEOUT] permitted ones: when the status clears
    at the very last permitted attempt the loop counter has reached the bound,
    and the scale is aborted with -ETIMEDOUT, without any register write or
    post-scale call, like one whose status never cleared. *)
Theorem forceupdate_scale_clear_budget (p : omap_voltdm_pmic) (conv : Z -> Z)
    (tv : omap_volt_data) (w w1 w2 : world) (tvsel cvsel : Z) (k : nat) :
  pmic d = Ptr p ->
  uv_to_vsel p = Ptr conv ->
  (forall e, recover (ops (common vpi)) <> ErrPtr e) ->
  _vp_wait_for_idle d vpi w = Ret 0 w1 ->
  omap_vc_pre_scale d (omap_get_operation_voltage tv) tv w1
    = Ret (0, tvsel, cvsel) w2 ->
  (forall i, (i < k)%nat -> pending_after_clear vpi i (w_env w2) = true) ->
  pending_after_clear vpi k (w_env w2) = false ->
  (k < VP_TRANXDONE_TIMEOUT)%nat ->
  exists r w' evs,
    omap_vp_forceupdate_scale (Ptr d) (Ptr tv) w = Ret r w'
    /\ trace w' = trace w ++ evs
    /\ ((S k < VP_TRANXDONE_TIMEOUT)%nat ->
        r = 0
        /\ List.length (reg_writes evs) = 5%nat
        /\ post_scale_calls evs =
             [EvPostScale (omap_get_operation_voltage tv) tv tvsel cvsel])
    /\ (S k = VP_TRANXDONE_TIMEOUT ->
        r = - ETIMEDOUT
        /\ reg_writes evs = []
        /\ post_scale_calls evs = []
        /\ err_reports evs = [msg_tranxdone_aborted]).
Proof using d_vp d_read d_write.
  intros Hp Hconv Hrec Hidle Hpre Hpend Hclr Hk.
  pose proof (forceupdate_scale_phases d vpi p conv rd wr d_vp Hp Hconv d_read
                d_write tv w Hrec) as Hph.
  cbv delta [scale_outcomes] in Hph. cbv beta zeta in Hph.
  destruct Hph as (r1 & w1' & Hidle' & _ & Hgo).
  rewrite Hidle in Hidle'. injection Hidle' as <- <-.
  destruct (Hgo eq_refl tvsel cvsel w2 Hpre) as (n4 & w3 & Hloop & Hto & Hdone).
  destruct (txdone_clear_loop_counter vpi VP_TRANXDONE_TIMEOUT 0 k w2 Hpend Hclr Hk)
    as (w3' & Hloop').
  rewrite Hloop in Hloop'. injection Hloop' as -> <-.
  destruct (Nat.eq_dec (S k) VP_TRANXDONE_TIMEOUT) as [Hlast | Hnot].
  - destruct Hto as (evs & (w' & Hrun & Htr & Hw & Hps & He) & _); [lia |].
    exists (- ETIMEDOUT), w', evs. split; [exact Hrun |]. split; [exact Htr |].
    split; [intros; lia |]. intros _. now repeat split.
  - destruct Hdone
      as (c & w5 & t7 & w6 & w7 & w8 & n9 & w9 & w10 & _ & _ & _ & _ & _ & _
          & w' & evs & _ & Hrun & Htr & Hw & Hps & _); [lia |].
    exists 0, w', evs. split; [exact Hrun |]. split; [exact Htr |].
    split; [| intros; lia]. intros _. rewrite Hw. now repeat split.
Qed.

(** *** The scale as a whole: hooks and busy-waiting *)

Lemma hook_calls_app (a b : list event) :
  hook_calls (a ++ b) = hook_calls a ++ hook_calls b.
Proof using Type. apply filter_app. Qed.

Lemma no_hook_calls (evs : list event) :
  pre_scale_calls evs = [] -> post_scale_calls evs = [] -> hook_calls evs = [].
Proof using Type.
  unfold pre_scale_calls, post_scale_calls, hook_calls, is_hook_call.
  induction evs as [| e evs IH]; intros Hpre Hpost; [reflexivity |].
  cbn [filter] in *. destruct (is_pre_scale e); [discriminate |].
  destruct (is_post_scale e); [discriminate |]. cbn [orb]. now apply IH.
Qed.

Lemma scale_stretch_app (a b : list event) (m n : nat) :
  scale_stretch a m -> scale_stretch b n -> scale_stretch (a ++ b) (m + n).
Proof using Type.
  unfold scale_stretch, unit_delays.
  intros (Ha1 & Ha2 & Ha3 & Ha4) (Hb1 & Hb2 & Hb3 & Hb4).
  rewrite pre_scale_calls_app, post_scale_calls_app, forallb_app, delays_app,
    List.length_app, Ha1, Ha2, Ha3, Hb1, Hb2, Hb3.
  repeat split; try reflexivity. lia.
Qed.

Lemma scale_stretch_weaken (a : list event) (m n : nat) :
  (m <= n)%nat -> scale_stretch a m -> scale_stretch a n.
Proof using Type.
  unfold scale_stretch. intros Hmn (H1 & H2 & H3 & H4).
  repeat split; try assumption. lia.
Qed.

Lemma poll_events_no_hook (evs : list event) :
  forallb is_poll_event evs = true ->
  pre_scale_calls evs = [] /\ post_scale_calls evs = [].
Proof using Type.
  induction evs as [| e evs IH]; intros H; [now split |].
  cbn [forallb] in H. apply andb_prop in H as [He Hevs].
  destruct (IH Hevs) as (H1 & H2).
  destruct e; try discriminate He; cbn; now split.
Qed.

Lemma report_events_unit_delays (evs : list event) :
  forallb is_report_event evs = true -> unit_delays evs.
Proof using Type.
  unfold unit_delays. induction evs as [| e evs IH]; intros H; [reflexivity |].
  cbn [forallb] in H. apply andb_prop in H as [He Hevs].
  cbn [forallb]. rewrite (IH Hevs).
  destruct e; try discriminate He; reflexivity.
Qed.

Lemma report_events_stretch (evs : list event) :
  forallb is_report_event evs = true -> scale_stretch evs 0.
Proof using Type.
  intros H. destruct (report_events_inert _ H) as (_ & _ & H1 & H2 & _ & H3).
  unfold scale_stretch. rewrite H1, H2, H3.
  repeat split; try reflexivity. now apply report_events_unit_delays.
Qed.

(** The idle wait as a stretch of the scale. *)
Lemma idle_poll_stretch (remaining : nat) :
  forall (index : nat) (w : world),
    exists c w' evs,
      omap_test_timeout_from (udelay 1)
        (v <- voltdm_read d (vstatus vpi) ;;
         ret (negb (Z.land v (vstatus_vpidle (common vpi)) =? 0)))
        remaining index w = Ret c w'
      /\ trace w' = trace w ++ evs
      /\ forallb is_idle_wait_event evs = true
      /\ unit_delays evs
      /\ (List.length (delays evs) <= remaining)%nat.
Proof using d_read.
  unfold unit_delays.
  induction remaining as [| remaining IH]; intros index w.
  - exists index, w, []. cbn. rewrite app_nil_r. repeat split; lia.
  - cbn [omap_test_timeout_from].
    unfold bind at 1. unfold bind at 1.
    rewrite (voltdm_read_ok d rd _ w d_read). cbv beta iota. unfold ret at 1.
    destruct (negb _).
    + eexists index, _, _. split; [reflexivity |]. cbn [trace advance].
      split; [reflexivity |]. cbn. repeat split; lia.
    + unfold bind at 1. rewrite udelay_as_advance, advance_advance.
      match goal with
      | |- context [omap_test_timeout_from _ _ _ _ ?w1] =>
          destruct (IH (S index) w1) as (c & w' & evs & Hrun & Htr & Hq & Hu & Hd)
      end.
      exists c, w'. eexists. split; [exact Hrun |].
      rewrite Htr. cbn [trace advance]. rewrite <- !app_assoc.
      split; [reflexivity |]. cbn. fold (delays evs).
      split; [exact Hq |]. split; [exact Hu | lia].
Qed.

Lemma wait_for_idle_stretch (w : world) :
  exists r w' evs,
    _vp_wait_for_idle d vpi w = Ret r w'
    /\ trace w' = trace w ++ evs
    /\ scale_stretch evs VP_IDLE_TIMEOUT
    /\ (r = 0 \/ r = - ETIMEDOUT).
Proof using d_read.
  unfold _vp_wait_for_idle, omap_test_timeout.
  destruct (idle_poll_stretch VP_IDLE_TIMEOUT 0 w)
    as (c & w1 & evs & Hrun & Htr & Hq & Hu & Hd).
  rewrite (bind_Ret _ _ _ _ _ Hrun).
  destruct (idle_wait_events_inert _ Hq) as (_ & Hpre & Hpost & _).
  destruct (Nat.leb_spec VP_IDLE_TIMEOUT c) as [Hto | Hin].
  - destruct (idle_timedout_warnings d w1) as (l & Hwarn & Hl). rewrite Hwarn.
    exists (- ETIMEDOUT), (advance w1 (w_env w1) l), (evs ++ l).
    split; [reflexivity |]. cbn [trace advance]. rewrite Htr, <- app_assoc.
    split; [reflexivity |]. split; [| now right].
    unfold scale_stretch, unit_delays in *.
    rewrite pre_scale_calls_app, post_scale_calls_app, forallb_app, delays_app,
      List.length_app, Hpre, Hpost, Hu.
    destruct Hl as [-> | ->]; cbn; repeat split; lia.
  - exists 0, w1, evs. split; [reflexivity |]. split; [exact Htr |].
    split; [| now left]. unfold scale_stretch. now repeat split.
Qed.

(** The two transaction-done loops as stretches of the scale. *)
Lemma txdone_clear_loop_stretch (remaining : nat) :
  forall (timeout : nat) (w : world),
    exists n w' evs,
      txdone_clear_loop vpi remaining timeout w = Ret n w'
      /\ trace w' = trace w ++ evs
      /\ scale_stretch evs remaining.
Proof using Type.
  unfold scale_stretch, unit_delays.
  induction remaining as [| remaining IH]; intros timeout w.
  - exists (S timeout), w, []. cbn [txdone_clear_loop]. unfold ret.
    rewrite app_nil_r. cbn. repeat split; lia.
  - cbn [txdone_clear_loop].
    unfold bind at 1. unfold vp_clear_txdone at 1. cbv beta iota.
    unfold bind at 1. rewrite vp_check_txdone_ok.
    destruct (fst (check_txdone _ _ _)); cbn [negb].
    + unfold bind at 1. unfold udelay at 1. cbv beta iota.
      match goal with
      | |- context [txdone_clear_loop _ _ _ ?w1] =>
          destruct (IH (S timeout) w1)
            as (n & w' & evs & Hrun & Htr & H1 & H2 & H3 & H4)
      end.
      exists n, w'. eexists. split; [exact Hrun |].
      rewrite Htr. cbn [trace advance log_event set_env].
      rewrite <- !app_assoc. split; [reflexivity |].
      cbn. fold (pre_scale_calls evs). fold (post_scale_calls evs).
      fold (delays evs). repeat split; try assumption. lia.
    + eexists (S timeout), _, _. unfold ret. split; [reflexivity |].
      cbn [trace advance log_event set_env]. rewrite <- !app_assoc.
      split; [reflexivity |]. cbn. repeat split; lia.
Qed.

Lemma txdone_wait_stretch (remaining : nat) :
  forall (index : nat) (w : world),
    exists c w' evs,
      omap_test_timeout_from (udelay 1) (vp_check_txdone vpi) remaining index w
        = Ret c w'
      /\ trace w' = trace w ++ evs
      /\ scale_stretch evs remaining.
Proof using Type.
  unfold scale_stretch, unit_delays.
  induction remaining as [| remaining IH]; intros index w.
  - exists index, w, []. cbn. rewrite app_nil_r. repeat split; lia.
  - cbn [omap_test_timeout_from].
    unfold bind at 1. rewrite vp_check_txdone_ok.
    destruct (fst (check_txdone _ _ _)).
    + eexists index, _, _. split; [reflexivity |]. cbn [trace advance].
      split; [reflexivity |]. cbn. repeat split; lia.
    + unfold bind at 1. unfold udelay at 1. cbv beta iota.
      match goal with
      | |- context [omap_test_timeout_from _ _ _ _ ?w1] =>
          destruct (IH (S index) w1)
            as (c & w' & evs & Hrun & Htr & H1 & H2 & H3 & H4)
      end.
      exists c, w'. eexists. split; [exact Hrun |].
      rewrite Htr. cbn [trace advance log_event set_env].
      rewrite <- !app_assoc. split; [reflexivity |].
      cbn. fold (pre_scale_calls evs). fold (post_scale_calls evs).
      fold (delays evs). repeat split; try assumption. lia.
Qed.

Lemma maybe_report_stretch (timed_out : bool) (msg : string) (w : world) :
  (forall e, recover (ops (common vpi)) <> ErrPtr e) ->
  exists w' evs,
    (if timed_out then _vp_controlled_err vpi d msg else ret tt) w = Ret tt w'
    /\ trace w' = trace w ++ evs
    /\ scale_stretch evs 0.
Proof using Type.
  intros Hrec. destruct timed_out.
  - destruct (controlled_err_frame vpi d msg w Hrec)
      as (w' & evs & Hrun & Htr & Hq & _).
    exists w', evs. split; [exact Hrun |]. split; [exact Htr |].
    now apply report_events_stretch.
  - exists w, []. rewrite app_nil_r. unfold scale_stretch, unit_delays.
    cbn. repeat split; lia.
Qed.

(** X21: on a domain with a VP, both accessors and a PMIC that converts
    voltages, [omap_vp_forceupdate_scale] always returns, after busy-waiting
    for at most [VP_IDLE_TIMEOUT + 3 * VP_TRANXDONE_TIMEOUT] delays of one
    microsecond.  It calls the pre-scale hook at most once and the post-scale
    hook at most once and only after the pre-scale hook: the hook calls of a
    scale are, in the order they were made, none (the idle wait timed out),
    the pre-scale call alone (the hook failed, and its status is returned, or
    the clear loop of step 4 reached its bound), or the successful pre-scale
    call followed by the post-scale call (the scale returns 0).  The
    post-scale hook is called exactly when the scale returns 0, so that a
    scale aborted after the pre-scale hook (by the hook's own failure or by
    the clear loop of step 4) leaves the pre-scale call without its
    post-scale call. *)
Theorem forceupdate_scale_hooks_and_delay (p : omap_voltdm_pmic)
    (conv : Z -> Z) (tv : omap_volt_data) (w : world) :
  pmic d = Ptr p ->
  uv_to_vsel p = Ptr conv ->
  (forall e, recover (ops (common vpi)) <> ErrPtr e) ->
  exists r w' evs,
    omap_vp_forceupdate_scale (Ptr d) (Ptr tv) w = Ret r w'
    /\ trace w' = trace w ++ evs
    /\ unit_delays evs
    /\ (List.length (delays evs)
        <= VP_IDLE_TIMEOUT + 3 * VP_TRANXDONE_TIMEOUT)%nat
    /\ (List.length (pre_scale_calls evs) <= 1)%nat
    /\ (List.length (post_scale_calls evs)
        <= List.length (pre_scale_calls evs))%nat
    /\ (r = 0 <-> List.length (post_scale_calls evs) = 1%nat)
    /\ ((hook_calls evs = [] /\ r = - ETIMEDOUT)
        \/ (exists r0,
              hook_calls evs = [EvPreScale (omap_get_operation_voltage tv) tv r0]
              /\ r = (if r0 =? 0 then - ETIMEDOUT else r0))
        \/ (exists tvsel cvsel,
              hook_calls evs =
                [EvPreScale (omap_get_operation_voltage tv) tv 0;
                 EvPostScale (omap_get_operation_voltage tv) tv tvsel cvsel]
              /\ r = 0)).
Proof using d_vp d_read d_write.
  intros Hp Hconv Hrec.
  unfold omap_vp_forceupdate_scale. cbn [IS_ERR_OR_NULL deref].
  rewrite bind_ret. cbv beta. rewrite d_write, d_vp.
  cbn [IS_ERR_OR_NULL deref]. exec_ret. cbv zeta.
  set (volt := omap_get_operation_voltage tv).
  set (T := VP_TRANXDONE_TIMEOUT).
  destruct (wait_for_idle_stretch w) as (r1 & w1 & evs1 & Hrun1 & Htr1 & Hs1 & Hr1).
  rewrite (bind_Ret _ _ _ _ _ Hrun1).
  destruct Hr1 as [-> | ->].
  2:{ (* the idle wait timed out *)
    change (negb (- ETIMEDOUT =? 0)) with true. cbv iota.
    destruct (maybe_report_stretch true msg_idle_timedout w1 Hrec)
      as (w' & evs & Hrun & Htr & Hs).
    cbv iota in Hrun. rewrite (bind_Ret _ _ _ _ _ Hrun). unfold ret.
    exists (- ETIMEDOUT), w', (evs1 ++ evs). split; [reflexivity |].
    split; [rewrite Htr, Htr1, app_assoc; reflexivity |].
    destruct (scale_stretch_app _ _ _ _ Hs1 Hs) as (Hpre & Hpost & Hu & Hd).
    pose proof (no_hook_calls _ Hpre Hpost) as Hhook.
    rewrite Hpre, Hpost. cbn [List.length]. unfold ETIMEDOUT.
    repeat split; try assumption; try lia; try discriminate.
    now left. }
  change (negb (0 =? 0)) with false. cbv iota.
  assert (Hpre : exists r tvsel cvsel w2,
            omap_vc_pre_scale d volt tv w1 = Ret (r, tvsel, cvsel) w2
            /\ trace w2 = trace w1 ++ [EvPreScale volt tv r]).
  { unfold omap_vc_pre_scale.
    destruct (omap_vc_pre_scale_env d volt tv (w_env w1)) as [[[r tvsel] cvsel] e2].
    do 4 eexists. split; reflexivity. }
  destruct Hpre as (r & tvsel & cvsel & w2 & Hpre & Htr2).
  rewrite (bind_Ret _ _ _ _ _ Hpre). cbv beta iota zeta.
  destruct Hs1 as (Hpre1 & Hpost1 & Hu1 & Hd1). unfold unit_delays in *.
  destruct (Z.eqb_spec r 0) as [-> | Hr]; cbn [negb].
  2:{ (* the pre-scale hook failed *)
    unfold ret. exists r, w2, (evs1 ++ [EvPreScale volt tv r]).
    split; [reflexivity |].
    split; [rewrite Htr2, Htr1, app_assoc; reflexivity |].
    assert (Hhook : hook_calls (evs1 ++ [EvPreScale volt tv r])
                    = [EvPreScale volt tv r])
      by (now rewrite hook_calls_app, (no_hook_calls _ Hpre1 Hpost1)).
    rewrite pre_scale_calls_app, post_scale_calls_app, forallb_app, delays_app,
      List.length_app, Hpre1, Hpost1, Hu1. cbn.
    repeat split; try lia; try (intros; discriminate).
    right. left. exists r. split; [exact Hhook |].
    apply Z.eqb_neq in Hr. now rewrite Hr. }
  destruct (txdone_clear_loop_stretch T 0 w2)
    as (n4 & w3 & evs4 & Hrun4 & Htr4 & Hpre4 & Hpost4 & Hu4 & Hd4).
  rewrite (bind_Ret _ _ _ _ _ Hrun4). unfold unit_delays in *.
  destruct (Nat.leb_spec T n4) as [Hto | Hin].
  { (* the clear loop of step 4 reached its bound *)
    destruct (maybe_report_stretch true msg_tranxdone_aborted w3 Hrec)
      as (w' & evs & Hrun & Htr & Hpre' & Hpost' & Hu' & Hd').
    cbv iota in Hrun. rewrite (bind_Ret _ _ _ _ _ Hrun). unfold ret.
    unfold unit_delays in *.
    exists (- ETIMEDOUT), w', (evs1 ++ [EvPreScale volt tv 0] ++ evs4 ++ evs).
    split; [reflexivity |].
    split; [rewrite Htr, Htr4, Htr2, Htr1, <- !app_assoc; reflexivity |].
    assert (Hhook : hook_calls (evs1 ++ [EvPreScale volt tv 0] ++ evs4 ++ evs)
                    = [EvPreScale volt tv 0])
      by (now rewrite !hook_calls_app, (no_hook_calls _ Hpre1 Hpost1),
            (no_hook_calls _ Hpre4 Hpost4), (no_hook_calls _ Hpre' Hpost')).
    rewrite !pre_scale_calls_app, !post_scale_calls_app, !forallb_app,
      !delays_app, !List.length_app, Hpre1, Hpost1, Hu1, Hpre4, Hpost4, Hu4,
      Hpre', Hpost', Hu'. cbn. unfold ETIMEDOUT. fold T.
    repeat split; try lia; try discriminate.
    right. left. exists 0. now split. }
  rewrite (bind_Ret _ _ _ _ _
             (set_init_voltage_ok d vpi p conv rd wr d_vp Hp Hconv d_read d_write
                volt w3)).
  set (c := init_vpconfig vpi conv volt (u32 (fst (rd (vpconfig vpi) (w_env w3))))).
  rewrite (bind_Ret _ _ _ _ _ (voltdm_write_ok d wr _ _ _ d_write)).
  rewrite advance_advance. cbn [w_env advance].
  set (evs5 := init_voltage_events vpi conv rd volt (w_env w3) ++ _).
  set (w5 := advance w3 _ evs5).
  assert (Htr5 : trace w5 = trace w3 ++ evs5) by reflexivity.
  assert (Hs5 : pre_scale_calls evs5 = [] /\ post_scale_calls evs5 = []
                /\ forallb is_unit_delay evs5 = true /\ delays evs5 = [])
    by (subst evs5; now repeat split).
  destruct Hs5 as (Hpre5 & Hpost5 & Hu5 & Hd5).
  clearbody w5 evs5.
  unfold omap_test_timeout.
  destruct (txdone_wait_stretch T 0 w5)
    as (t7 & w6 & evs7 & Hrun7 & Htr7 & Hpre7 & Hpost7 & Hu7 & Hd7).
  rewrite (bind_Ret _ _ _ _ _ Hrun7).
  destruct (maybe_report_stretch (T <=? t7)%nat msg_tranxdone_never_set w6 Hrec)
    as (w7 & er7 & Hrep7 & Htrr7 & Hprer7 & Hpostr7 & Hur7 & Hdr7).
  rewrite (bind_Ret _ _ _ _ _ Hrep7).
  assert (Hps : exists w8,
            omap_vc_post_scale d volt tv tvsel cvsel w7 = Ret tt w8
            /\ trace w8 = trace w7 ++ [EvPostScale volt tv tvsel cvsel])
    by (eexists; split; reflexivity).
  destruct Hps as (w8 & Hps & Htr8).
  rewrite (bind_Ret _ _ _ _ _ Hps).
  destruct (txdone_clear_loop_stretch T 0 w8)
    as (n9 & w9 & evs9 & Hrun9 & Htr9 & Hpre9 & Hpost9 & Hu9 & Hd9).
  rewrite (bind_Ret _ _ _ _ _ Hrun9).
  destruct (maybe_report_stretch (T <=? n9)%nat msg_tranxdone_not_cleared w9 Hrec)
    as (w10 & er9 & Hrep9 & Htrr9 & Hprer9 & Hpostr9 & Hur9 & Hdr9).
  rewrite (bind_Ret _ _ _ _ _ Hrep9).
  rewrite (bind_Ret _ _ _ _ _ (voltdm_write_ok d wr _ _ _ d_write)).
  unfold ret. unfold unit_delays in *.
  eexists 0, _,
    (evs1 ++ [EvPreScale volt tv 0] ++ evs4 ++ evs5 ++ evs7 ++ er7
       ++ [EvPostScale volt tv tvsel cvsel] ++ evs9 ++ er9
       ++ [EvWrite c (vpconfig vpi)]).
  split; [reflexivity |]. cbn [trace advance].
  split; [rewrite Htrr9, Htr9, Htr8, Htrr7, Htr7, Htr5, Htr4, Htr2, Htr1,
            <- !app_assoc; reflexivity |].
  assert (Hhook : hook_calls
                    (evs1 ++ [EvPreScale volt tv 0] ++ evs4 ++ evs5 ++ evs7
                       ++ er7 ++ [EvPostScale volt tv tvsel cvsel] ++ evs9
                       ++ er9 ++ [EvWrite c (vpconfig vpi)])
                  = [EvPreScale volt tv 0; EvPostScale volt tv tvsel cvsel])
    by (now rewrite !hook_calls_app, (no_hook_calls _ Hpre1 Hpost1),
          (no_hook_calls _ Hpre4 Hpost4), (no_hook_calls _ Hpre5 Hpost5),
          (no_hook_calls _ Hpre7 Hpost7), (no_hook_calls _ Hprer7 Hpostr7),
          (no_hook_calls _ Hpre9 Hpost9), (no_hook_calls _ Hprer9 Hpostr9)).
  rewrite !pre_scale_calls_app, !post_scale_calls_app, !forallb_app,
    !delays_app, !List.length_app, Hpre1, Hpost1, Hu1, Hpre4, Hpost4, Hu4,
    Hpre5, Hpost5, Hu5, Hd5, Hpre7, Hpost7, Hu7, Hprer7, Hpostr7, Hur7,
    Hpre9, Hpost9, Hu9, Hprer9, Hpostr9, Hur9.
  cbn. fold T in Hd4, Hd7, Hd9. repeat split; try lia.
  right. right. exists tvsel, cvsel. now split.
Qed.


(** *** The status cleared by the last permitted attempt *)

Lemma txdone_checks_app (a b : list event) :
  txdone_checks (a ++ b) = txdone_checks a ++ txdone_checks b.
Proof using Type. apply flat_map_app. Qed.

Lemma idle_wait_events_no_check (evs : list event) :
  forallb is_idle_wait_event evs = true -> txdone_checks evs = [].
Proof using Type.
  induction evs as [| e evs IH]; intros H; [reflexivity |].
  cbn [forallb] in H. apply andb_prop in H as [He Hevs].
  destruct e; try discriminate He; cbn; now apply IH.
Qed.

Lemma report_events_no_check (evs : list event) :
  forallb is_report_event evs = true -> txdone_checks evs = [].
Proof using Type.
  induction evs as [| e evs IH]; intros H; [reflexivity |].
  cbn [forallb] in H. apply andb_prop in H as [He Hevs].
  destruct e; try discriminate He; cbn; now apply IH.
Qed.

(** The idle poll that finds the VP idle at poll [F], within its budget: the
    devices it leaves are those after [F] busy polls and one more read. *)
Lemma idle_poll_found (remaining : nat) :
  forall (index F : nat) (w : world),
    (forall i, (i < F)%nat ->
       idle_at_poll rd (vstatus vpi) (vstatus_vpidle (common vpi)) i (w_env w)
         = false) ->
    idle_at_poll rd (vstatus vpi) (vstatus_vpidle (common vpi)) F (w_env w)
      = true ->
    (F < remaining)%nat ->
    exists evs,
      omap_test_timeout_from (udelay 1)
        (v <- voltdm_read d (vstatus vpi) ;;
         ret (negb (Z.land v (vstatus_vpidle (common vpi)) =? 0)))
        remaining index w =
        Ret (index + F)%nat
          (advance w
             (snd (rd (vstatus vpi)
                     (after_busy_polls rd (vstatus vpi) F (w_env w))))
             evs)
      /\ forallb is_idle_wait_event evs = true.
Proof using d_read.
  induction remaining as [| remaining IH]; intros index F w Hbusy Hidle HF;
    [lia |].
  cbn [omap_test_timeout_from].
  unfold bind at 1. unfold bind at 1.
  rewrite (voltdm_read_ok d rd _ w d_read). cbv beta iota. unfold ret at 1.
  destruct F as [| F].
  - unfold idle_at_poll in Hidle. cbn [after_busy_polls] in Hidle.
    rewrite Hidle. unfold ret. eexists. rewrite Nat.add_0_r.
    split; reflexivity.
  - assert (Hb : idle_at_poll rd (vstatus vpi) (vstatus_vpidle (common vpi)) 0
                   (w_env w) = false) by (apply Hbusy; lia).
    unfold idle_at_poll in Hb. cbn [after_busy_polls] in Hb. rewrite Hb.
    unfold bind at 1. rewrite udelay_as_advance, advance_advance.
    cbn [w_env advance].
    match goal with
    | |- context [omap_test_timeout_from _ _ _ _ ?w1] =>
        destruct (IH (S index) F w1) as (evs & Hrun & Hq)
    end.
    + intros i Hi.
      change (idle_at_poll rd (vstatus vpi) (vstatus_vpidle (common vpi)) (S i)
                (w_env w) = false).
      apply Hbusy. lia.
    + exact Hidle.
    + lia.
    + rewrite Hrun, advance_advance. eexists.
      split; [f_equal; lia |]. cbn [app forallb is_idle_wait_event andb].
      exact Hq.
Qed.

Lemma wait_for_idle_found (K : nat) (w : world) :
  idle_at_read rd (vstatus vpi) (vstatus_vpidle (common vpi)) K (w_env w) ->
  (K <= VP_IDLE_TIMEOUT)%nat ->
  exists evs,
    _vp_wait_for_idle d vpi w =
      Ret 0 (advance w (after_idle_wait rd (vstatus vpi) K (w_env w)) evs)
    /\ forallb is_idle_wait_event evs = true.
Proof using d_read.
  intros (HK & Hbusy & Hidle) Hle.
  unfold _vp_wait_for_idle, omap_test_timeout.
  destruct (idle_poll_found VP_IDLE_TIMEOUT 0 (K - 1) w Hbusy Hidle ltac:(lia))
    as (evs & Hrun & Hq).
  rewrite (bind_Ret _ _ _ _ _ Hrun). cbn [Nat.add].
  destruct (Nat.leb_spec VP_IDLE_TIMEOUT (K - 1)) as [Hto | _]; [lia |].
  exists evs. split; [reflexivity | exact Hq].
Qed.

(** The clear loop when attempt [k + 1] is the first to leave the status
    clear: its counter, its attempts and what its checks found. *)
Lemma txdone_clear_loop_at (remaining : nat) :
  forall (timeout k : nat) (w : world),
    (forall i, (i < k)%nat -> pending_after_clear vpi i (w_env w) = true) ->
    pending_after_clear vpi k (w_env w) = false ->
    (k < remaining)%nat ->
    exists w' evs,
      txdone_clear_loop vpi remaining timeout w = Ret (timeout + k + 1)%nat w'
      /\ trace w' = trace w ++ evs
      /\ forallb is_poll_event evs = true
      /\ List.length (clear_attempts evs) = S k
      /\ txdone_checks evs = repeat true k ++ [false].
Proof using Type.
  induction remaining as [| remaining IH]; intros timeout k w Hpend Hclr Hk;
    [lia |].
  cbn [txdone_clear_loop].
  unfold bind at 1. unfold vp_clear_txdone at 1. cbv beta iota.
  unfold bind at 1. rewrite vp_check_txdone_ok. cbn [w_env log_event set_env].
  destruct k as [| k].
  - unfold pending_after_clear in Hclr. cbn [after_failed_clears] in Hclr.
    rewrite Hclr. cbn [negb]. unfold ret. eexists _, _.
    split; [f_equal; lia |]. cbn [trace advance log_event set_env].
    rewrite <- !app_assoc. split; [reflexivity |]. now repeat split.
  - assert (H0 : pending_after_clear vpi 0 (w_env w) = true) by (apply Hpend; lia).
    unfold pending_after_clear in H0. cbn [after_failed_clears] in H0.
    rewrite H0. cbn [negb]. unfold bind at 1. unfold udelay at 1. cbv beta iota.
    match goal with
    | |- context [txdone_clear_loop _ _ _ ?w1] =>
        destruct (IH (S timeout) k w1)
          as (w' & evs & Hrun & Htr & Hq & Hc & Hchk)
    end.
    + intros i Hi. change (pending_after_clear vpi (S i) (w_env w) = true).
      apply Hpend. lia.
    + exact Hclr.
    + lia.
    + exists w'. eexists. split; [rewrite Hrun; f_equal; lia |].
      rewrite Htr. cbn [trace advance log_event set_env].
      rewrite <- !app_assoc. split; [reflexivity |].
      cbn. fold (clear_attempts evs). fold (txdone_checks evs).
      rewrite Hq, Hc, Hchk. now repeat split.
Qed.

(** C1, where the code departs from it: a scale whose transaction-done
    status is still pending after each of the first
    [VP_TRANXDONE_TIMEOUT - 1] clear attempts of step 4 and is cleared by the
    last permitted one is aborted all the same.  The loop counter, which is
    incremented before each attempt, has then reached the bound, and the
    check after the loop compares it with [>=].  On a domain with a VP and
    both accessors, whose VP shows idle at read [K] within the idle budget and
    whose pre-scale hook succeeds, [omap_vp_forceupdate_scale] returns
    -ETIMEDOUT after the pre-scale call and [VP_TRANXDONE_TIMEOUT] clear
    attempts, the check after the last of them having found the status
    clear: it reports an exceeded timeout, writes no register and does not call
    the post-scale hook. *)
Theorem forceupdate_scale_aborts_cleared_status (tv : omap_volt_data)
    (w : world) (K : nat) :
  (forall e, recover (ops (common vpi)) <> ErrPtr e) ->
  idle_at_read rd (vstatus vpi) (vstatus_vpidle (common vpi)) K (w_env w) ->
  (K <= VP_IDLE_TIMEOUT)%nat ->
  fst (fst (fst (omap_vc_pre_scale_env d (omap_get_operation_voltage tv) tv
                   (after_idle_wait rd (vstatus vpi) K (w_env w))))) = 0 ->
  (1 <= VP_TRANXDONE_TIMEOUT)%nat ->
  (forall i, (i < VP_TRANXDONE_TIMEOUT - 1)%nat ->
     pending_after_clear vpi i
       (before_clear_loop d rd (vstatus vpi) K tv (w_env w)) = true) ->
  pending_after_clear vpi (VP_TRANXDONE_TIMEOUT - 1)
    (before_clear_loop d rd (vstatus vpi) K tv (w_env w)) = false ->
  exists w' evs,
    omap_vp_forceupdate_scale (Ptr d) (Ptr tv) w = Ret (- ETIMEDOUT) w'
    /\ trace w' = trace w ++ evs
    /\ hook_calls evs = [EvPreScale (omap_get_operation_voltage tv) tv 0]
    /\ List.length (clear_attempts evs) = VP_TRANXDONE_TIMEOUT
    /\ txdone_checks evs = repeat true (VP_TRANXDONE_TIMEOUT - 1) ++ [false]
    /\ reg_writes evs = []
    /\ post_scale_calls evs = []
    /\ err_reports evs = [msg_tranxdone_aborted].
Proof using d_vp d_read d_write.
  intros Hrec Hidle HK Hpre HT Hpend Hclr.
  destruct (wait_for_idle_found K w Hidle HK) as (evs1 & Hrun1 & Hq1).
  unfold before_clear_loop in Hpend, Hclr.
  set (volt := omap_get_operation_voltage tv) in *.
  set (e1 := after_idle_wait rd (vstatus vpi) K (w_env w)) in *.
  set (T := VP_TRANXDONE_TIMEOUT) in *.
  destruct (omap_vc_pre_scale_env d volt tv e1) as [[[r tvsel] cvsel] e2] eqn:Epre.
  cbn [fst snd] in Hpre, Hpend, Hclr. subst r.
  assert (Hrun2 : exists w2,
            omap_vc_pre_scale d volt tv (advance w e1 evs1)
              = Ret (0, tvsel, cvsel) w2
            /\ w_env w2 = e2
            /\ trace w2 = trace w ++ evs1 ++ [EvPreScale volt tv 0]).
  { unfold omap_vc_pre_scale. cbn [w_env advance]. rewrite Epre.
    eexists. split; [reflexivity |]. split; [reflexivity |].
    cbn. now rewrite app_assoc. }
  destruct Hrun2 as (w2 & Hrun2 & Hw2 & Htr2). rewrite <- Hw2 in Hpend, Hclr.
  destruct (txdone_clear_loop_at T 0 (T - 1) w2 Hpend Hclr ltac:(lia))
    as (w3 & evs4 & Hrun4 & Htr4 & Hq4 & Hc4 & Hchk4).
  destruct (controlled_err_run d vpi msg_tranxdone_aborted w3 Hrec eq_refl)
    as (w' & evs5 & Hrun5 & Htr5 & Hw5 & Hp5 & He5 & _ & Hc5).
  destruct (controlled_err_frame vpi d msg_tranxdone_aborted w3 Hrec)
    as (w'' & evs5' & Hrun5' & Htr5' & Hq5 & _).
  rewrite Hrun5 in Hrun5'. injection Hrun5' as <-.
  rewrite Htr5 in Htr5'. apply app_inv_head in Htr5'. subst evs5'.
  exists w', (evs1 ++ [EvPreScale volt tv 0] ++ evs4 ++ evs5). split.
  - unfold omap_vp_forceupdate_scale. cbn [IS_ERR_OR_NULL deref].
    rewrite bind_ret. cbv beta. rewrite d_write, d_vp.
    cbn [IS_ERR_OR_NULL deref]. exec_ret. cbv zeta.
    rewrite (bind_Ret _ _ _ _ _ Hrun1).
    change (negb (0 =? 0)) with false. cbv iota.
    rewrite (bind_Ret _ _ _ _ _ Hrun2). cbv beta iota zeta.
    change (negb (0 =? 0)) with false. cbv iota.
    rewrite (bind_Ret _ _ _ _ _ Hrun4).
    assert (Hb : (T <=? 0 + (T - 1) + 1)%nat = true) by (apply Nat.leb_le; lia).
    fold T. rewrite Hb.
    rewrite (bind_Ret _ _ _ _ _ Hrun5). reflexivity.
  - destruct (idle_wait_events_inert _ Hq1) as (Hw1 & Hpre1 & Hpost1 & Hc1 & He1 & _).
    destruct (poll_events_quiet _ Hq4) as (Hw4 & Hpost4 & He4).
    destruct (poll_events_no_hook _ Hq4) as (Hpre4 & _).
    destruct (report_events_inert _ Hq5) as (_ & _ & Hpre5 & _).
    split; [rewrite Htr5, Htr4, Htr2, <- !app_assoc; reflexivity |].
    rewrite !hook_calls_app, !clear_attempts_app, !txdone_checks_app,
      !reg_writes_app, !post_scale_calls_app, !err_reports_app.
    rewrite (no_hook_calls _ Hpre1 Hpost1), (no_hook_calls _ Hpre4 Hpost4),
      (no_hook_calls _ Hpre5 Hp5).
    rewrite (idle_wait_events_no_check _ Hq1), (report_events_no_check _ Hq5).
    rewrite Hw1, Hpost1, Hc1, He1, Hw4, Hpost4, He4, Hc5, Hw5, Hp5, He5, Hchk4.
    rewrite !List.length_app, Hc4. cbn. rewrite !app_nil_r.
    repeat split; lia.
Qed.

End ConfiguredVp.
(** ** The error gain *)

(** X13: with a read-modify-write accessor and an 8-bit error-gain field at bit
    [k], [omap_vp_update_errorgain] performs one read-modify-write of the
    configuration register, with the field's mask and with the error gain of
    the voltage data shifted into the field (no bit outside it), and returns
    0. *)
Theorem update_errorgain_programs_field (d : voltagedomain)
    (vpi : omap_vp_instance) (vd : omap_volt_data)
    (f : Z -> Z -> Z -> env -> Z * env) (k : Z) (w : world) :
  vp d = Ptr vpi ->
  rmw d = Ptr f ->
  0 <= k -> k + 8 <= 32 ->
  vpconfig_errorgain_mask (common vpi) = Z.shiftl 255 k ->
  0 <= vp_errgain vd < 256 ->
  let mask := vpconfig_errorgain_mask (common vpi) in
  let bits := Z.shiftl (vp_errgain vd) k in
  omap_vp_update_errorgain (Ptr d) (Ptr vd) w =
    Ret 0
      (advance w (snd (f mask bits (vpconfig vpi) (w_env w)))
         [EvRmw mask bits (vpconfig vpi)])
  /\ Z.land bits (Z.lnot mask) = 0
  /\ (forall j, 0 <= j < 8 -> Z.testbit bits (j + k) = Z.testbit (vp_errgain vd) j).
Proof.
  intros Hvp Hrmw Hk Hk8 Hmask Hgain mask bits.
  assert (Hhigh : forall j, 8 <= j -> Z.testbit (vp_errgain vd) j = false).
  { intros j Hj. rewrite <- (Z.mod_small (vp_errgain vd) (2 ^ 8)) by exact Hgain.
    apply Z.mod_pow2_bits_high. lia. }
  split; [| split].
  - unfold omap_vp_update_errorgain. cbn [IS_ERR_OR_NULL deref].
    rewrite bind_ret. cbv beta. rewrite Hvp, Hrmw.
    cbn [is_null IS_ERR_OR_NULL deref]. exec_ret.
    fold mask. unfold mask at 2. rewrite Hmask.
    rewrite (ffs_shiftl_odd 255 k) by (lia || reflexivity).
    assert (Hsh : shl32 (vp_errgain vd) k = bits).
    { unfold shl32. apply u32_small. subst bits.
      rewrite Z.shiftl_mul_pow2 by lia. split; [nia |].
      apply Z.lt_le_trans with (2 ^ 8 * 2 ^ k).
      - apply Z.mul_lt_mono_pos_r; [apply Z.pow_pos_nonneg; lia | lia].
      - rewrite <- Z.pow_add_r by lia. apply Z.pow_le_mono_r; lia. }
    rewrite Hsh. unfold voltdm_rmw. rewrite Hrmw. cbn [deref].
    rewrite bind_ret. unfold bind.
    destruct (f mask bits (vpconfig vpi) (w_env w)) as [v e]. reflexivity.
  - apply Z.bits_inj'. intros j Hj. rewrite Z.bits_0, Z.land_spec, Z.lnot_spec
      by exact Hj. subst mask bits. rewrite Hmask, field_mask_testbit by exact Hk.
    rewrite Z.shiftl_spec by exact Hj.
    destruct (Z.leb_spec k j) as [Hle | Hgt]; cbn [andb].
    + destruct (Z.ltb_spec j (k + 8)) as [Hlt | Hge]; cbn [negb].
      * apply andb_false_r.
      * rewrite Hhigh by lia. reflexivity.
    + rewrite Z.testbit_neg_r by lia. reflexivity.
  - intros j Hj. subst bits. rewrite Z.shiftl_spec by lia.
    f_equal. lia.
Qed.

(** ** The verbosity budget and the shared recovery counter *)

Lemma stack_dumps_app (a b : list event) :
  stack_dumps (a ++ b) = stack_dumps a ++ stack_dumps b.
Proof. apply filter_app. Qed.

Lemma ratelimited_errors_app (a b : list event) :
  ratelimited_errors (a ++ b) = ratelimited_errors a ++ ratelimited_errors b.
Proof. apply filter_app. Qed.

(** One routed error and the message budget [c]: a stack dump and one
    unit of budget while it lasts, a rate-limited message afterwards. *)
Lemma controlled_err_budget_step (vp : omap_vp_instance)
    (voltdm : voltagedomain) (msg : string) (w : world) :
  (forall e, recover (ops (common vp)) <> ErrPtr e) ->
  0 <= __vp_debug_error_message_count w < 256 ->
  let c := __vp_debug_error_message_count w in
  exists w' evs,
    _vp_controlled_err vp voltdm msg w = Ret tt w'
    /\ trace w' = trace w ++ evs
    /\ List.length (stack_dumps evs) = (if c =? 0 then 0%nat else 1%nat)
    /\ List.length (ratelimited_errors evs) = (if c =? 0 then 1%nat else 0%nat)
    /\ __vp_debug_error_message_count w' = (if c =? 0 then 0 else c - 1).
Proof.
  intros Hrec Hc c. unfold _vp_controlled_err.
  assert (Hu8 : u8 (c - 1) = if c =? 0 then u8 (c - 1) else c - 1).
  { destruct (Z.eqb_spec c 0); [reflexivity |].
    unfold u8. apply Z.mod_small. subst c. lia. }
  destruct (recover (ops (common vp))) as [| e | f] eqn:Erec;
    [| now contradiction (Hrec e) |]; cbn [is_null].
  - unfold bind at 1. fold c.
    destruct (Z.eqb_spec c 0) as [E | NE]; cbn [negb].
    + do 2 eexists. split; [reflexivity |]. cbn. rewrite <- ?app_assoc.
      split; [reflexivity |]. fold c. rewrite E. now repeat split.
    + do 2 eexists. split; [reflexivity |]. cbn. rewrite <- ?app_assoc.
      split; [reflexivity |]. fold c.
      destruct (Z.eqb_spec c 0); [contradiction |].
      rewrite Hu8 at 1. destruct (Z.eqb_spec c 0); [contradiction |].
      now repeat split.
  - unfold bind at 1. fold c.
    destruct (Z.eqb_spec c 0) as [E | NE]; cbn [negb]; cbn;
      match goal with
      | |- context [if ?x =? 0 then _ else _] =>
          match x with
          | u8 (__vp_recover_count _ - 1) => destruct (x =? 0)
          end
      end;
      (do 2 eexists; split; [reflexivity |]; cbn; rewrite <- ?app_assoc;
       split; [reflexivity |]; fold c;
       try rewrite E;
       try (destruct (Z.eqb_spec c 0); [contradiction |]);
       try (rewrite Hu8 at 1; destruct (Z.eqb_spec c 0); [contradiction |]);
       now repeat split).
Qed.

(** X14: the first errors routed through [_vp_controlled_err] are logged with a
    stack dump, each using up one unit of the message budget; once the budget
    is used up it stays at zero and every further error is logged
    rate-limited, without stack dump.  After [n] errors from a budget [c],
    [min n c] stack dumps were made and the budget is [c - min n c]. *)
Theorem verbose_error_budget (vp : omap_vp_instance) (voltdm : voltagedomain)
    (msg : string) :
  (forall e, recover (ops (common vp)) <> ErrPtr e) ->
  forall (n : nat) (w : world),
    0 <= __vp_debug_error_message_count w < 256 ->
    let c := __vp_debug_error_message_count w in
    exists w' evs,
      routed_errors vp voltdm msg n w = Ret tt w'
      /\ trace w' = trace w ++ evs
      /\ Z.of_nat (List.length (stack_dumps evs)) = Z.min (Z.of_nat n) c
      /\ Z.of_nat (List.length (ratelimited_errors evs))
         = Z.of_nat n - Z.min (Z.of_nat n) c
      /\ __vp_debug_error_message_count w' = c - Z.min (Z.of_nat n) c.
Proof.
  intros Hrec. induction n as [| n IH]; intros w Hc c.
  - exists w, []. cbn [routed_errors]. rewrite app_nil_r. cbn.
    repeat split; try reflexivity; lia.
  - cbn [routed_errors].
    destruct (controlled_err_budget_step vp voltdm msg w Hrec Hc)
      as (w1 & evs1 & Hrun1 & Htr1 & Hd1 & Hr1 & Hc1).
    cbv zeta in Hd1, Hr1, Hc1. fold c in Hd1, Hr1, Hc1.
    rewrite (bind_Ret _ _ _ _ _ Hrun1).
    assert (Hc1' : 0 <= __vp_debug_error_message_count w1 < 256)
      by (rewrite Hc1; destruct (Z.eqb_spec c 0); subst c; lia).
    destruct (IH w1 Hc1') as (w' & evs & Hrun & Htr & Hd & Hr & Hcnt).
    cbv zeta in Hd, Hr, Hcnt. rewrite Hc1 in Hd, Hr, Hcnt.
    exists w', (evs1 ++ evs). split; [exact Hrun |].
    split; [rewrite Htr, Htr1, app_assoc; reflexivity |].
    rewrite stack_dumps_app, ratelimited_errors_app, !List.length_app,
      !Nat2Z.inj_add, Hd, Hr, Hd1, Hr1, Hcnt.
    destruct (Z.eqb_spec c 0) as [E | NE]; cbn [Z.of_nat]; subst c; lia.
Qed.


(** ** The n-value tables of sr_device.c *)

Lemma set_env_same (w : world) : set_env (w_env w) w = w.
Proof. now destruct w. Qed.

Lemma kept_nvalues_length (value offs limit : sr_volt_data -> Z)
    (entries : list sr_volt_data) :
  (List.length (kept_nvalues value offs limit entries) <= List.length entries)%nat.
Proof.
  unfold kept_nvalues.
  induction entries as [| vd rest IH]; cbn [flat_map List.length]; [lia |].
  destruct (value vd =? 0); cbn [app List.length]; lia.
Qed.

Lemma kept_nvalues_nonzero (value offs limit : sr_volt_data -> Z)
    (entries : list sr_volt_data) :
  Forall (fun e => nvalue e <> 0) (kept_nvalues value offs limit entries).
Proof.
  unfold kept_nvalues.
  induction entries as [| vd rest IH]; cbn [flat_map]; [constructor |].
  destruct (Z.eqb_spec (value vd) 0) as [E | NE]; cbn [app]; [exact IH |].
  constructor; [exact NE | exact IH].
Qed.

Lemma count_volt_data_terminated (entries : list sr_volt_data)
    (terminator : sr_volt_data) (rest : list sr_volt_data) :
  Forall (fun vd => volt_nominal (vdata vd) <> 0) entries ->
  volt_nominal (vdata terminator) = 0 ->
  forall (count : nat) (w : world),
    count_volt_data (entries ++ terminator :: rest) count w
      = Ret (count + List.length entries)%nat w.
Proof.
  intros Hnz Hterm. induction Hnz as [| vd entries Hvd _ IH]; intros count w.
  - cbn. rewrite Hterm. cbn. unfold ret. f_equal. lia.
  - cbn [app count_volt_data].
    destruct (Z.eqb_spec (volt_nominal (vdata vd)) 0); [contradiction |].
    rewrite IH. f_equal. cbn [List.length]. lia.
Qed.

Lemma store_nvalue_next (update : omap_sr_nvalue_table -> omap_sr_nvalue_table)
    (filled : list omap_sr_nvalue_table) (e : omap_sr_nvalue_table)
    (rest : list omap_sr_nvalue_table) (w : world) :
  store_nvalue (List.length filled) update (filled ++ e :: rest) w
    = Ret (filled ++ update e :: rest) w.
Proof.
  induction filled as [| x filled IH]; cbn [List.length app store_nvalue].
  - reflexivity.
  - rewrite (bind_Ret _ _ _ _ _ IH). reflexivity.
Qed.

Section SmartReflexTables.

Variable cpu_is_omap44xx : bool.
Variable omap_ctrl_readb_env : Z -> env -> Z * env.
Variable omap_ctrl_readl_env : Z -> env -> Z * env.
Variable kzalloc_env : Z -> env -> bool * env.
Variable sizeof_omap_sr_nvalue_table : Z.

(** The efuse registers hold constants: reading them leaves the devices as
    they are. *)
Variable efuse_byte : Z -> Z.
Variable efuse_word : Z -> Z.
Hypothesis readb_efuse :
  forall offset e, omap_ctrl_readb_env offset e = (efuse_byte offset, e).
Hypothesis readl_efuse :
  forall offset e, omap_ctrl_readl_env offset e = (efuse_word offset, e).

Local Abbreviation sr_value :=
  (sr_efuse_value cpu_is_omap44xx efuse_byte efuse_word).
Local Abbreviation lvt_value := (lvt_efuse_value efuse_word).

Lemma omap_ctrl_readb_pure (offset : Z) (w : world) :
  omap_ctrl_readb omap_ctrl_readb_env offset w
    = Ret (u8 (efuse_byte (u16 offset))) w.
Proof using readb_efuse.
  unfold omap_ctrl_readb. rewrite readb_efuse. now rewrite set_env_same.
Qed.

Lemma omap_ctrl_readl_pure (offset : Z) (w : world) :
  omap_ctrl_readl omap_ctrl_readl_env offset w
    = Ret (u32 (efuse_word (u16 offset))) w.
Proof using readl_efuse.
  unfold omap_ctrl_readl. rewrite readl_efuse. now rewrite set_env_same.
Qed.

Lemma repeat_cons_app {A : Type} (x : A) (n : nat) (l : list A) :
  (0 < n)%nat -> l ++ repeat x n = l ++ x :: repeat x (n - 1).
Proof using Type.
  intros Hn. destruct n as [| n]; [lia |]. cbn [repeat].
  now replace (S n - 1)%nat with n by lia.
Qed.

Lemma sr_set_nvalues_from_pure (entries : list sr_volt_data) :
  forall (filled : list omap_sr_nvalue_table) (n : nat) (w : world),
    (List.length entries <= n)%nat ->
    let kept := kept_nvalues sr_value sr_efuse_offs sr_errminlimit entries in
    sr_set_nvalues_from cpu_is_omap44xx omap_ctrl_readb_env omap_ctrl_readl_env
      entries (filled ++ repeat zeroed_nvalue n) (List.length filled) w =
      Ret (filled ++ kept ++ repeat zeroed_nvalue (n - List.length kept),
           (List.length filled + List.length kept)%nat) w.
Proof using readb_efuse readl_efuse.
  induction entries as [| vd rest IH]; intros filled n w Hn; cbv zeta.
  - cbn [sr_set_nvalues_from kept_nvalues flat_map List.length app].
    unfold ret. now rewrite Nat.sub_0_r, Nat.add_0_r.
  - cbn [sr_set_nvalues_from].
    assert (Hread :
      (if cpu_is_omap44xx
       then
        let offset := u16 (sr_efuse_offs vd) in
        b0 <- omap_ctrl_readb omap_ctrl_readb_env offset ;;
        b1 <- omap_ctrl_readb omap_ctrl_readb_env (offset + 1) ;;
        b2 <- omap_ctrl_readb omap_ctrl_readb_env (offset + 2) ;;
        ret (u32 (Z.lor (Z.lor b0 (Z.shiftl b1 8)) (Z.shiftl b2 16)))
       else omap_ctrl_readl omap_ctrl_readl_env (sr_efuse_offs vd)) w
      = Ret (sr_value vd) w).
    { unfold sr_value. destruct cpu_is_omap44xx.
      - cbv zeta.
        rewrite (bind_Ret _ _ _ _ _ (omap_ctrl_readb_pure _ w)).
        rewrite (bind_Ret _ _ _ _ _ (omap_ctrl_readb_pure _ w)).
        rewrite (bind_Ret _ _ _ _ _ (omap_ctrl_readb_pure _ w)).
        reflexivity.
      - apply omap_ctrl_readl_pure. }
    rewrite (bind_Ret _ _ _ _ _ Hread).
    cbn [kept_nvalues flat_map]. cbn [List.length] in Hn.
    fold (kept_nvalues sr_value sr_efuse_offs sr_errminlimit rest).
    pose proof (kept_nvalues_length sr_value sr_efuse_offs sr_errminlimit
                  rest) as Hlen.
    destruct (sr_value vd =? 0).
    + cbn [app]. apply IH. lia.
    + rewrite (repeat_cons_app zeroed_nvalue n filled) by lia.
      rewrite (bind_Ret _ _ _ _ _ (store_nvalue_next _ filled _ _ w)).
      set (entry := {| efuse_offs := sr_efuse_offs vd;
                       nvalue := sr_value vd;
                       errminlimit := sr_errminlimit vd;
                       nvalue_volt_nominal := volt_nominal (vdata vd) |}).
      replace (filled ++ entry :: repeat zeroed_nvalue (n - 1))
        with ((filled ++ [entry]) ++ repeat zeroed_nvalue (n - 1))
        by (now rewrite <- app_assoc).
      replace (S (List.length filled)) with (List.length (filled ++ [entry]))
        by (rewrite List.length_app; cbn; lia).
      rewrite IH by lia. cbv zeta. f_equal. f_equal.
      * rewrite <- !app_assoc. cbn [app List.length].
        now replace (n - 1 - List.length
                               (kept_nvalues sr_value sr_efuse_offs
                                  sr_errminlimit rest))%nat
          with (n - S (List.length
                         (kept_nvalues sr_value sr_efuse_offs
                            sr_errminlimit rest)))%nat by lia.
      * rewrite List.length_app. cbn [app List.length]. lia.
Qed.

Lemma lvt_sr_set_nvalues_from_pure (entries : list sr_volt_data) :
  forall (filled : list omap_sr_nvalue_table) (n : nat) (w : world),
    (List.length entries <= n)%nat ->
    let kept := kept_nvalues lvt_value lvt_sr_efuse_offs (fun _ => 0)
                  entries in
    lvt_sr_set_nvalues_from omap_ctrl_readl_env entries
      (filled ++ repeat zeroed_nvalue n) (List.length filled) w =
      Ret (filled ++ kept ++ repeat zeroed_nvalue (n - List.length kept),
           (List.length filled + List.length kept)%nat) w.
Proof using readl_efuse.
  induction entries as [| vd rest IH]; intros filled n w Hn; cbv zeta.
  - cbn [lvt_sr_set_nvalues_from kept_nvalues flat_map List.length app].
    unfold ret. now rewrite Nat.sub_0_r, Nat.add_0_r.
  - cbn [lvt_sr_set_nvalues_from].
    rewrite (bind_Ret _ _ _ _ _ (omap_ctrl_readl_pure _ w)).
    fold (lvt_value vd).
    cbn [kept_nvalues flat_map]. cbn [List.length] in Hn.
    fold (kept_nvalues lvt_value lvt_sr_efuse_offs (fun _ => 0) rest).
    pose proof (kept_nvalues_length lvt_value lvt_sr_efuse_offs
                  (fun _ => 0) rest) as Hlen.
    destruct (lvt_value vd =? 0).
    + cbn [app]. apply IH. lia.
    + rewrite (repeat_cons_app zeroed_nvalue n filled) by lia.
      rewrite (bind_Ret _ _ _ _ _ (store_nvalue_next _ filled _ _ w)).
      cbn [errminlimit zeroed_nvalue].
      set (entry := {| efuse_offs := lvt_sr_efuse_offs vd;
                       nvalue := lvt_value vd;
                       errminlimit := 0;
                       nvalue_volt_nominal := volt_nominal (vdata vd) |}).
      replace (filled ++ entry :: repeat zeroed_nvalue (n - 1))
        with ((filled ++ [entry]) ++ repeat zeroed_nvalue (n - 1))
        by (now rewrite <- app_assoc).
      replace (S (List.length filled)) with (List.length (filled ++ [entry]))
        by (rewrite List.length_app; cbn; lia).
      rewrite IH by lia. cbv zeta. f_equal. f_equal.
      * rewrite <- !app_assoc. cbn [app List.length].
        now replace (n - 1 - List.length
                               (kept_nvalues lvt_value lvt_sr_efuse_offs
                                  (fun _ => 0%Z) rest))%nat
          with (n - S (List.length
                         (kept_nvalues lvt_value lvt_sr_efuse_offs
                            (fun _ => 0%Z) rest)))%nat by lia.
      * rewrite List.length_app. cbn [app List.length]. lia.
Qed.

Lemma firstn_entries (entries : list sr_volt_data) (terminator : sr_volt_data)
    (rest : list sr_volt_data) :
  firstn (List.length entries) (entries ++ terminator :: rest) = entries.
Proof using Type.
  rewrite firstn_app, Nat.sub_diag, firstn_all. cbn [firstn].
  apply app_nil_r.
Qed.

(** X26: [sr_set_nvalues] on a terminated voltage table, when the allocation
    succeeds: the table it leaves holds, in the order of the voltage table,
    one entry for each voltage whose efuse value is not zero, with that value,
    the voltage's efuse offset, error limit and nominal voltage; the voltages
    with a zero efuse value are left out, and [nvalue_count] is the number of
    entries kept (at most the number of voltages).  The rest of the allocated
    array stays zero, and the LVT fields are not touched. *)
Theorem sr_set_nvalues_keeps_fused (volt_data entries : list sr_volt_data)
    (sr_data : omap_sr_data) (w : world) (e1 : env) :
  terminated_table volt_data entries ->
  kzalloc_env
    (u32 (sizeof_omap_sr_nvalue_table * Z.of_nat (List.length entries)))
    (w_env w) = (true, e1) ->
  let kept := kept_nvalues sr_value sr_efuse_offs sr_errminlimit entries in
  sr_set_nvalues cpu_is_omap44xx omap_ctrl_readb_env omap_ctrl_readl_env
    kzalloc_env sizeof_omap_sr_nvalue_table volt_data sr_data w =
    Ret {| nvalue_count := Z.of_nat (List.length kept);
           nvalue_table :=
             Ptr (kept
                    ++ repeat zeroed_nvalue
                         (List.length entries - List.length kept));
           lvt_nvalue_count := lvt_nvalue_count sr_data;
           lvt_nvalue_table := lvt_nvalue_table sr_data |}
      (set_env e1 w)
  /\ (List.length kept <= List.length entries)%nat
  /\ Forall (fun e => nvalue e <> 0) kept.
Proof using readb_efuse readl_efuse.
  intros (Hnz & term & rest & Hterm & ->) Halloc kept.
  split; [| split; [apply kept_nvalues_length | apply kept_nvalues_nonzero]].
  unfold sr_set_nvalues. cbv zeta.
  rewrite (bind_Ret _ _ _ _ _
             (count_volt_data_terminated entries term rest Hnz Hterm 0 w)).
  cbn [Nat.add]. unfold kzalloc at 1. unfold bind at 1. rewrite Halloc.
  cbn [negb]. rewrite firstn_entries.
  rewrite (bind_Ret _ _ _ _ _
             (sr_set_nvalues_from_pure entries [] (List.length entries)
                (set_env e1 w) (Nat.le_refl _))).
  reflexivity.
Qed.

(** X27: on OMAP4 the efuse value is put together from three byte reads, least
    significant byte first: it is below 2^24, and it is zero (the voltage is
    left out of the table) exactly when all three bytes are zero. *)
Theorem sr_efuse_value_omap4 (vd : sr_volt_data) :
  cpu_is_omap44xx = true ->
  let offset := u16 (sr_efuse_offs vd) in
  let b0 := u8 (efuse_byte offset) in
  let b1 := u8 (efuse_byte (u16 (offset + 1))) in
  let b2 := u8 (efuse_byte (u16 (offset + 2))) in
  sr_value vd = b0 + 2 ^ 8 * b1 + 2 ^ 16 * b2
  /\ 0 <= sr_value vd < 2 ^ 24
  /\ (sr_value vd = 0 <-> b0 = 0 /\ b1 = 0 /\ b2 = 0)
  /\ forall w,
       sr_set_nvalues_from cpu_is_omap44xx omap_ctrl_readb_env
         omap_ctrl_readl_env [vd] [zeroed_nvalue] 0 w =
         Ret (if sr_value vd =? 0 then ([zeroed_nvalue], 0%nat)
              else ([{| efuse_offs := sr_efuse_offs vd;
                        nvalue := sr_value vd;
                        errminlimit := sr_errminlimit vd;
                        nvalue_volt_nominal := volt_nominal (vdata vd) |}],
                    1%nat)) w.
Proof using readb_efuse readl_efuse.
  intros H44 offset b0 b1 b2.
  assert (H0 : 0 <= b0 < 256) by apply u8_range.
  assert (H1 : 0 <= b1 < 256) by apply u8_range.
  assert (H2 : 0 <= b2 < 256) by apply u8_range.
  assert (Hval : sr_value vd = b0 + 2 ^ 8 * b1 + 2 ^ 16 * b2).
  { unfold sr_value. rewrite H44. cbv zeta. fold offset.
    replace (u16 offset) with offset
      by (subst offset; unfold u16; now rewrite Z.mod_mod).
    fold b0 b1 b2.
    assert (Hd1 : Z.land b0 (Z.shiftl b1 8) = 0).
    { apply Z.bits_inj'. intros j Hj. rewrite Z.bits_0, Z.land_spec.
      destruct (Z.ltb_spec j 8).
      - rewrite Z.shiftl_spec_low by lia. apply andb_false_r.
      - subst b0. now rewrite u8_testbit_high by lia. }
    assert (Hd2 : Z.land (Z.lor b0 (Z.shiftl b1 8)) (Z.shiftl b2 16) = 0).
    { apply Z.bits_inj'. intros j Hj.
      rewrite Z.bits_0, Z.land_spec, Z.lor_spec.
      destruct (Z.ltb_spec j 16).
      - rewrite (Z.shiftl_spec_low b2) by lia. apply andb_false_r.
      - rewrite (Z.shiftl_spec b1) by lia. subst b0 b1.
        now rewrite !u8_testbit_high by lia. }
    rewrite <- (Z.add_0_r (Z.lor (Z.lor _ _) _)), <- Hd2, Z.add_lor_land.
    rewrite <- (Z.add_0_r (Z.lor b0 _)), <- Hd1, Z.add_lor_land.
    rewrite !Z.shiftl_mul_pow2 by lia.
    change (2 ^ 8) with 256. change (2 ^ 16) with 65536.
    rewrite u32_small; [lia |]. change (2 ^ 32) with 4294967296. lia. }
  split; [exact Hval |]. rewrite Hval.
  change (2 ^ 8) with 256. change (2 ^ 16) with 65536.
  change (2 ^ 24) with 16777216.
  split; [lia |]. split; [lia |].
  intros w.
  pose proof (sr_set_nvalues_from_pure [vd] [] 1 w (Nat.le_refl _)) as Hrun.
  cbv zeta in Hrun. cbn [app repeat List.length Nat.add] in Hrun.
  rewrite Hrun. unfold kept_nvalues. cbn [flat_map app].
  rewrite Hval. change (2 ^ 8) with 256. change (2 ^ 16) with 65536.
  destruct (b0 + 256 * b1 + 65536 * b2 =? 0); reflexivity.
Qed.

(** X28: when the allocation fails, both table builders log an error and read
    no efuse.  [sr_set_nvalues] then leaves an empty table (NULL, count 0);
    [lvt_sr_set_nvalues] leaves the data as it found them, an earlier LVT
    table included. *)
Theorem nvalue_tables_allocation_failure (volt_data entries : list sr_volt_data)
    (sr_data : omap_sr_data) (w : world) (e1 : env) :
  terminated_table volt_data entries ->
  kzalloc_env
    (u32 (sizeof_omap_sr_nvalue_table * Z.of_nat (List.length entries)))
    (w_env w) = (false, e1) ->
  sr_set_nvalues cpu_is_omap44xx omap_ctrl_readb_env omap_ctrl_readl_env
    kzalloc_env sizeof_omap_sr_nvalue_table volt_data sr_data w =
    Ret {| nvalue_count := 0; nvalue_table := NullPtr;
           lvt_nvalue_count := lvt_nvalue_count sr_data;
           lvt_nvalue_table := lvt_nvalue_table sr_data |}
      (advance w e1
         [EvLog KERN_ERR
            "OMAP: SmartReflex: cannot allocate memory for n-value table"])
  /\ lvt_sr_set_nvalues omap_ctrl_readl_env kzalloc_env
       sizeof_omap_sr_nvalue_table volt_data sr_data w =
       Ret sr_data
         (advance w e1
            [EvLog KERN_ERR "%s: cannot allocate memory for LVT table"]).
Proof using Type.
  intros (Hnz & term & rest & Hterm & ->) Halloc.
  unfold sr_set_nvalues, lvt_sr_set_nvalues. cbv zeta.
  rewrite !(bind_Ret _ _ _ _ _
              (count_volt_data_terminated entries term rest Hnz Hterm 0 w)).
  cbn [Nat.add]. unfold kzalloc. unfold bind. rewrite Halloc.
  cbn [negb]. split; reflexivity.
Qed.

(** X29: [lvt_sr_set_nvalues] on a terminated voltage table, when the allocation
    succeeds: the LVT table holds one entry for each voltage whose LVT efuse
    value is not zero, in order, with an error limit of zero (the limits are
    not populated); a warning with a stack dump is raised exactly when no
    voltage has an LVT efuse value; the n-value table built before is not
    touched. *)
Theorem lvt_sr_set_nvalues_keeps_fused (volt_data entries : list sr_volt_data)
    (sr_data : omap_sr_data) (w : world) (e1 : env) :
  terminated_table volt_data entries ->
  kzalloc_env
    (u32 (sizeof_omap_sr_nvalue_table * Z.of_nat (List.length entries)))
    (w_env w) = (true, e1) ->
  let kept := kept_nvalues lvt_value lvt_sr_efuse_offs (fun _ => 0)
                entries in
  lvt_sr_set_nvalues omap_ctrl_readl_env kzalloc_env
    sizeof_omap_sr_nvalue_table volt_data sr_data w =
    Ret {| nvalue_count := nvalue_count sr_data;
           nvalue_table := nvalue_table sr_data;
           lvt_nvalue_count := Z.of_nat (List.length kept);
           lvt_nvalue_table :=
             Ptr (kept
                    ++ repeat zeroed_nvalue
                         (List.length entries - List.length kept)) |}
      (advance w e1
         (match kept with
          | [] => [EvLog KERN_WARNING "NO efuses available on silicon for LVT???";
                   EvDumpStack]
          | _ :: _ => []
          end))
  /\ Forall (fun e => nvalue e <> 0 /\ errminlimit e = 0) kept.
Proof using readl_efuse.
  intros (Hnz & term & rest & Hterm & ->) Halloc kept. split.
  - unfold lvt_sr_set_nvalues.
    rewrite (bind_Ret _ _ _ _ _
               (count_volt_data_terminated entries term rest Hnz Hterm 0 w)).
    cbn [Nat.add]. unfold kzalloc at 1. unfold bind at 1. rewrite Halloc.
    cbn [negb]. rewrite firstn_entries.
    rewrite (bind_Ret _ _ _ _ _
               (lvt_sr_set_nvalues_from_pure entries [] (List.length entries)
                  (set_env e1 w) (Nat.le_refl _))).
    cbv zeta. fold kept. cbn [app List.length Nat.add].
    destruct kept as [| x kept']; cbn [List.length Nat.eqb WARN].
    + unfold bind, pr_warning, dump_stack, emit, ret. f_equal.
      unfold advance, log_event, set_env. cbn [trace w_env _prm_bases vp_enabled
        __vp_debug_error_message_count __vp_recover_count].
      now rewrite <- app_assoc.
    + unfold bind, ret. f_equal. unfold advance, set_env.
      cbn [trace w_env _prm_bases vp_enabled __vp_debug_error_message_count
             __vp_recover_count]. now rewrite app_nil_r.
  - subst kept. unfold kept_nvalues. clear.
    induction entries as [| vd rest IH]; cbn [flat_map]; [constructor |].
    destruct (Z.eqb_spec (lvt_value vd) 0); cbn [app]; [exact IH |].
    constructor; [now split | exact IH].
Qed.

End SmartReflexTables.


End Model.

(** * Simulated devices

    A register file with the dynamic behaviour the theorems speak about: a
    reset status bit that comes up a number of polls after the reset line
    is released, a VP that reports idle after a number of status reads, and
    a transaction-done status that resists a number of clear attempts and
    is raised a number of microseconds after a force update (or never). *)
Module Sim.

Record dev : Type := {
  regs : Z -> Z;               (* the registers that just hold their value *)
  rst_polls : nat;             (* status reads left before RSTST shows the bit *)
  busy_polls : nat;            (* VSTATUS reads left before the VP shows idle *)
  txdone : bool;               (* the transaction-done status *)
  sticky_clears : nat;         (* clear attempts that leave it pending *)
  ramp : option nat;           (* microseconds from force update to txdone *)
  ramping : option nat;        (* the same, counting down *)
  table_ready : bool           (* the voltage table knows the current voltage *)
}.

Definition with_regs (f : Z -> Z) (s : dev) : dev :=
  {| regs := f; rst_polls := rst_polls s; busy_polls := busy_polls s;
     txdone := txdone s; sticky_clears := sticky_clears s; ramp := ramp s;
     ramping := ramping s; table_ready := table_ready s |}.

Definition store (addr v : Z) (f : Z -> Z) : Z -> Z :=
  fun a => if a =? addr then v else f a.

(** The PRM window: IVAHD reset control and status. *)
Definition PRM_BASE : Z := 0x4a306000.
Definition IVAHD_INST : Z := 0x0f00.
Definition RSTCTRL_OFFS : Z := 0x10.
Definition IVAHD_RSTCTRL : Z := 0x4a306f10.
Definition IVAHD_RSTST : Z := 0x4a306f14.

(** Reading RSTST shows bit 2 from the [rst_polls]-th read on (the
    read-modify-write that clears the status is the first read). *)
Definition readl (addr : Z) (s : dev) : Z * dev :=
  if addr =? IVAHD_RSTST then
    match rst_polls s with
    | O | S O => (4, s)
    | S n =>
        (0, {| regs := regs s; rst_polls := n; busy_polls := busy_polls s;
               txdone := txdone s; sticky_clears := sticky_clears s;
               ramp := ramp s; ramping := ramping s;
               table_ready := table_ready s |})
    end
  else (regs s addr, s).

Definition writel (v addr : Z) (s : dev) : dev :=
  if addr =? IVAHD_RSTST then s else with_regs (store addr v (regs s)) s.

(** [udelay]: a pending ramp advances by the delay; at its end the
    transaction is done. *)
Definition udelay (us : Z) (s : dev) : dev :=
  match ramping s with
  | Some n =>
      let left := (n - Z.to_nat us)%nat in
      {| regs := regs s; rst_polls := rst_polls s; busy_polls := busy_polls s;
         txdone := if Nat.eqb left 0 then true else txdone s;
         sticky_clears := sticky_clears s; ramp := ramp s;
         ramping := if Nat.eqb left 0 then None else Some left;
         table_ready := table_ready s |}
  | None => s
  end.

(** The five partitions of prcm44xx.h and the polling budget chosen for the
    simulation. *)
Definition MAX_PARTITIONS : Z := 6.
Definition INVALID_PARTITION : Z := 0.
Definition PRM_PARTITION : Z := 1.
Definition SCRM_PARTITION : Z := 4.
Definition PRCM_MPU_PARTITION : Z := 5.
Definition HARDRESET_WAIT : nat := 5.

Definition globals : omap_globals :=
  {| prm := PRM_BASE; prcm_mpu := 0x48243000; scrm := 0x4a30a000 |}.

Definition quiet_dev (f : Z -> Z) : dev :=
  {| regs := f; rst_polls := 0; busy_polls := 0; txdone := false;
     sticky_clears := 0; ramp := Some 0%nat; ramping := None;
     table_ready := true |}.

(** The machine at boot, before [omap4_prm_base_init], and after it. *)
Definition boot (s : dev) : world dev :=
  mkWorld dev s (fun _ => 0) (fun _ => false) _MAX_COUNT_ERR
    _MAX_RETRIES_BEFORE_RECOVER [].

Definition booted (s : dev) : world dev :=
  store_base dev SCRM_PARTITION (scrm globals)
    (store_base dev PRCM_MPU_PARTITION (prcm_mpu globals)
       (store_base dev PRM_PARTITION (prm globals) (boot s))).

Lemma booted_initialized (s : dev) :
  prm_bases_initialized dev PRM_PARTITION PRCM_MPU_PARTITION SCRM_PARTITION
    (_prm_bases dev (booted s)).
Proof.
  apply (bases_after_init dev PRM_PARTITION PRCM_MPU_PARTITION SCRM_PARTITION
           globals (boot s) (booted s)).
  - apply bases_at_boot.
  - reflexivity.
Qed.

Definition prm_read := omap4_prminst_read_inst_reg dev readl MAX_PARTITIONS
                         INVALID_PARTITION.
Definition prm_rmw := omap4_prminst_rmw_inst_reg_bits dev readl writel
                        MAX_PARTITIONS INVALID_PARTITION.
Definition prm_deassert := omap4_prminst_deassert_hardreset dev readl writel
                             udelay MAX_PARTITIONS INVALID_PARTITION
                             HARDRESET_WAIT.

(** All three IVAHD reset lines asserted; the status bit of line 2 comes up
    at the third poll of a deassert. *)
Definition ivahd_in_reset : dev :=
  {| regs := store IVAHD_RSTCTRL 7 (fun _ => 0); rst_polls := 4;
     busy_polls := 0; txdone := false; sticky_clears := 0;
     ramp := Some 0%nat; ramping := None; table_ready := true |}.

(** The partitioned access on the PRM partition of the booted machine
    reads the register at base + inst + idx; on the invalid partition it
    hits the BUG_ON. *)
Lemma prminst_access_fatal_iff_witness :
  prm_read PRM_PARTITION IVAHD_INST RSTCTRL_OFFS (booted ivahd_in_reset)
    = Ret 7
        (log_event dev (EvReadl IVAHD_RSTCTRL 7) (booted ivahd_in_reset))
  /\ prm_read INVALID_PARTITION IVAHD_INST RSTCTRL_OFFS (booted ivahd_in_reset)
       = Bug (booted ivahd_in_reset).
Proof.
  pose proof (prminst_access_fatal_iff dev readl writel MAX_PARTITIONS
                INVALID_PARTITION PRM_PARTITION PRCM_MPU_PARTITION
                SCRM_PARTITION
                ltac:(vm_compute; split; [reflexivity | discriminate])
                ltac:(vm_compute; split; [reflexivity | discriminate])
                ltac:(vm_compute; split; [reflexivity | discriminate])
                (booted ivahd_in_reset) 0 PRM_PARTITION IVAHD_INST RSTCTRL_OFFS)
    as (_ & Hok & Hmapped).
  pose proof (prminst_access_fatal_iff dev readl writel MAX_PARTITIONS
                INVALID_PARTITION PRM_PARTITION PRCM_MPU_PARTITION
                SCRM_PARTITION
                ltac:(vm_compute; split; [reflexivity | discriminate])
                ltac:(vm_compute; split; [reflexivity | discriminate])
                ltac:(vm_compute; split; [reflexivity | discriminate])
                (booted ivahd_in_reset) 0 INVALID_PARTITION IVAHD_INST
                RSTCTRL_OFFS)
    as (Hbug & _ & _).
  split.
  - apply Hok. apply Hmapped.
    + apply booted_initialized.
    + vm_compute. discriminate.
  - apply Hbug. right. left. reflexivity.
Defined.

(** Clearing bit 2 and setting bit 3 of a register holding 7 writes 11. *)
Lemma rmw_inst_reg_bits_spec_witness :
  exists w',
    prm_rmw 4 8 PRM_PARTITION IVAHD_INST RSTCTRL_OFFS (booted ivahd_in_reset)
      = Ret 11 w'
    /\ trace dev w' = [EvReadl IVAHD_RSTCTRL 7; EvWritel 11 IVAHD_RSTCTRL].
Proof.
  destruct (rmw_inst_reg_bits_spec dev readl writel MAX_PARTITIONS
              INVALID_PARTITION (booted ivahd_in_reset) 4 8 PRM_PARTITION
              IVAHD_INST RSTCTRL_OFFS eq_refl) as (w' & Hrun & Htr & _).
  exists w'. split; [exact Hrun | exact Htr].
Defined.

(** With the control register at 3, line 2 is not asserted: -EEXIST after
    one read. *)
Definition ivahd_line2_released : dev :=
  quiet_dev (store IVAHD_RSTCTRL 3 (fun _ => 0)).

Lemma deassert_already_deasserted_witness :
  exists w',
    prm_deassert 2 PRM_PARTITION IVAHD_INST RSTCTRL_OFFS
      (booted ivahd_line2_released) = Ret (- EEXIST) w'
    /\ trace dev w' = [EvReadl IVAHD_RSTCTRL 3]
    /\ reg_writes (trace dev w') = [].
Proof.
  destruct (deassert_already_deasserted dev readl writel udelay MAX_PARTITIONS
              INVALID_PARTITION HARDRESET_WAIT (booted ivahd_line2_released) 2
              PRM_PARTITION IVAHD_INST RSTCTRL_OFFS eq_refl
              ltac:(lia) eq_refl) as (w' & Hrun & Htr & Hwr & _).
  exists w'. split; [exact Hrun |]. split; [exact Htr | exact Hwr].
Defined.

(** The status bit comes up at the third of five polls: success, after the
    write of 4 to RSTST, the write of 3 to RSTCTRL and three reads of
    RSTST. *)
Lemma deassert_asserted_line_witness :
  exists w',
    prm_deassert 2 PRM_PARTITION IVAHD_INST RSTCTRL_OFFS
      (booted ivahd_in_reset) = Ret 0 w'
    /\ trace dev w' =
         [EvReadl IVAHD_RSTCTRL 7; EvReadl IVAHD_RSTST 0;
          EvWritel 4 IVAHD_RSTST; EvReadl IVAHD_RSTCTRL 7;
          EvWritel 3 IVAHD_RSTCTRL;
          EvReadl IVAHD_RSTST 0; EvUdelay 1; EvReadl IVAHD_RSTST 0; EvUdelay 1;
          EvReadl IVAHD_RSTST 4].
Proof.
  destruct (deassert_asserted_line dev readl writel udelay MAX_PARTITIONS
              INVALID_PARTITION HARDRESET_WAIT (booted ivahd_in_reset) 2
              PRM_PARTITION IVAHD_INST RSTCTRL_OFFS 3 eq_refl
              ltac:(lia) ltac:(vm_compute; discriminate) eq_refl eq_refl)
    as (res & w' & polls & Hrun & Htr & Hpolls & _ & _ & Hres & _).
  - split; [lia |]. split.
    + intros i Hi.
      destruct i as [| [| i]]; [reflexivity | reflexivity | cbn in Hi; lia].
    + reflexivity.
  - exists w'. assert (res = 0) as -> by (apply Hres; vm_compute; lia).
    split; [exact Hrun |]. rewrite Htr, Hpolls. reflexivity.
Defined.

(** The VP of the MPU domain: its registers, masks and callbacks. *)
Definition VP_CONFIG : Z := 0x58.
Definition VP_STATUS : Z := 0x5c.
Definition VP_VLIMITTO : Z := 0x60.
Definition VP_VOLTAGE : Z := 0x64.
Definition VP_VSTEPMAX : Z := 0x68.
Definition VP_VSTEPMIN : Z := 0x6c.

Definition set_busy_polls (n : nat) (s : dev) : dev :=
  {| regs := regs s; rst_polls := rst_polls s; busy_polls := n;
     txdone := txdone s; sticky_clears := sticky_clears s; ramp := ramp s;
     ramping := ramping s; table_ready := table_ready s |}.

Definition set_txdone (b : bool) (n : nat) (s : dev) : dev :=
  {| regs := regs s; rst_polls := rst_polls s; busy_polls := busy_polls s;
     txdone := b; sticky_clears := n; ramp := ramp s;
     ramping := ramping s; table_ready := table_ready s |}.

Definition start_ramp (s : dev) : dev :=
  {| regs := regs s; rst_polls := rst_polls s; busy_polls := busy_polls s;
     txdone := match ramp s with Some O => true | _ => txdone s end;
     sticky_clears := sticky_clears s; ramp := ramp s;
     ramping := match ramp s with Some O => None | r => r end;
     table_ready := table_ready s |}.

(** VSTATUS shows idle once [busy_polls] reads have found the VP busy. *)
Definition vp_read (addr : Z) (s : dev) : Z * dev :=
  if addr =? VP_STATUS then
    match busy_polls s with
    | O => (1, s)
    | S n => (0, set_busy_polls n s)
    end
  else (regs s addr, s).

(** A write with the force-update bit starts the ramp. *)
Definition vp_write (v addr : Z) (s : dev) : dev :=
  let s' := with_regs (store addr v (regs s)) s in
  if (addr =? VP_CONFIG) && Z.testbit v 1 then start_ramp s' else s'.

Definition vp_rmw (mask bits addr : Z) (s : dev) : Z * dev :=
  let v := Z.lor (Z.land (regs s addr) (Z.lnot mask)) bits in
  (v, with_regs (store addr v (regs s)) s).

Definition sim_check_txdone (_ : Z) (s : dev) : bool * dev := (txdone s, s).

Definition sim_clear_txdone (_ : Z) (s : dev) : dev :=
  match sticky_clears s with
  | O => set_txdone false 0 s
  | S n => set_txdone (txdone s) n s
  end.

Definition sim_recover (_ : Z) (s : dev) : dev := set_busy_polls 0 s.

Definition mpu_ops (with_recover : bool) : omap_vp_ops dev :=
  {| check_txdone := sim_check_txdone;
     clear_txdone := sim_clear_txdone;
     recover := if with_recover then Ptr sim_recover else NullPtr |}.

Definition mpu_common (with_recover : bool) : omap_vp_common dev :=
  {| vpconfig_erroroffset_mask := 0xff000000;
     vpconfig_errorgain_mask := 0x00ff0000;
     vpconfig_initvoltage_mask := 0x0000ff00;
     vpconfig_timeouten := 8;
     vpconfig_initvdd := 4;
     vpconfig_forceupdate := 2;
     vpconfig_vpenable := 1;
     vstatus_vpidle := 1;
     vpvoltage_mask := 0xff;
     vstepmin_smpswaittimemin_shift := 8;
     vstepmin_stepmin_shift := 0;
     vstepmax_stepmax_shift := 0;
     vstepmax_smpswaittimemax_shift := 8;
     vlimitto_vddmax_shift := 24;
     vlimitto_vddmin_shift := 16;
     vlimitto_timeout_shift := 0;
     ops := mpu_ops with_recover |}.

Definition mpu_vp (with_recover : bool) : omap_vp_instance dev :=
  {| common := mpu_common with_recover; id := 0; vpconfig := VP_CONFIG;
     vstepmin := VP_VSTEPMIN; vstepmax := VP_VSTEPMAX;
     vlimitto := VP_VLIMITTO; vstatus := VP_STATUS; voltage := VP_VOLTAGE |}.

(** A PMIC with 12.5 mV steps from 600 mV. *)
Definition sim_uv_to_vsel (uv : Z) : Z := (uv - 600000) / 12500 + 1.
Definition sim_vsel_to_uv (vsel : Z) : Z := (vsel - 1) * 12500 + 600000.

Definition sim_pmic : omap_voltdm_pmic :=
  {| slew_rate := 9000; step_size := 12660; vp_erroroffset := 0;
     vp_vstepmin := 1; vp_vstepmax := 4;
     pmic_vddmin := 709000; pmic_vddmax := 1418000; vp_timeout_us := 200;
     uv_to_vsel := Ptr sim_uv_to_vsel; vsel_to_uv := Ptr sim_vsel_to_uv |}.

Definition mpu_domain (with_recover with_rmw : bool) : voltagedomain dev :=
  {| name := "mpu";
     vp := Ptr (mpu_vp with_recover);
     pmic := Ptr sim_pmic;
     read := Ptr vp_read;
     write := Ptr vp_write;
     rmw := if with_rmw then Ptr vp_rmw else NullPtr;
     sys_clk_rate := 38400000;
     vc_param := Ptr {| vc_ret := 750000 |};
     vp_param := Ptr {| vddmin := 830000; vddmax := 1410000 |} |}.

Definition opp_nominal : omap_volt_data :=
  {| volt_nominal := 1200000; vp_errgain := 0x16 |}.

Definition sim_get_operation_voltage (v : omap_volt_data) : Z := volt_nominal v.

Definition sim_get_curr_vdata (_ : voltagedomain dev) (s : dev)
    : kptr omap_volt_data * dev :=
  (if table_ready s then Ptr opp_nominal else NullPtr, s).

(** The pre-scale hook succeeds with the selectors 0x10 and 0x20. *)
Definition sim_pre_scale (_ : voltagedomain dev) (_ : Z) (_ : omap_volt_data)
    (s : dev) : (Z * Z * Z) * dev :=
  ((0, 0x10, 0x20), s).

Definition sim_post_scale (_ : voltagedomain dev) (_ : Z) (_ : omap_volt_data)
    (_ _ : Z) (s : dev) : dev := s.

Definition IDLE_TIMEOUT : nat := 3.
Definition TRANXDONE_TIMEOUT : nat := 4.

Definition vp_init := omap_vp_init dev.
Definition vp_enable :=
  omap_vp_enable dev sim_get_operation_voltage sim_get_curr_vdata.
Definition vp_forceupdate_scale :=
  omap_vp_forceupdate_scale dev udelay sim_get_operation_voltage sim_pre_scale
    sim_post_scale IDLE_TIMEOUT TRANXDONE_TIMEOUT.
Definition vp_update_errorgain := omap_vp_update_errorgain dev.

Definition vp_dev (busy : nat) (pending : bool) (sticky : nat)
    (ramp_us : option nat) (ready : bool) : dev :=
  {| regs := store VP_CONFIG 8 (fun _ => 0); rst_polls := 0;
     busy_polls := busy; txdone := pending; sticky_clears := sticky;
     ramp := ramp_us; ramping := None; table_ready := ready |}.


(** The four writes of [omap_vp_init] on the simulated MPU domain: the
    limits are the selectors of 830 mV and of 1410 mV. *)
Lemma vp_init_writes_witness :
  exists w',
    vp_init (Ptr (mpu_domain true true)) (boot (quiet_dev (fun _ => 0)))
      = Ret tt w'
    /\ vp_enabled dev w' 0 = false
    /\ trace dev w' =
         [EvWrite 8 VP_CONFIG; EvWrite 0x3701 VP_VSTEPMIN;
          EvWrite 0x3704 VP_VSTEPMAX; EvWrite 0x41131e00 VP_VLIMITTO].
Proof.
  destruct (vp_init_writes dev (mpu_domain true true) (mpu_vp true) sim_pmic
              sim_uv_to_vsel vp_read vp_write eq_refl eq_refl eq_refl eq_refl
              eq_refl {| vc_ret := 750000 |}
              {| vddmin := 830000; vddmax := 1410000 |}
              (boot (quiet_dev (fun _ => 0))) eq_refl eq_refl
              ltac:(vm_compute; discriminate))
    as (w' & Hrun & Hen & Htr & _).
  exists w'. split; [exact Hrun |]. split; [exact Hen |].
  rewrite Htr. vm_compute. reflexivity.
Defined.

(** Two calls of [omap_vp_enable] on a disabled VP: the first writes the
    pulse and the enable bit, the second changes nothing. *)
Lemma enable_idempotent_witness :
  exists w1,
    vp_enable (Ptr (mpu_domain true true))
      (boot (vp_dev 0 false 0 None true)) = Ret tt w1
    /\ vp_enabled dev w1 0 = true
    /\ reg_writes (trace dev w1) =
         [EvWrite 12552 VP_CONFIG; EvWrite 12556 VP_CONFIG;
          EvWrite 12552 VP_CONFIG; EvWrite 12553 VP_CONFIG]
    /\ vp_enable (Ptr (mpu_domain true true)) w1 = Ret tt w1.
Proof.
  destruct (enable_idempotent dev sim_get_operation_voltage sim_get_curr_vdata
              (mpu_domain true true) (mpu_vp true) sim_pmic sim_uv_to_vsel
              vp_read vp_write eq_refl eq_refl eq_refl eq_refl eq_refl
              opp_nominal (boot (vp_dev 0 false 0 None true)) eq_refl)
    as (w1 & Hrun & Hen & Hfirst & _ & w2 & Hrun2 & _ & Hsame & _).
  destruct (Hfirst eq_refl) as (Htr & _).
  exists w1. split; [exact Hrun |]. split; [exact Hen |].
  split; [rewrite Htr; vm_compute; reflexivity |].
  rewrite Hsame in Hrun2. exact Hrun2.
Defined.


(** A scale on a VP that is idle at the second poll, whose pending
    transaction-done clears at the second attempt, and which never reports
    the transaction done after the force update: the poll of step 7 times
    out, its error is routed, and the call completes with its five writes
    and one post-scale call, returning 0. *)
Example forceupdate_scale_txdone_never_set :
  exists w',
    vp_forceupdate_scale (Ptr (mpu_domain true true)) (Ptr opp_nominal)
      (boot (vp_dev 1 true 1 None true)) = Ret 0 w'
    /\ reg_writes (trace dev w') =
         [EvWrite 12552 VP_CONFIG; EvWrite 12556 VP_CONFIG;
          EvWrite 12552 VP_CONFIG; EvWrite 12554 VP_CONFIG;
          EvWrite 12552 VP_CONFIG]
    /\ post_scale_calls (trace dev w') = [EvPostScale 1200000 opp_nominal 16 32]
    /\ err_reports (trace dev w') = [msg_tranxdone_never_set].
Proof. eexists. split; [vm_compute; reflexivity |]. now repeat split. Qed.

(** The same scale on a VP that stays busy for all three polls: -ETIMEDOUT,
    nothing written, the post-scale hook not called. *)
Example forceupdate_scale_idle_timeout :
  exists w',
    vp_forceupdate_scale (Ptr (mpu_domain true true)) (Ptr opp_nominal)
      (boot (vp_dev 3 false 0 (Some 2%nat) true)) = Ret (- ETIMEDOUT) w'
    /\ reg_writes (trace dev w') = []
    /\ post_scale_calls (trace dev w') = []
    /\ err_reports (trace dev w') = [msg_idle_timedout].
Proof. eexists. split; [vm_compute; reflexivity |]. now repeat split. Qed.

(** With the transaction done two microseconds after the trigger, no error
    is routed. *)
Example forceupdate_scale_clean :
  exists w',
    vp_forceupdate_scale (Ptr (mpu_domain true true)) (Ptr opp_nominal)
      (boot (vp_dev 0 false 0 (Some 2%nat) true)) = Ret 0 w'
    /\ List.length (reg_writes (trace dev w')) = 5%nat
    /\ post_scale_calls (trace dev w') = [EvPostScale 1200000 opp_nominal 16 32]
    /\ err_reports (trace dev w') = [].
Proof. eexists. split; [vm_compute; reflexivity |]. now repeat split. Qed.

(** A pending transaction-done that clears at the last of the four
    permitted attempts of step 4 leaves the loop counter at the bound: the
    scale is aborted like one whose status never cleared. *)
Example forceupdate_scale_cleared_at_last_attempt :
  exists w',
    vp_forceupdate_scale (Ptr (mpu_domain true true)) (Ptr opp_nominal)
      (boot (vp_dev 0 true 3 (Some 2%nat) true)) = Ret (- ETIMEDOUT) w'
    /\ List.length (clear_attempts (trace dev w')) = TRANXDONE_TIMEOUT
    /\ txdone (w_env dev w') = false
    /\ reg_writes (trace dev w') = []
    /\ err_reports (trace dev w') = [msg_tranxdone_aborted].
Proof. eexists. split; [vm_compute; reflexivity |]. now repeat split. Qed.

(** The VP is idle at the second read of its status, the pre-scale hook
    succeeds, and the pending transaction-done status is cleared by the fourth
    of the four permitted attempts: the scale is aborted with the status
    clear, before any register write. *)
Lemma forceupdate_scale_aborts_cleared_status_witness :
  exists w',
    vp_forceupdate_scale (Ptr (mpu_domain true true)) (Ptr opp_nominal)
      (boot (vp_dev 1 true 3 None true)) = Ret (- ETIMEDOUT) w'
    /\ txdone (w_env dev w') = false
    /\ txdone_checks (trace dev w') = [true; true; true; false]
    /\ reg_writes (trace dev w') = []
    /\ post_scale_calls (trace dev w') = []
    /\ err_reports (trace dev w') = [msg_tranxdone_aborted].
Proof.
  destruct (forceupdate_scale_aborts_cleared_status dev udelay
              sim_get_operation_voltage sim_pre_scale sim_post_scale
              IDLE_TIMEOUT TRANXDONE_TIMEOUT (mpu_domain true true)
              (mpu_vp true) vp_read vp_write eq_refl eq_refl eq_refl
              opp_nominal (boot (vp_dev 1 true 3 None true)) 2%nat)
    as (w' & evs & Hrun & Htr & _ & _ & Hchk & Hwr & Hps & Herr).
  - intros e. discriminate.
  - split; [lia |].
    split; [intros [| i] Hi; [reflexivity | vm_compute in Hi; lia] | reflexivity].
  - vm_compute. lia.
  - reflexivity.
  - vm_compute. lia.
  - intros [| [| [| i]]] Hi; try reflexivity. vm_compute in Hi. lia.
  - reflexivity.
  - exists w'. split; [exact Hrun |].
    split; [vm_compute in Hrun; injection Hrun as <-; reflexivity |].
    rewrite Htr.
    change (trace dev (boot (vp_dev 1 true 3 None true))) with (@nil event).
    rewrite app_nil_l, Hchk, Hwr, Hps, Herr. now repeat split.
Defined.

(** C6 as the spec words it fails on a domain that has a VP and voltage
    data but no read-modify-write accessor: the call logs and returns 0, not
    -EINVAL. *)
Lemma update_errorgain_no_rmw_returns_success :
  rmw dev (mpu_domain true false) = NullPtr
  /\ vp_update_errorgain (Ptr (mpu_domain true false)) (Ptr opp_nominal)
       (boot (quiet_dev (fun _ => 0)))
     = Ret 0
         (log_event dev
            (EvLog KERN_ERR "%s: No rmw API for reading vdd_%s regs")
            (boot (quiet_dev (fun _ => 0))))
  /\ ~ (exists w',
          vp_update_errorgain (Ptr (mpu_domain true false)) (Ptr opp_nominal)
            (boot (quiet_dev (fun _ => 0))) = Ret (- EINVAL) w').
Proof.
  split; [reflexivity |]. split; [reflexivity |].
  intros (w' & H). vm_compute in H. discriminate H.
Qed.

(** With the accessor, the error gain of the voltage data goes to bits
    16-23 of VPCONFIG. *)
Example update_errorgain_writes :
  exists w',
    vp_update_errorgain (Ptr (mpu_domain true true)) (Ptr opp_nominal)
      (boot (quiet_dev (fun _ => 0))) = Ret 0 w'
    /\ trace dev w' = [EvRmw 0x00ff0000 0x00160000 VP_CONFIG].
Proof. eexists. split; [vm_compute; reflexivity |]. reflexivity. Qed.

(** ** The rest of the code on the simulated devices *)

(** The PRM partition is in range, is not the invalid one, and has a slot
    of its own: after the boot-time initialisation an access to it reads the
    IVAHD reset control register. *)
Lemma base_init_then_access_witness :
  exists w1,
    omap4_prm_base_init dev PRM_PARTITION PRCM_MPU_PARTITION SCRM_PARTITION
      globals (boot ivahd_in_reset) = Ret tt w1
    /\ prm_read PRM_PARTITION IVAHD_INST RSTCTRL_OFFS w1
       = Ret 7 (log_event dev (EvReadl IVAHD_RSTCTRL 7) w1).
Proof.
  destruct (base_init_then_access dev readl writel MAX_PARTITIONS
              INVALID_PARTITION PRM_PARTITION PRCM_MPU_PARTITION SCRM_PARTITION
              ltac:(vm_compute; split; [reflexivity | discriminate])
              ltac:(vm_compute; split; discriminate)
              globals (boot ivahd_in_reset) 0 IVAHD_INST RSTCTRL_OFFS)
    as (w1 & Hinit & _ & _ & _ & Hok).
  exists w1. split; [exact Hinit |].
  destruct (Hok ltac:(vm_compute; discriminate)) as (Hread & _).
  injection Hinit as <-. exact Hread.
Defined.

Definition prm_is_asserted :=
  omap4_prminst_is_hardreset_asserted dev readl MAX_PARTITIONS INVALID_PARTITION.
Definition prm_assert :=
  omap4_prminst_assert_hardreset dev readl writel MAX_PARTITIONS
    INVALID_PARTITION.

(** With the control register at 7, line 2 is reported as asserted. *)
Lemma is_hardreset_asserted_is_the_bit_witness :
  exists w',
    prm_is_asserted 2 PRM_PARTITION IVAHD_INST RSTCTRL_OFFS
      (booted ivahd_in_reset) = Ret 1 w'
    /\ trace dev w' = [EvReadl IVAHD_RSTCTRL 7].
Proof.
  destruct (is_hardreset_asserted_is_the_bit dev readl MAX_PARTITIONS
              INVALID_PARTITION (booted ivahd_in_reset) 2 PRM_PARTITION
              IVAHD_INST RSTCTRL_OFFS ltac:(lia)) as (_ & Hok).
  destruct (Hok eq_refl) as (r & w' & Hrun & _ & Hbit & Htr & _).
  assert (r = 1) as -> by (apply Hbit; reflexivity).
  exists w'. split; [exact Hrun | exact Htr].
Defined.

(** With the control register at 3, asserting line 2 writes 7. *)
Lemma assert_hardreset_sets_only_its_bit_witness :
  exists w',
    prm_assert 2 PRM_PARTITION IVAHD_INST RSTCTRL_OFFS
      (booted ivahd_line2_released) = Ret 0 w'
    /\ trace dev w' = [EvReadl IVAHD_RSTCTRL 3; EvWritel 7 IVAHD_RSTCTRL].
Proof.
  destruct (assert_hardreset_sets_only_its_bit dev readl writel MAX_PARTITIONS
              INVALID_PARTITION (booted ivahd_line2_released) 2 PRM_PARTITION
              IVAHD_INST RSTCTRL_OFFS eq_refl ltac:(lia))
    as (w' & Hrun & Htr & _).
  exists w'. split; [exact Hrun | exact Htr].
Defined.

(** The simulated control register holds what is written to it: line 2,
    once asserted, reads as asserted and can be deasserted. *)
Lemma assert_then_deassert_witness :
  exists w1 w2 w3,
    prm_assert 2 PRM_PARTITION IVAHD_INST RSTCTRL_OFFS
      (booted ivahd_line2_released) = Ret 0 w1
    /\ prm_is_asserted 2 PRM_PARTITION IVAHD_INST RSTCTRL_OFFS w1 = Ret 1 w2
    /\ prm_deassert 2 PRM_PARTITION IVAHD_INST RSTCTRL_OFFS w1 = Ret 0 w3.
Proof.
  destruct (assert_then_deassert dev readl writel udelay MAX_PARTITIONS
              INVALID_PARTITION HARDRESET_WAIT (booted ivahd_line2_released) 2
              PRM_PARTITION IVAHD_INST RSTCTRL_OFFS eq_refl ltac:(lia)
              ltac:(vm_compute; discriminate) eq_refl)
    as (w1 & Hrun1 & (w2 & Hrun2) & r & w3 & Hrun3 & _).
  - intros v e Hv.
    change (_prm_bases dev (booted ivahd_line2_released) PRM_PARTITION
            + IVAHD_INST + RSTCTRL_OFFS) with IVAHD_RSTCTRL.
    unfold readl, writel. change (IVAHD_RSTCTRL =? IVAHD_RSTST) with false.
    cbv iota. cbn [fst regs with_regs]. unfold store. rewrite Z.eqb_refl.
    now apply u32_small.
  - exists w1, w2, w3. split; [exact Hrun1 |]. split; [exact Hrun2 |].
    injection Hrun1 as <-. vm_compute in Hrun3. injection Hrun3 as <- <-.
    reflexivity.
Defined.

(** The device instance and reset registers of the simulated PRM. *)
Definition PRM_DEVICE_INST : Z := 0x1b00.
Definition PRM_DEVICE_INST_54XX : Z := 0x1c00.
Definition PRM_RSTCTRL_OFFSET : Z := 0x00.
Definition PRM_RSTST_OFFSET : Z := 0x04.
Definition RST_GLOBAL_WARM_SW_MASK : Z := 1.
Definition RST_GLOBAL_COLD_SW_MASK : Z := 2.
Definition GLOBAL_COLD_RST_MASK : Z := 1.

(** A warm reset on OMAP4 with the control register at 4: read, write of 5,
    read back. *)
Example global_warm_sw_reset_on_omap4 :
  exists w',
    omap4_prminst_global_warm_sw_reset dev readl writel MAX_PARTITIONS
      INVALID_PARTITION PRM_PARTITION true PRM_DEVICE_INST PRM_DEVICE_INST_54XX
      PRM_RSTCTRL_OFFSET RST_GLOBAL_WARM_SW_MASK
      (booted (quiet_dev (store 0x4a307b00 4 (fun _ => 0)))) = Ret tt w'
    /\ trace dev w' =
         [EvReadl 0x4a307b00 4; EvWritel 5 0x4a307b00; EvReadl 0x4a307b00 5].
Proof. eexists. split; [vm_compute; reflexivity |]. reflexivity. Qed.

(** A cold reset: the status is cleared first, and the call ends with the
    delay of 184 microseconds. *)
Example global_cold_sw_reset_on_omap4 :
  exists w',
    omap4_prminst_global_cold_sw_reset dev readl writel udelay MAX_PARTITIONS
      INVALID_PARTITION PRM_PARTITION true PRM_DEVICE_INST PRM_DEVICE_INST_54XX
      PRM_RSTST_OFFSET PRM_RSTCTRL_OFFSET GLOBAL_COLD_RST_MASK
      RST_GLOBAL_COLD_SW_MASK
      (booted (quiet_dev (store 0x4a307b00 4 (fun _ => 0)))) = Ret tt w'
    /\ trace dev w' =
         [EvWritel 1 0x4a307b04; EvReadl 0x4a307b00 4; EvWritel 6 0x4a307b00;
          EvReadl 0x4a307b00 6; EvUdelay 184].
Proof. eexists. split; [vm_compute; reflexivity |]. reflexivity. Qed.

(** Variants of the MPU domain with a dependency missing. *)
Definition mpu_domain_without (no_read no_pmic no_vp_param : bool)
    : voltagedomain dev :=
  {| name := "mpu";
     vp := Ptr (mpu_vp true);
     pmic := if no_pmic then NullPtr else Ptr sim_pmic;
     read := if no_read then NullPtr else Ptr vp_read;
     write := Ptr vp_write;
     rmw := Ptr vp_rmw;
     sys_clk_rate := 38400000;
     vc_param := Ptr {| vc_ret := 750000 |};
     vp_param := if no_vp_param then NullPtr
                 else Ptr {| vddmin := 830000; vddmax := 1410000 |} |}.

Definition vp_disable := omap_vp_disable dev udelay IDLE_TIMEOUT.
Definition vp_get_curr_volt := omap_vp_get_curr_volt dev.
Definition vp_wait_for_idle := _vp_wait_for_idle dev udelay IDLE_TIMEOUT.
Definition vp_set_init_voltage := _vp_set_init_voltage dev.

(** A scale without target voltage data: -EINVAL and one message. *)
Lemma forceupdate_scale_precondition_failures_witness :
  exists w',
    vp_forceupdate_scale (Ptr (mpu_domain true true)) NullPtr
      (boot (vp_dev 0 false 0 None true)) = Ret (- EINVAL) w'
    /\ trace dev w' = [EvLog KERN_ERR "%s: No target_v info to scale vdd_%s"]
    /\ w_env dev w' = vp_dev 0 false 0 None true.
Proof.
  destruct (forceupdate_scale_precondition_failures dev udelay
              sim_get_operation_voltage sim_pre_scale sim_post_scale IDLE_TIMEOUT
              TRANXDONE_TIMEOUT (Ptr (mpu_domain true true)) NullPtr
              (boot (vp_dev 0 false 0 None true)))
    as (msg & Hrun).
  - right. exists (mpu_domain true true). split; [reflexivity |].
    right. left. reflexivity.
  - eexists. split; [exact Hrun |].
    vm_compute in Hrun. injection Hrun as <-. split; reflexivity.
Defined.

(** The same scale on a domain without read accessor calls through the
    NULL pointer. *)
Lemma forceupdate_scale_unchecked_read_witness :
  vp_forceupdate_scale (Ptr (mpu_domain_without true false false))
    (Ptr opp_nominal) (boot (vp_dev 0 false 0 None true))
  = Fault (boot (vp_dev 0 false 0 None true)).
Proof.
  apply (forceupdate_scale_unchecked_read dev udelay sim_get_operation_voltage
           sim_pre_scale sim_post_scale IDLE_TIMEOUT TRANXDONE_TIMEOUT
           (mpu_domain_without true false false) (mpu_vp true) vp_write
           opp_nominal (boot (vp_dev 0 false 0 None true)) eq_refl eq_refl
           eq_refl).
  vm_compute. lia.
Defined.

(** Initialisation without VP parameters: one message, nothing written. *)
Lemma vp_init_missing_dependency_witness :
  exists w',
    vp_init (Ptr (mpu_domain_without false false true))
      (boot (quiet_dev (fun _ => 0))) = Ret tt w'
    /\ trace dev w' = [EvLog KERN_ERR "%s: No vp_param info for vdd_%s"]
    /\ w_env dev w' = quiet_dev (fun _ => 0).
Proof.
  destruct (vp_init_missing_dependency dev
              (Ptr (mpu_domain_without false false true))
              (boot (quiet_dev (fun _ => 0)))) as (msg & Hrun).
  - right. exists (mpu_domain_without false false true).
    split; [reflexivity |]. right. exists sim_pmic. split; [reflexivity |].
    do 5 right. reflexivity.
  - eexists. split; [exact Hrun |].
    vm_compute in Hrun. injection Hrun as <-. split; reflexivity.
Defined.

(** Enabling and disabling without read accessor: the same message, nothing
    else. *)
Lemma enable_disable_missing_dependency_witness :
  exists w',
    vp_enable (Ptr (mpu_domain_without true false false))
      (boot (vp_dev 0 false 0 None true)) = Ret tt w'
    /\ vp_disable (Ptr (mpu_domain_without true false false))
         (boot (vp_dev 0 false 0 None true)) = Ret tt w'
    /\ trace dev w' =
         [EvLog KERN_ERR "%s: No read/write API for accessing vdd_%s regs"].
Proof.
  destruct (enable_disable_missing_dependency dev udelay
              sim_get_operation_voltage sim_get_curr_vdata IDLE_TIMEOUT
              (Ptr (mpu_domain_without true false false))
              (boot (vp_dev 0 false 0 None true))) as (msg & Hen & Hdis).
  - right. exists (mpu_domain_without true false false).
    split; [reflexivity |]. right. left. reflexivity.
  - eexists. split; [exact Hen |]. split; [exact Hdis |].
    vm_compute in Hen. injection Hen as <-. reflexivity.
Defined.

(** The machine with the MPU VP marked enabled. *)
Definition vp_enabled_on (s : dev) : world dev :=
  set_vp_enabled dev 0 true (boot s).

Definition vp_running (busy : nat) : dev :=
  {| regs := store VP_CONFIG 9 (fun _ => 0); rst_polls := 0;
     busy_polls := busy; txdone := false; sticky_clears := 0;
     ramp := None; ramping := None; table_ready := true |}.


(** A VP that stays busy is disabled all the same, after both idle waits
    have timed out; a second disable only warns. *)
Lemma disable_idempotent_witness :
  exists w1,
    vp_disable (Ptr (mpu_domain true true)) (vp_enabled_on (vp_running 9))
      = Ret tt w1
    /\ vp_enabled dev w1 0 = false
    /\ reg_writes (trace dev w1) = [EvWrite 8 VP_CONFIG]
    /\ vp_disable (Ptr (mpu_domain true true)) w1 =
         Ret tt
           (log_event dev
              (EvLog KERN_WARNING
                 "%s: Trying to disable VP for vdd_%s whenit is already disabled")
              w1).
Proof.
  destruct (disable_idempotent dev udelay IDLE_TIMEOUT (mpu_domain true true)
              (mpu_vp true) vp_read vp_write eq_refl eq_refl eq_refl
              (vp_enabled_on (vp_running 9))) as (w1 & Hrun & Hoff & Hagain).
  exists w1. split; [exact Hrun |]. split; [exact Hoff |].
  split; [| exact Hagain].
  vm_compute in Hrun. injection Hrun as <-. reflexivity.
Defined.

(** Enable, then disable: five writes, the last one without the enable
    bit, and the VP is marked disabled again. *)
Lemma enable_then_disable_witness :
  exists w1 w2,
    vp_enable (Ptr (mpu_domain true true)) (boot (vp_dev 0 false 0 None true))
      = Ret tt w1
    /\ vp_disable (Ptr (mpu_domain true true)) w1 = Ret tt w2
    /\ reg_writes (trace dev w2) =
         [EvWrite 12552 VP_CONFIG; EvWrite 12556 VP_CONFIG;
          EvWrite 12552 VP_CONFIG; EvWrite 12553 VP_CONFIG;
          EvWrite 12552 VP_CONFIG]
    /\ vp_enabled dev w2 0 = false.
Proof.
  destruct (enable_then_disable dev udelay sim_get_operation_voltage
              sim_get_curr_vdata IDLE_TIMEOUT (mpu_domain true true)
              (mpu_vp true) vp_read vp_write eq_refl eq_refl eq_refl sim_pmic
              sim_uv_to_vsel opp_nominal (boot (vp_dev 0 false 0 None true))
              eq_refl eq_refl eq_refl eq_refl)
    as (w1 & w2 & Hrun1 & _ & Hrun2 & Hoff & _).
  exists w1, w2. split; [exact Hrun1 |]. split; [exact Hrun2 |].
  split; [| exact Hoff].
  vm_compute in Hrun1. injection Hrun1 as <-.
  vm_compute in Hrun2. injection Hrun2 as <-. reflexivity.
Defined.

(** With selector 0x31 in the voltage register, the current voltage is
    1.2 V. *)
Lemma get_curr_volt_converts_field_witness :
  exists w',
    vp_get_curr_volt (Ptr (mpu_domain true true))
      (boot (quiet_dev (store VP_VOLTAGE 0x31 (fun _ => 0)))) = Ret 1200000 w'
    /\ trace dev w' = [EvRead VP_VOLTAGE 0x31].
Proof.
  destruct (get_curr_volt_converts_field dev (mpu_domain true true)
              (mpu_vp true) vp_read eq_refl eq_refl sim_pmic sim_vsel_to_uv 0
              (boot (quiet_dev (store VP_VOLTAGE 0x31 (fun _ => 0))))
              eq_refl eq_refl ltac:(lia) eq_refl) as (Hrun & _).
  eexists. split; [exact Hrun |]. reflexivity.
Defined.

(** A pre-scale hook that refuses the scale. *)
Definition sim_pre_scale_refuses (_ : voltagedomain dev) (_ : Z)
    (_ : omap_volt_data) (s : dev) : (Z * Z * Z) * dev :=
  ((- EBUSY, 0x10, 0x20), s).

Definition vp_forceupdate_scale_refused :=
  omap_vp_forceupdate_scale dev udelay sim_get_operation_voltage
    sim_pre_scale_refuses sim_post_scale IDLE_TIMEOUT TRANXDONE_TIMEOUT.

(** The hook's -EBUSY comes back as it is, after the idle poll and the
    hook alone. *)
Lemma forceupdate_scale_pre_scale_error_witness :
  exists w',
    vp_forceupdate_scale_refused (Ptr (mpu_domain true true)) (Ptr opp_nominal)
      (boot (vp_dev 0 true 0 None true)) = Ret (- EBUSY) w'
    /\ trace dev w' =
         [EvRead VP_STATUS 1; EvPreScale 1200000 opp_nominal (- EBUSY)]
    /\ __vp_recover_count dev w' = 50
    /\ __vp_debug_error_message_count dev w' = 10.
Proof.
  edestruct (forceupdate_scale_pre_scale_error dev udelay
               sim_get_operation_voltage sim_pre_scale_refuses sim_post_scale
               IDLE_TIMEOUT TRANXDONE_TIMEOUT (mpu_domain true true)
               (mpu_vp true) vp_read vp_write eq_refl eq_refl eq_refl
               opp_nominal (boot (vp_dev 0 true 0 None true)))
    as (Hrun & _).
  - vm_compute. reflexivity.
  - vm_compute. reflexivity.
  - vm_compute. discriminate.
  - eexists. split; [exact Hrun |]. now repeat split.
Defined.

(** A VP that is busy for all three polls: -ETIMEDOUT, and neither hook nor
    the transaction-done status was touched. *)
Lemma forceupdate_scale_idle_timeout_calls_no_hook_witness :
  exists w',
    vp_forceupdate_scale (Ptr (mpu_domain true true)) (Ptr opp_nominal)
      (boot (vp_dev 3 true 0 None true)) = Ret (- ETIMEDOUT) w'
    /\ pre_scale_calls (trace dev w') = []
    /\ clear_attempts (trace dev w') = []
    /\ List.length (delays (trace dev w')) = 3%nat.
Proof.
  edestruct (forceupdate_scale_idle_timeout_calls_no_hook dev udelay
               sim_get_operation_voltage sim_pre_scale sim_post_scale
               IDLE_TIMEOUT TRANXDONE_TIMEOUT (mpu_domain true true)
               (mpu_vp true) vp_read vp_write eq_refl eq_refl eq_refl
               opp_nominal (boot (vp_dev 3 true 0 None true)))
    as (w' & evs & Hrun & _).
  - intros e. discriminate.
  - vm_compute. reflexivity.
  - vm_compute. discriminate.
  - exists w'. split; [exact Hrun |].
    vm_compute in Hrun. injection Hrun as <-. now repeat split.
Defined.

(** Idle at the second read: success after two reads and one delay. *)
Lemma wait_for_idle_at_read_witness :
  exists w',
    vp_wait_for_idle (mpu_domain true true) (mpu_vp true)
      (boot (vp_dev 1 false 0 None true)) = Ret 0 w'
    /\ trace dev w' = [EvRead VP_STATUS 0; EvUdelay 1; EvRead VP_STATUS 1].
Proof.
  destruct (wait_for_idle_at_read dev udelay IDLE_TIMEOUT (mpu_domain true true)
              (mpu_vp true) vp_read eq_refl 2
              (boot (vp_dev 1 false 0 None true)))
    as (r & w' & evs & Hrun & _ & Hok & _).
  - split; [lia |]. split; [| reflexivity].
    intros [| i] Hi; [reflexivity | cbn in Hi; lia].
  - assert (r = 0) as -> by (apply Hok; vm_compute; lia).
    exists w'. split; [exact Hrun |].
    vm_compute in Hrun. injection Hrun as <-. reflexivity.
Defined.

(** Two idle waits in a row that time out: each gives the rate-limited
    warning, and only the first the one-time warning, which names the
    domain. *)
Example wait_for_idle_warns_once :
  exists w1 w2,
    vp_wait_for_idle (mpu_domain true true) (mpu_vp true)
      (boot (vp_dev 6 false 0 None true)) = Ret (- ETIMEDOUT) w1
    /\ vp_wait_for_idle (mpu_domain true true) (mpu_vp true) w1
       = Ret (- ETIMEDOUT) w2
    /\ filter (fun e => negb (is_poll_event e)) (trace dev w2) =
         [EvLog KERN_WARNING_RATELIMITED "%s: vdd_%s idle timedout";
          EvWarnOnce "mpu";
          EvLog KERN_WARNING_RATELIMITED "%s: vdd_%s idle timedout"].
Proof.
  eexists _, _. split; [vm_compute; reflexivity |].
  split; [vm_compute; reflexivity |]. reflexivity.
Qed.

(** The selector of 1.2 V, 0x31, goes to bits 8-15 of the configuration;
    the time-out enable bit, outside the field, stays. *)
Lemma set_init_voltage_field_witness :
  exists w',
    vp_set_init_voltage (mpu_domain true true) 1200000
      (boot (vp_dev 0 false 0 None true)) = Ret 0x3108 w'
    /\ reg_writes (trace dev w') =
         [EvWrite 0x3108 VP_CONFIG; EvWrite 0x310c VP_CONFIG;
          EvWrite 0x3108 VP_CONFIG].
Proof.
  destruct (set_init_voltage_field dev (mpu_domain true true) (mpu_vp true)
              vp_read vp_write eq_refl eq_refl eq_refl sim_pmic sim_uv_to_vsel
              8 1200000 (boot (vp_dev 0 false 0 None true)) eq_refl eq_refl
              ltac:(lia) ltac:(lia) eq_refl) as (c & w' & Hrun & _).
  vm_compute in Hrun. injection Hrun as <- <-.
  eexists. split; [vm_compute; reflexivity |]. reflexivity.
Defined.

(** A transaction-done status that clears at the fourth of four permitted
    attempts: the scale is aborted, nothing is written. *)
Lemma forceupdate_scale_clear_budget_witness :
  exists w',
    vp_forceupdate_scale (Ptr (mpu_domain true true)) (Ptr opp_nominal)
      (boot (vp_dev 0 true 3 None true)) = Ret (- ETIMEDOUT) w'
    /\ reg_writes (trace dev w') = []
    /\ txdone (w_env dev w') = false.
Proof.
  edestruct (forceupdate_scale_clear_budget dev udelay sim_get_operation_voltage
               sim_pre_scale sim_post_scale IDLE_TIMEOUT TRANXDONE_TIMEOUT
               (mpu_domain true true) (mpu_vp true) vp_read vp_write eq_refl
               eq_refl eq_refl sim_pmic sim_uv_to_vsel opp_nominal
               (boot (vp_dev 0 true 3 None true))) with (k := 3%nat)
    as (r & w' & evs & Hrun & _ & _ & Hlast).
  - reflexivity.
  - reflexivity.
  - intros e. discriminate.
  - vm_compute. reflexivity.
  - vm_compute. reflexivity.
  - intros [| [| [| i]]] Hi; try reflexivity. lia.
  - reflexivity.
  - vm_compute. lia.
  - destruct (Hlast eq_refl) as (-> & _).
    exists w'. split; [exact Hrun |].
    vm_compute in Hrun. injection Hrun as <-. now split.
Defined.

(** The error gain 0x16 of the nominal voltage goes to bits 16-23. *)
Lemma update_errorgain_programs_field_witness :
  exists w',
    vp_update_errorgain (Ptr (mpu_domain true true)) (Ptr opp_nominal)
      (boot (quiet_dev (fun _ => 0))) = Ret 0 w'
    /\ trace dev w' = [EvRmw 0x00ff0000 0x00160000 VP_CONFIG].
Proof.
  destruct (update_errorgain_programs_field dev (mpu_domain true true)
              (mpu_vp true) opp_nominal vp_rmw 16 (boot (quiet_dev (fun _ => 0)))
              eq_refl eq_refl ltac:(lia) ltac:(lia) eq_refl
              ltac:(vm_compute; split; [discriminate | reflexivity])) as (Hrun & _).
  eexists. split; [exact Hrun |]. reflexivity.
Defined.

(** Twelve errors from the initial budget of ten: ten stack dumps, two
    rate-limited messages, and the budget is used up. *)
Lemma verbose_error_budget_witness :
  exists w' evs,
    routed_errors dev (mpu_vp false) (mpu_domain false true) msg_idle_timedout
      12 (boot (quiet_dev (fun _ => 0))) = Ret tt w'
    /\ trace dev w' = evs
    /\ List.length (stack_dumps evs) = 10%nat
    /\ List.length (ratelimited_errors evs) = 2%nat
    /\ __vp_debug_error_message_count dev w' = 0.
Proof.
  destruct (verbose_error_budget dev (mpu_vp false) (mpu_domain false true)
              msg_idle_timedout ltac:(intros e; discriminate) 12
              (boot (quiet_dev (fun _ => 0)))
              ltac:(vm_compute; split; [discriminate | reflexivity]))
    as (w' & evs & Hrun & Htr & Hd & Hr & Hc).
  exists w', evs. split; [exact Hrun |]. split; [exact Htr |].
  cbv zeta in Hd, Hr, Hc.
  change (__vp_debug_error_message_count dev (boot (quiet_dev (fun _ => 0))))
    with 10 in Hd, Hr, Hc.
  change (Z.min (Z.of_nat 12) 10) with 10 in Hd, Hr, Hc.
  change (Z.of_nat 12 - 10) with 2 in Hr. change (10 - 10) with 0 in Hc.
  repeat split; [lia | lia | exact Hc].
Defined.


(** An idle VP whose transaction-done comes two microseconds after the
    force update: the pre-scale hook is called once, then the post-scale hook
    once, and the scale delays twice. *)
Lemma forceupdate_scale_hooks_and_delay_witness :
  exists w',
    vp_forceupdate_scale (Ptr (mpu_domain true true)) (Ptr opp_nominal)
      (boot (vp_dev 0 false 0 (Some 2%nat) true)) = Ret 0 w'
    /\ List.length (pre_scale_calls (trace dev w')) = 1%nat
    /\ List.length (post_scale_calls (trace dev w')) = 1%nat
    /\ hook_calls (trace dev w') =
         [EvPreScale 1200000 opp_nominal 0;
          EvPostScale 1200000 opp_nominal 16 32]
    /\ delays (trace dev w') = [EvUdelay 1; EvUdelay 1].
Proof.
  destruct (forceupdate_scale_hooks_and_delay dev udelay
              sim_get_operation_voltage sim_pre_scale sim_post_scale
              IDLE_TIMEOUT TRANXDONE_TIMEOUT (mpu_domain true true)
              (mpu_vp true) vp_read vp_write eq_refl eq_refl eq_refl sim_pmic
              sim_uv_to_vsel opp_nominal
              (boot (vp_dev 0 false 0 (Some 2%nat) true)) eq_refl eq_refl
              ltac:(intros e; discriminate))
    as (r & w' & evs & Hrun & _).
  vm_compute in Hrun. injection Hrun as <- <-.
  eexists. split; [vm_compute; reflexivity |]. now repeat split.
Defined.

(** The control module of the simulation: efuse words at 0x240 and 0x248
    (none at 0x244), the bytes of an OMAP4 efuse at 0x250, and an allocator
    that succeeds or fails as told. *)
Definition sim_efuse_word (offset : Z) : Z :=
  if offset =? 0x240 then 0x00aabbcc
  else if offset =? 0x248 then 0x00112233
  else 0.

Definition sim_efuse_byte (offset : Z) : Z :=
  if offset =? 0x250 then 0xcc
  else if offset =? 0x251 then 0xbb
  else if offset =? 0x252 then 0xaa
  else 0.

Definition sim_ctrl_readl (offset : Z) (s : dev) : Z * dev :=
  (sim_efuse_word offset, s).
Definition sim_ctrl_readb (offset : Z) (s : dev) : Z * dev :=
  (sim_efuse_byte offset, s).
Definition sim_kzalloc (succeeds : bool) (_ : Z) (s : dev) : bool * dev :=
  (succeeds, s).

Definition sr_opp (nominal efuse lvt_efuse : Z) : sr_volt_data :=
  {| vdata := {| volt_nominal := nominal; vp_errgain := 0x16 |};
     sr_efuse_offs := efuse; sr_errminlimit := 0xf4;
     lvt_sr_efuse_offs := lvt_efuse |}.

Definition sr_opps : list sr_volt_data :=
  [sr_opp 1025000 0x240 0x244; sr_opp 1200000 0x244 0x244;
   sr_opp 1313000 0x248 0x240].

Definition sr_volt_table : list sr_volt_data := sr_opps ++ [sr_opp 0 0 0].

Definition no_sr_data : omap_sr_data :=
  {| nvalue_count := 0; nvalue_table := NullPtr;
     lvt_nvalue_count := 0; lvt_nvalue_table := NullPtr |}.

Lemma sr_volt_table_terminated : terminated_table sr_volt_table sr_opps.
Proof.
  split.
  - repeat constructor; discriminate.
  - exists (sr_opp 0 0 0), []. split; reflexivity.
Qed.

(** Three voltages, the second without efuse value: two entries, in order,
    and one zero entry left at the end of the array. *)
Lemma sr_set_nvalues_keeps_fused_witness :
  exists w',
    sr_set_nvalues dev false sim_ctrl_readb sim_ctrl_readl (sim_kzalloc true) 16
      sr_volt_table no_sr_data (boot (quiet_dev (fun _ => 0)))
    = Ret {| nvalue_count := 2;
             nvalue_table :=
               Ptr [{| efuse_offs := 0x240; nvalue := 0x00aabbcc;
                       errminlimit := 0xf4; nvalue_volt_nominal := 1025000 |};
                    {| efuse_offs := 0x248; nvalue := 0x00112233;
                       errminlimit := 0xf4; nvalue_volt_nominal := 1313000 |};
                    zeroed_nvalue];
             lvt_nvalue_count := 0; lvt_nvalue_table := NullPtr |} w'.
Proof.
  destruct (sr_set_nvalues_keeps_fused dev false sim_ctrl_readb sim_ctrl_readl
              (sim_kzalloc true) 16 sim_efuse_byte sim_efuse_word
              (fun _ _ => eq_refl) (fun _ _ => eq_refl) sr_volt_table sr_opps
              no_sr_data (boot (quiet_dev (fun _ => 0))) (quiet_dev (fun _ => 0))
              sr_volt_table_terminated eq_refl) as (Hrun & _).
  eexists. exact Hrun.
Defined.

(** On OMAP4 the three bytes 0xcc, 0xbb, 0xaa at 0x250 make the value
    0xaabbcc. *)
Lemma sr_efuse_value_omap4_witness :
  sr_efuse_value true sim_efuse_byte sim_efuse_word (sr_opp 1025000 0x250 0)
    = 0xaabbcc
  /\ forall w,
       sr_set_nvalues_from dev true sim_ctrl_readb sim_ctrl_readl
         [sr_opp 1025000 0x250 0] [zeroed_nvalue] 0 w =
         Ret ([{| efuse_offs := 0x250; nvalue := 0xaabbcc; errminlimit := 0xf4;
                  nvalue_volt_nominal := 1025000 |}], 1%nat) w.
Proof.
  destruct (sr_efuse_value_omap4 dev true sim_ctrl_readb sim_ctrl_readl
              sim_efuse_byte sim_efuse_word (fun _ _ => eq_refl)
              (fun _ _ => eq_refl) (sr_opp 1025000 0x250 0) eq_refl)
    as (Hval & _ & _ & Hrun).
  split; [exact Hval |]. intros w. exact (Hrun w).
Defined.

(** When the allocator fails, [sr_set_nvalues] leaves no table, and
    [lvt_sr_set_nvalues] leaves the data it was given. *)
Lemma nvalue_tables_allocation_failure_witness :
  exists w1 w2,
    sr_set_nvalues dev false sim_ctrl_readb sim_ctrl_readl (sim_kzalloc false) 16
      sr_volt_table no_sr_data (boot (quiet_dev (fun _ => 0)))
    = Ret no_sr_data w1
    /\ trace dev w1 =
         [EvLog KERN_ERR
            "OMAP: SmartReflex: cannot allocate memory for n-value table"]
    /\ lvt_sr_set_nvalues dev sim_ctrl_readl (sim_kzalloc false) 16
         sr_volt_table no_sr_data (boot (quiet_dev (fun _ => 0)))
       = Ret no_sr_data w2
    /\ trace dev w2 =
         [EvLog KERN_ERR "%s: cannot allocate memory for LVT table"].
Proof.
  destruct (nvalue_tables_allocation_failure dev false sim_ctrl_readb
              sim_ctrl_readl (sim_kzalloc false) 16 sr_volt_table sr_opps
              no_sr_data (boot (quiet_dev (fun _ => 0))) (quiet_dev (fun _ => 0))
              sr_volt_table_terminated eq_refl) as (Hsr & Hlvt).
  do 2 eexists. split; [exact Hsr |]. split; [reflexivity |].
  split; [exact Hlvt | reflexivity].
Defined.

(** The LVT efuse of the third voltage alone is set: one entry, with a
    zero error limit, and no warning. *)
Lemma lvt_sr_set_nvalues_keeps_fused_witness :
  exists w',
    lvt_sr_set_nvalues dev sim_ctrl_readl (sim_kzalloc true) 16 sr_volt_table
      no_sr_data (boot (quiet_dev (fun _ => 0)))
    = Ret {| nvalue_count := 0; nvalue_table := NullPtr;
             lvt_nvalue_count := 1;
             lvt_nvalue_table :=
               Ptr [{| efuse_offs := 0x240; nvalue := 0x00aabbcc;
                       errminlimit := 0; nvalue_volt_nominal := 1313000 |};
                    zeroed_nvalue; zeroed_nvalue] |} w'
    /\ trace dev w' = [].
Proof.
  destruct (lvt_sr_set_nvalues_keeps_fused dev sim_ctrl_readl (sim_kzalloc true)
              16 sim_efuse_word (fun _ _ => eq_refl) sr_volt_table sr_opps
              no_sr_data (boot (quiet_dev (fun _ => 0))) (quiet_dev (fun _ => 0))
              sr_volt_table_terminated eq_refl) as (Hrun & _).
  eexists. split; [exact Hrun |]. reflexivity.
Defined.

End Sim.
